(** * A Streamlit dashboard over in-memory pandas frames

    Shallow embedding of the three dashboard pages
    ([my_app/pages/1_Cyber Security.py], [1_Data_Science.py], [1_IT.py]),
    of their chat-completion wrapper and of [DATA/generate_tickets.py],
    with the properties the specification states about them. *)

From stdpp Require Import gmap strings list.
From Stdlib Require Import ZArith Lia Ascii.

Local Open Scope string_scope.
Local Open Scope Z_scope.
Local Open Scope list_scope.

(** ** Python exceptions and results *)

Inductive exn :=
| KeyError (key : string)
| IndexError
| TypeError
| ValueError
| InvalidIndexError
| UnboundLocalError (var : string).

Inductive result (A : Type) :=
| Ok (a : A)
| Raise (e : exn).
Arguments Ok {A} a.
Arguments Raise {A} e.

#[global] Instance result_ret : MRet result := fun A a => Ok a.
#[global] Instance result_bind : MBind result := fun A B f m =>
  match m with Ok a => f a | Raise e => Raise e end.

(** ** The part of pandas the pages use *)

Module Pandas.

(** A cell.  [VInt] is a number with an integer value, as an int64 column or
    a float64 column holds it (numbers with a fraction are not modelled),
    [VStr] a string, [VTime] an instant (seconds since 1970-01-01 00:00:00)
    and [VNaN] a missing cell (NaN, NaT). *)
Inductive value :=
| VInt (n : Z)
| VStr (s : string)
| VTime (t : Z)
| VNaN.

#[global] Instance value_eq_dec : EqDecision value.
Proof. solve_decision. Defined.

(** Element-wise [==] of a Series against a scalar: a missing cell equals
    nothing, and cells of different kinds are different. *)
Definition value_eqb (a b : value) : bool :=
  match a, b with
  | VInt x, VInt y => Z.eqb x y
  | VStr x, VStr y => String.eqb x y
  | VTime x, VTime y => Z.eqb x y
  | _, _ => false
  end.

(** Element-wise [!=] is the negation of [==], on missing cells too. *)
Definition value_neb (a b : value) : bool := negb (value_eqb a b).

(** A frame: the column labels, the row labels (the index) and the rows, each
    row holding one cell per column. *)
Record DataFrame := mkDF {
  columns : list string;
  index : list nat;
  rows : list (list value)
}.

#[global] Instance DataFrame_eq_dec : EqDecision DataFrame.
Proof. solve_decision. Defined.

(** [pd.DataFrame()] *)
Definition empty_frame : DataFrame := mkDF [] [] [].

(** [c in df.columns] *)
Definition has_column (c : string) (df : DataFrame) : bool :=
  bool_decide (c ∈ columns df).

(** [df.empty]: some axis has length 0. *)
Definition empty (df : DataFrame) : bool :=
  match columns df, rows df with
  | [], _ => true
  | _, [] => true
  | _, _ => false
  end.

(** [len(df)] and [df.shape[0]] *)
Definition len (df : DataFrame) : nat := length (rows df).

(** Position of the column labelled [c]. *)
Fixpoint col_index (c : string) (cols : list string) : option nat :=
  match cols with
  | [] => None
  | c' :: cols' =>
      if String.eqb c c' then Some O else S <$> col_index c cols'
  end.

(** The cell of row [r] at position [j]. *)
Definition cell_at (j : nat) (r : list value) : value := nth j r VNaN.

(** The cell of row [r] under column [c], when the frame has that column. *)
Definition cell (cols : list string) (c : string) (r : list value) : option value :=
  j ← col_index c cols; Some (cell_at j r).

(** The positions of the columns labelled [c]: a label can occur more than
    once, as after [df.columns.str.lower()] on a file with the headers
    [ID] and [id]. *)
Fixpoint positions (c : string) (cols : list string) : list nat :=
  match cols with
  | [] => []
  | c' :: cols' =>
      let rest := S <$> positions c cols' in
      if String.eqb c c' then O :: rest else rest
  end.

(** The label [c] occurs more than once among the columns. *)
Definition duplicated (c : string) (df : DataFrame) : bool :=
  (1 <? length (positions c (columns df)))%nat.

(** The cells at position [j], row by row. *)
Definition column_at (df : DataFrame) (j : nat) : list value :=
  map (cell_at j) (rows df).

(** What [df[c]] selects: the column, or, when the label occurs more than
    once, the frame of the columns that carry it. *)
Inductive selection :=
| Column (s : list value)
| SubFrame (cs : list (list value)).

(** [df[c]], [KeyError] without a column of that label. *)
Definition getitem (df : DataFrame) (c : string) : result selection :=
  match positions c (columns df) with
  | [] => Raise (KeyError c)
  | [j] => Ok (Column (column_at df j))
  | js => Ok (SubFrame (column_at df <$> js))
  end.

(** [series == v] and [series != v] *)
Definition series_eq (s : list value) (v : value) : list bool :=
  map (fun x => value_eqb x v) s.
Definition series_ne (s : list value) (v : value) : list bool :=
  map (fun x => value_neb x v) s.

(** The result of a comparison: a boolean Series, or a boolean frame when a
    sub-frame was compared. *)
Inductive mask :=
| RowMask (bs : list bool)
| FrameMask (bss : list (list bool)).

(** [df[c] == v] and [df[c] != v] *)
Definition sel_eq (sel : selection) (v : value) : mask :=
  match sel with
  | Column s => RowMask (series_eq s v)
  | SubFrame cs => FrameMask ((fun s => series_eq s v) <$> cs)
  end.
Definition sel_ne (sel : selection) (v : value) : mask :=
  match sel with
  | Column s => RowMask (series_ne s v)
  | SubFrame cs => FrameMask ((fun s => series_ne s v) <$> cs)
  end.

(** Boolean indexing keeps the entries whose mask bit is set. *)
Fixpoint mask_select {A : Type} (mask : list bool) (l : list A) : list A :=
  match mask, l with
  | b :: mask', x :: l' =>
      if b then x :: mask_select mask' l' else mask_select mask' l'
  | _, _ => []
  end.

(** The rows a boolean Series selects; they keep their labels. *)
Definition select_rows (df : DataFrame) (bs : list bool) : DataFrame :=
  mkDF (columns df) (mask_select bs (index df)) (mask_select bs (rows df)).

(** [df[mask]]: with a boolean frame, which comes from a duplicated label,
    pandas cannot align the mask with the frame and raises [ValueError]. *)
Definition bool_index (df : DataFrame) (m : mask) : result DataFrame :=
  match m with
  | RowMask bs => Ok (select_rows df bs)
  | FrameMask _ => Raise ValueError
  end.

(** [df.reset_index(drop=True)] *)
Definition reset_index (df : DataFrame) : DataFrame :=
  mkDF (columns df) (seq 0 (len df)) (rows df).

(** [df.iloc[0]]: the first row with its column labels, [IndexError] when
    there is none. *)
Record Series := mkSeries { labels : list string; cells : list value }.

#[global] Instance Series_eq_dec : EqDecision Series.
Proof. solve_decision. Defined.

Definition iloc0 (df : DataFrame) : result Series :=
  match rows df with
  | r :: _ => Ok (mkSeries (columns df) r)
  | [] => Raise IndexError
  end.

(** ** Numbers and column types

    An int64 column wraps around at 64 bits; a float64 column holds the
    integers up to 2^53 exactly and rounds the larger ones to 53 significant
    bits (to nearest, ties to even). *)
Definition wrap64 (z : Z) : Z := (z + 2 ^ 63) mod 2 ^ 64 - 2 ^ 63.

Definition float64 (z : Z) : Z :=
  let a := Z.abs z in
  if a <=? 2 ^ 53 then z
  else
    let ulp := 2 ^ (Z.log2 a - 52) in
    let q := a / ulp in
    let r := a mod ulp in
    let q' := if 2 * r <? ulp then q
              else if ulp <? 2 * r then q + 1
              else if Z.even q then q else q + 1 in
    Z.sgn z * (q' * ulp).

(** A cell converted to float64. *)
Definition to_float (v : value) : value :=
  match v with VInt n => VInt (float64 n) | _ => v end.

Definition is_int (v : value) : bool :=
  match v with VInt _ => true | _ => false end.
Definition is_numeric (v : value) : bool :=
  match v with VInt _ | VNaN => true | _ => false end.
Definition is_instant (v : value) : bool :=
  match v with VTime _ | VNaN => true | _ => false end.
Definition is_text (v : value) : bool :=
  match v with VStr _ | VNaN => true | _ => false end.
Definition is_str (v : value) : bool :=
  match v with VStr _ => true | _ => false end.
Definition is_missing (v : value) : bool :=
  match v with VNaN => true | _ => false end.

(** The type of a column, taken to be the one pandas infers from its cells
    (as [read_csv] and the [DataFrame] constructor do): integers alone make
    an int64 column, integers and missing cells a float64 column, instants a
    datetime64 column, strings a [str] column (pandas 3), and any other mix,
    or no cell at all, an object column. *)
Inductive dtype := Int64 | Float64 | Datetime | Str | Object.

Definition dtype_of (s : list value) : dtype :=
  match s with
  | [] => Object
  | _ =>
      if forallb is_int s then Int64
      else if forallb is_numeric s then Float64
      else if forallb is_instant s then Datetime
      else if forallb is_text s then Str
      else Object
  end.

(** Whether an assignment of [v] into a column of type [d] is accepted.
    Otherwise it raises [TypeError] (pandas 3; earlier versions change the
    column's type with a warning).  A missing value is accepted everywhere:
    a column of integers becomes a float64 column for it (see [as_float]).
    A string that pandas can read as a date is not told apart from other
    strings. *)
Definition accepts (d : dtype) (v : value) : bool :=
  match d, v with
  | Int64, VInt n => (- 2 ^ 63 <=? n) && (n <? 2 ^ 63)
  | Float64, VInt n => float64 n =? n
  | (Int64 | Float64), VNaN => true
  | Datetime, (VTime _ | VNaN) => true
  | Str, (VStr _ | VNaN) => true
  | Object, _ => true
  | _, _ => false
  end.

(** [series.max() + 1].  On a numeric column [max] skips the missing cells
    (and is NaN when every cell is missing) and [+ 1] adds one, in the
    arithmetic of the column's type; on a column that holds a string or a
    timestamp, [max] or [+ 1] raises [TypeError]. *)
Definition int_cells (s : list value) : list Z :=
  omap (fun v => match v with VInt n => Some n | _ => None end) s.

Definition max_list (n : Z) (l : list Z) : Z := fold_left Z.max l n.

Definition series_max_plus_one (s : list value) : result value :=
  if forallb is_numeric s then
    match int_cells s with
    | [] => Ok VNaN
    | n :: l =>
        let m := max_list n l in
        Ok (VInt (if forallb is_int s then wrap64 (m + 1) else float64 (m + 1)))
    end
  else Raise TypeError.

(** [df[c].max() + 1].  On a sub-frame the result is a Series of one number
    per column, or a [TypeError] as above; the frame [handle_add] builds
    around that Series is concatenated to a frame with a duplicated label,
    which raises InvalidIndexError (see [concat]) before anything is stored:
    the whole is modelled as raising here. *)
Definition max_plus_one (sel : selection) : result value :=
  match sel with
  | Column s => series_max_plus_one s
  | SubFrame cs =>
      if forallb (forallb is_numeric) cs then Raise InvalidIndexError
      else Raise TypeError
  end.

(** [series.sort_values().tolist()]: the cells in ascending order, the
    missing ones last; cells of different kinds cannot be compared, and
    [TypeError] is raised.  Equal cells are the same value, so the order of
    ties does not show. *)
Definition kind (v : value) : nat :=
  match v with VInt _ => 0 | VStr _ => 1 | VTime _ => 2 | VNaN => 3 end.

Definition value_leb (a b : value) : bool :=
  match a, b with
  | VInt x, VInt y => x <=? y
  | VStr x, VStr y => String.leb x y
  | VTime x, VTime y => x <=? y
  | _, _ => true
  end.

Fixpoint insert_sorted (v : value) (l : list value) : list value :=
  match l with
  | [] => [v]
  | x :: l' => if value_leb v x then v :: l else x :: insert_sorted v l'
  end.

Definition same_kind (l : list value) : bool :=
  match l with
  | [] => true
  | v :: l' => forallb (fun x => (kind x =? kind v)%nat) l'
  end.

Definition series_sort_values (s : list value) : result (list value) :=
  let present := List.filter (fun v => negb (is_missing v)) s in
  if same_kind present
  then Ok (foldr insert_sorted [] present ++ List.filter is_missing s)
  else Raise TypeError.

(** [df[c].sort_values().tolist()]; [sort_values] of a frame needs the
    argument [by] and raises [TypeError] without it. *)
Definition sort_values (sel : selection) : result (list value) :=
  match sel with
  | Column s => series_sort_values s
  | SubFrame _ => Raise TypeError
  end.

(** [pd.concat([a, b], ignore_index=True)]: the columns are the union in order
    of first appearance, the rows of [a] come first, the index is renumbered.
    A column that one frame lacks is missing in that frame's rows.  A column
    of the result that holds numbers and a missing cell is float64: its
    integers are converted.  Frames whose columns differ can only be aligned
    when no label is duplicated: otherwise InvalidIndexError is raised. *)
Definition union_columns (a b : list string) : list string :=
  a ++ List.filter (fun c => negb (bool_decide (c ∈ a))) b.

(** The cells of a frame under the label [c], missing without the column. *)
Definition column_cells (df : DataFrame) (c : string) : list value :=
  map (fun r => default VNaN (cell (columns df) c r)) (rows df).

Definition float_column (a b : DataFrame) (c : string) : bool :=
  let cells := column_cells a c ++ column_cells b c in
  forallb is_numeric cells && existsb is_missing cells.

(** A row with the columns [own] under the columns [cols] of the result. *)
Definition realign (a b : DataFrame) (cols own : list string) (r : list value)
    : list value :=
  map (fun c => let v := default VNaN (cell own c r) in
                if float_column a b c then to_float v else v) cols.

Definition union_concat (a b : DataFrame) : DataFrame :=
  let cols := union_columns (columns a) (columns b) in
  let rs := map (realign a b cols (columns a)) (rows a)
            ++ map (realign a b cols (columns b)) (rows b) in
  mkDF cols (seq 0 (length rs)) rs.

Definition concat (a b : DataFrame) : result DataFrame :=
  if bool_decide (NoDup (columns a)) && bool_decide (NoDup (columns b))
  then Ok (union_concat a b)
  else if bool_decide (columns a = columns b)
  then Ok (mkDF (columns a) (seq 0 (length (rows a ++ rows b))) (rows a ++ rows b))
  else Raise InvalidIndexError.

(** [df.loc[idx, key] = v] with [idx] a list of row labels: the rows carrying
    one of the labels get [v] under every column labelled [key]; a column the
    frame does not have yet is added at the end, missing in the other rows.
    The columns written to must be of a type that accepts [v]; [idx] is a
    non-empty list of labels of the frame, as the handlers pass it. *)
Definition assign_cells (cols : list string) (key : string) (v : value)
    (r : list value) : list value :=
  zip_with (fun c x => if String.eqb c key then v else x) cols r.

Definition loc_assign (idx : list nat) (key : string) (v : value)
    (df : DataFrame) : DataFrame :=
  if has_column key df then
    mkDF (columns df) (index df)
      (zip_with (fun (i : nat) r =>
                   if bool_decide (i ∈ idx) then assign_cells (columns df) key v r
                   else r)
         (index df) (rows df))
  else
    mkDF (columns df ++ [key]) (index df)
      (zip_with (fun (i : nat) r => r ++ [if bool_decide (i ∈ idx) then v else VNaN])
         (index df) (rows df)).

Definition writable (key : string) (v : value) (df : DataFrame) : bool :=
  forallb (fun j => accepts (dtype_of (column_at df j)) v)
    (positions key (columns df)).

(** The columns labelled [key] that hold numbers, as float64 columns. *)
Definition as_float (key : string) (df : DataFrame) : DataFrame :=
  mkDF (columns df) (index df)
    (map (imap (fun j x =>
                  if bool_decide (j ∈ positions key (columns df))
                     && forallb is_numeric (column_at df j)
                  then to_float x else x))
       (rows df)).

(** The frame after an accepted assignment: a missing value makes the
    columns of numbers it is written to float64 columns. *)
Definition loc_write (idx : list nat) (key : string) (v : value)
    (df : DataFrame) : DataFrame :=
  loc_assign idx key v (if is_missing v then as_float key df else df).

Definition loc_set (idx : list nat) (key : string) (v : value)
    (df : DataFrame) : result DataFrame :=
  if writable key v df then Ok (loc_write idx key v df) else Raise TypeError.

(** [pd.DataFrame([{c1: v1, ...}])]: one row, labelled 0. *)
Definition one_row (kvs : list (string * value)) : DataFrame :=
  mkDF (kvs.*1) [0%nat] [kvs.*2].

End Pandas.
Export Pandas.

(** ** Dates *)

Module Datetime.

(** Days from 1970-01-01 to the civil date [y]-[m]-[d] (proleptic Gregorian
    calendar), as [datetime(y, m, d)] counts them. *)
Definition days_from_civil (y m d : Z) : Z :=
  let y' := if m <=? 2 then y - 1 else y in
  let era := y' / 400 in
  let yoe := y' - era * 400 in
  let mp := (m + 9) mod 12 in
  let doy := (153 * mp + 2) / 5 + d - 1 in
  let doe := yoe * 365 + yoe / 4 - yoe / 100 + doy in
  era * 146097 + doe - 719468.

(** The civil date (year, month, day) of a day count. *)
Definition civil_from_days (z : Z) : Z * Z * Z :=
  let z' := z + 719468 in
  let era := z' / 146097 in
  let doe := z' - era * 146097 in
  let yoe := (doe - doe / 1460 + doe / 36524 - doe / 146096) / 365 in
  let doy := doe - (365 * yoe + yoe / 4 - yoe / 100) in
  let mp := (5 * doy + 2) / 153 in
  let d := doy - (153 * mp + 2) / 5 + 1 in
  let m := if mp <? 10 then mp + 3 else mp - 9 in
  let y := yoe + era * 400 in
  (if m <=? 2 then y + 1 else y, m, d).

(** [datetime(y, m, d)]: midnight of that day, in seconds since the epoch. *)
Definition datetime (y m d : Z) : Z := days_from_civil y m d * 86400.

(** [timedelta(days=d, hours=h, minutes=m)] in seconds. *)
Definition timedelta (days hours minutes : Z) : Z :=
  days * 86400 + hours * 3600 + minutes * 60.

(** Decimal digits of a number, zero-padded to [width] characters. *)
Definition digit (n : Z) : ascii := ascii_of_nat (Z.to_nat (48 + n mod 10)).

Fixpoint digits (width : nat) (n : Z) (acc : string) : string :=
  match width with
  | O => acc
  | S w => digits w (n / 10) (String (digit n) acc)
  end.

Definition pad (width : nat) (n : Z) : string := digits width n EmptyString.

(** [t.strftime('%Y-%m-%d %H:%M:%S')] (years 0 to 9999). *)
Definition strftime (t : Z) : string :=
  let days := t / 86400 in
  let secs := t mod 86400 in
  let '(y, m, d) := civil_from_days days in
  (pad 4 y +:+ "-" +:+ pad 2 m +:+ "-" +:+ pad 2 d +:+ " " +:+
   pad 2 (secs / 3600) +:+ ":" +:+ pad 2 (secs mod 3600 / 60) +:+ ":" +:+
   pad 2 (secs mod 60))%string.

End Datetime.

(** ** Streamlit: session state and the alerts a page shows *)

Module Streamlit.

(** What went wrong, for an [st.error]; the texts of the messages, which name
    the page's kind of record, are not modelled. *)
Inductive problem :=
| MissingIdColumn   (* "Cannot update/delete: 'id' column is missing." *)
| NotFound.         (* "... ID ... not found for update/deletion." *)

#[global] Instance problem_eq_dec : EqDecision problem.
Proof. solve_decision. Defined.

Inductive alert :=
| Success           (* st.success(...) *)
| Error (why : problem).   (* st.error(...) *)

#[global] Instance alert_eq_dec : EqDecision alert.
Proof. solve_decision. Defined.

(** The state a handler runs in: [st.session_state], restricted to the frames
    it stores, and the alerts shown so far. *)
Record St := mkSt {
  session_state : gmap string DataFrame;
  alerts : list alert
}.

(** A handler reads and writes the state, and may raise; what a handler that
    raises has stored by then is not kept. *)
Definition App (A : Type) : Type := St → result (A * St).

#[global] Instance App_ret : MRet App := fun A a s => Ok (a, s).
#[global] Instance App_bind : MBind App := fun A B f m s =>
  match m s with
  | Ok (a, s') => f a s'
  | Raise e => Raise e
  end.

(** [st.session_state[k]] *)
Definition session_get (k : string) : App DataFrame := fun s =>
  match session_state s !! k with
  | Some df => Ok (df, s)
  | None => Raise (KeyError k)
  end.

(** [st.session_state[k] = df] *)
Definition session_set (k : string) (df : DataFrame) : App unit := fun s =>
  Ok (tt, mkSt (<[k := df]> (session_state s)) (alerts s)).

(** [st.success(...)], [st.error(...)] *)
Definition show (a : alert) : App unit := fun s =>
  Ok (tt, mkSt (session_state s) (alerts s ++ [a])).

(** A pandas call inside a handler. *)
Definition lift {A : Type} (r : result A) : App A := fun s =>
  match r with
  | Ok a => Ok (a, s)
  | Raise e => Raise e
  end.

(** [for x in l: body(x)] *)
Fixpoint for_each {A : Type} (l : list A) (body : A → App unit) : App unit :=
  match l with
  | [] => mret tt
  | x :: l' => body x ;; for_each l' body
  end.

End Streamlit.
Export Streamlit.

(** ** What the pages share: reading the CSV file *)

(** The outcome of [pd.read_csv(CSV_FILE_PATH, index_col=False)]. *)
Inductive read_csv_result :=
| CsvFrame (df : DataFrame)
| CsvFileNotFound            (* raises FileNotFoundError *)
| CsvOtherError.             (* raises any other exception *)

(** The library functions the loaders call: [str.lower] and the conversion
    [pd.to_datetime(_, errors='coerce')] of a column. *)
Class Library := {
  str_lower : string → string;
  to_datetime : list value → list value
}.

(** [df.columns = labels] *)
Definition set_columns (labels : list string) (df : DataFrame) : DataFrame :=
  mkDF labels (index df) (rows df).

(** [df[c] = s] for a column [c] the frame has. *)
Definition setitem (c : string) (s : list value) (df : DataFrame) : DataFrame :=
  match col_index c (columns df) with
  | Some j => mkDF (columns df) (index df)
                (zip_with (fun v r => <[j := v]> r) s (rows df))
  | None => df
  end.

(** [pd.DataFrame({c1: [..], c2: [..], ...})] from columns of [n] cells. *)
Definition from_columns (n : nat) (data : list (string * list value)) : DataFrame :=
  mkDF (data.*1) (seq 0 n)
    (map (fun i => map (fun col => cell_at i col.2) data) (seq 0 n)).

(** The form data of a new record, [{'title': ..., 'severity': ...}]. *)
Record new_data := mkNew { title : string; severity : string }.

(** What the dashboard shows: [st.info("No ... to display.")], or the three
    metrics.  [display_dashboard] is modelled up to the metrics; the code
    after them, which draws the charts and sorts the table, is not. *)
Inductive view :=
| NoData
| Metrics (total open critical : nat).

(** ** The Cyber Security page *)

Module Incidents.

Definition load_initial_incidents `{Library} (csv : read_csv_result) : DataFrame :=
  match csv with
  | CsvFrame incidents_df =>
      let incidents_df := set_columns (map str_lower (columns incidents_df)) incidents_df in
      if has_column "timestamp" incidents_df then
        match getitem incidents_df "timestamp" with
        | Ok (Column s) => setitem "timestamp" (to_datetime s) incidents_df
        | _ => empty_frame
        end
      else incidents_df
  | CsvFileNotFound =>
      from_columns 6 [
        ("id", VInt <$> [101; 102; 103; 104; 105; 106]);
        ("title", VStr <$> ["Phishing Campaign"; "Server Breach"; "DDoS Attack";
                            "Misconfiguration"; "Insider Threat"; "Patching Failure"]);
        ("severity", VStr <$> ["High"; "Critical"; "Medium"; "Low"; "Critical"; "Medium"]);
        ("status", VStr <$> ["Open"; "In Progress"; "Open"; "Closed"; "Open"; "In Progress"]);
        ("timestamp", VTime <$> [
           Datetime.datetime 2025 11 20; Datetime.datetime 2025 11 25;
           Datetime.datetime 2025 11 28; Datetime.datetime 2025 11 15;
           Datetime.datetime 2025 11 29; Datetime.datetime 2025 11 22])]
  | CsvOtherError => empty_frame
  end.

Definition get_incident_row (df : DataFrame) (incident_id : option value)
    : result (option Series) :=
  match incident_id with
  | None => Ok None
  | Some incident_id =>
      ids ← getitem df "id";
      filtered_df ← bool_index df (sel_eq ids incident_id);
      if negb (empty filtered_df) then r ← iloc0 filtered_df; Ok (Some r)
      else Ok None
  end.

Definition handle_add_incident (new_data : new_data) (now : Z) : App unit :=
  current_df ← session_get "incidents_df";
  new_id ← lift (if negb (empty current_df) && has_column "id" current_df
                 then ids ← getitem current_df "id"; max_plus_one ids
                 else Ok (VInt 1000));
  let new_row := one_row [
    ("id", new_id);
    ("title", VStr (title new_data));
    ("severity", VStr (severity new_data));
    ("status", VStr "Open");
    ("timestamp", VTime now)] in
  df ← lift (concat new_row current_df);
  session_set "incidents_df" df;;
  show Success.

Definition handle_update_incident (incident_id : value)
    (updated_data : list (string * value)) : App unit :=
  current_df ← session_get "incidents_df";
  if negb (has_column "id" current_df) then show (Error MissingIdColumn)
  else
    ids ← lift (getitem current_df "id");
    matching ← lift (bool_index current_df (sel_eq ids incident_id));
    let idx_to_update := index matching in
    if negb (bool_decide (idx_to_update = [])) then
      for_each updated_data (fun '(key, value) =>
        df ← session_get "incidents_df";
        df ← lift (loc_set idx_to_update key value df);
        session_set "incidents_df" df);;
      show Success
    else show (Error NotFound).

Definition handle_delete_incident (incident_id : value) : App unit :=
  current_df ← session_get "incidents_df";
  if negb (has_column "id" current_df) then show (Error MissingIdColumn)
  else
    let rows_before := len current_df in
    ids ← lift (getitem current_df "id");
    kept ← lift (bool_index current_df (sel_ne ids incident_id));
    session_set "incidents_df" (reset_index kept);;
    df ← session_get "incidents_df";
    let rows_after := len df in
    if (rows_after <? rows_before)%nat then show Success
    else show (Error NotFound).

Definition display_dashboard (df : DataFrame) : result view :=
  if empty df then Ok NoData
  else
    let total_incidents := len df in
    open_incidents ←
      (if has_column "status" df
       then s ← getitem df "status"; d ← bool_index df (sel_eq s (VStr "Open")); Ok (len d)
       else Ok 0%nat);
    critical_incidents ←
      (if has_column "severity" df
       then s ← getitem df "severity"; d ← bool_index df (sel_eq s (VStr "Critical"));
            Ok (len d)
       else Ok 0%nat);
    Ok (Metrics total_incidents open_incidents critical_incidents).

End Incidents.

(** ** The Data Science page *)

Module Datasets.

Definition load_initial_datasets `{Library} (csv : read_csv_result) : DataFrame :=
  match csv with
  | CsvFrame datasets_df =>
      let datasets_df := set_columns (map str_lower (columns datasets_df)) datasets_df in
      if has_column "timestamp" datasets_df then
        match getitem datasets_df "timestamp" with
        | Ok (Column s) => setitem "timestamp" (to_datetime s) datasets_df
        | _ => empty_frame
        end
      else datasets_df
  | CsvFileNotFound =>
      from_columns 6 [
        ("id", VInt <$> [101; 102; 103; 104; 105; 106]);
        ("title", VStr <$> ["User Log"; "Network Flow"; "Email Headers";
                            "Firewall Logs"; "Endpoint Alerts"; "Threat Intel"]);
        ("severity", VStr <$> ["High"; "Critical"; "Medium"; "Low"; "Critical"; "Medium"]);
        ("status", VStr <$> ["Open"; "In Progress"; "Open"; "Closed"; "Open"; "In Progress"]);
        ("timestamp", VTime <$> [
           Datetime.datetime 2025 11 20; Datetime.datetime 2025 11 25;
           Datetime.datetime 2025 11 28; Datetime.datetime 2025 11 15;
           Datetime.datetime 2025 11 29; Datetime.datetime 2025 11 22])]
  | CsvOtherError => empty_frame
  end.

Definition get_dataset_row (df : DataFrame) (dataset_id : option value)
    : result (option Series) :=
  match dataset_id with
  | None => Ok None
  | Some dataset_id =>
      ids ← getitem df "id";
      filtered_df ← bool_index df (sel_eq ids dataset_id);
      if negb (empty filtered_df) then r ← iloc0 filtered_df; Ok (Some r)
      else Ok None
  end.

Definition handle_add_dataset (new_data : new_data) (now : Z) : App unit :=
  current_df ← session_get "datasets_df";
  new_id ← lift (if negb (empty current_df) && has_column "id" current_df
                 then ids ← getitem current_df "id"; max_plus_one ids
                 else Ok (VInt 1));
  let new_row := one_row [
    ("id", new_id);
    ("title", VStr (title new_data));
    ("severity", VStr (severity new_data));
    ("status", VStr "Open");
    ("timestamp", VTime now)] in
  df ← lift (concat new_row current_df);
  session_set "datasets_df" df;;
  show Success.

Definition handle_update_dataset (dataset_id : value)
    (updated_data : list (string * value)) : App unit :=
  current_df ← session_get "datasets_df";
  if negb (has_column "id" current_df) then show (Error MissingIdColumn)
  else
    ids ← lift (getitem current_df "id");
    matching ← lift (bool_index current_df (sel_eq ids dataset_id));
    let idx_to_update := index matching in
    if negb (bool_decide (idx_to_update = [])) then
      for_each updated_data (fun '(key, value) =>
        df ← session_get "datasets_df";
        df ← lift (loc_set idx_to_update key value df);
        session_set "datasets_df" df);;
      show Success
    else show (Error NotFound).

Definition handle_delete_dataset (dataset_id : value) : App unit :=
  current_df ← session_get "datasets_df";
  if negb (has_column "id" current_df) then show (Error MissingIdColumn)
  else
    let rows_before := len current_df in
    ids ← lift (getitem current_df "id");
    kept ← lift (bool_index current_df (sel_ne ids dataset_id));
    session_set "datasets_df" (reset_index kept);;
    df ← session_get "datasets_df";
    let rows_after := len df in
    if (rows_after <? rows_before)%nat then show Success
    else show (Error NotFound).

Definition display_dashboard (df : DataFrame) : result view :=
  if empty df then Ok NoData
  else
    let total_datasets := len df in
    open_datasets ←
      (if has_column "status" df
       then s ← getitem df "status"; d ← bool_index df (sel_eq s (VStr "Open")); Ok (len d)
       else Ok 0%nat);
    critical_datasets ←
      (if has_column "severity" df
       then s ← getitem df "severity"; d ← bool_index df (sel_eq s (VStr "Critical"));
            Ok (len d)
       else Ok 0%nat);
    Ok (Metrics total_datasets open_datasets critical_datasets).

End Datasets.

(** ** The IT page *)

Module Tickets.

Definition get_tickets_from_csv `{Library} (csv : read_csv_result) : DataFrame :=
  match csv with
  | CsvFrame tickets_df =>
      if has_column "timestamp" tickets_df then
        match getitem tickets_df "timestamp" with
        | Ok (Column s) => setitem "timestamp" (to_datetime s) tickets_df
        | _ => empty_frame
        end
      else tickets_df
  | CsvFileNotFound =>
      from_columns 6 [
        ("id", VInt <$> [1001; 1002; 1003; 1004; 1005; 1006]);
        ("title", VStr <$> ["Phishing Campaign"; "Server Breach"; "DDoS Attack";
                            "Misconfiguration"; "Insider Threat"; "Patching Failure"]);
        ("severity", VStr <$> ["High"; "Critical"; "Medium"; "Low"; "Critical"; "Medium"]);
        ("status", VStr <$> ["Open"; "In Progress"; "Open"; "Closed"; "Open"; "In Progress"]);
        ("timestamp", VTime <$> [
           Datetime.datetime 2025 11 20; Datetime.datetime 2025 11 25;
           Datetime.datetime 2025 11 28; Datetime.datetime 2025 11 15;
           Datetime.datetime 2025 11 29; Datetime.datetime 2025 11 22])]
  | CsvOtherError => empty_frame
  end.

Definition get_ticket_row (df : DataFrame) (ticket_id : option value)
    : result (option Series) :=
  match ticket_id with
  | None => Ok None
  | Some ticket_id =>
      ids ← getitem df "id";
      filtered_df ← bool_index df (sel_eq ids ticket_id);
      if negb (empty filtered_df) then r ← iloc0 filtered_df; Ok (Some r)
      else Ok None
  end.

Definition handle_add_ticket (new_data : new_data) (now : Z) : App unit :=
  current_df ← session_get "tickets_df";
  new_id ← lift (if negb (empty current_df) && has_column "id" current_df
                 then ids ← getitem current_df "id"; max_plus_one ids
                 else Ok (VInt 1000));
  let new_row := one_row [
    ("id", new_id);
    ("title", VStr (title new_data));
    ("severity", VStr (severity new_data));
    ("status", VStr "Open");
    ("timestamp", VTime now)] in
  df ← lift (concat new_row current_df);
  session_set "tickets_df" df;;
  show Success.

Definition handle_update_ticket (ticket_id : value)
    (updated_data : list (string * value)) : App unit :=
  current_df ← session_get "tickets_df";
  if negb (has_column "id" current_df) then show (Error MissingIdColumn)
  else
    ids ← lift (getitem current_df "id");
    matching ← lift (bool_index current_df (sel_eq ids ticket_id));
    let idx_to_update := index matching in
    if negb (bool_decide (idx_to_update = [])) then
      for_each updated_data (fun '(key, value) =>
        df ← session_get "tickets_df";
        df ← lift (loc_set idx_to_update key value df);
        session_set "tickets_df" df);;
      show Success
    else show (Error NotFound).

Definition handle_delete_ticket (ticket_id : value) : App unit :=
  current_df ← session_get "tickets_df";
  if negb (has_column "id" current_df) then show (Error MissingIdColumn)
  else
    let rows_before := len current_df in
    ids ← lift (getitem current_df "id");
    kept ← lift (bool_index current_df (sel_ne ids ticket_id));
    session_set "tickets_df" (reset_index kept);;
    df ← session_get "tickets_df";
    let rows_after := len df in
    if (rows_after <? rows_before)%nat then show Success
    else show (Error NotFound).

Definition display_dashboard (df : DataFrame) : result view :=
  if empty df then Ok NoData
  else
    let total_tickets := len df in
    open_tickets ←
      (if has_column "status" df
       then s ← getitem df "status"; d ← bool_index df (sel_eq s (VStr "Open")); Ok (len d)
       else Ok 0%nat);
    critical_tickets ←
      (if has_column "severity" df
       then s ← getitem df "severity"; d ← bool_index df (sel_eq s (VStr "Critical"));
            Ok (len d)
       else Ok 0%nat);
    Ok (Metrics total_tickets open_tickets critical_tickets).

End Tickets.

(** ** The ticket generator, [DATA/generate_tickets.py] *)

Module Generator.

(** The random stream: the raw draws of the generator, in the order it makes
    them.  [randbelow n] reduces the next draw to the range [0, n). *)
Definition Rand (A : Type) : Type := (nat → nat) → nat → A * nat.

#[global] Instance Rand_ret : MRet Rand := fun A a _ pos => (a, pos).
#[global] Instance Rand_bind : MBind Rand := fun A B f m stream pos =>
  let '(a, pos') := m stream pos in f a stream pos'.

Definition randbelow (n : nat) : Rand nat := fun stream pos =>
  ((stream pos mod n)%nat, S pos).

(** [random.choice(seq)] on a sequence of strings; every sequence the
    generator draws from has an element. *)
Definition choice (seq : list string) : Rand string :=
  i ← randbelow (length seq); mret (nth i seq EmptyString).

(** [random.randint(a, b)], both ends included. *)
Definition randint (a b : Z) : Rand Z :=
  i ← randbelow (Z.to_nat (b - a + 1)); mret (a + Z.of_nat i).

Definition ticket_types : list string :=
  ["hardware"; "software"; "network"; "email"; "access"; "security";
   "backup"; "database"].
Definition severity_levels : list string :=
  ["Low"; "Medium"; "High"].
Definition status_options : list string :=
  ["Open"; "In Progress"; "Closed"; "Resolved"].

Definition domains : list string :=
  ["company.com"; "enterprise.org"; "business.net"; "corp.io"; "tech.org"].
Definition departments : list string :=
  ["sales"; "marketing"; "engineering"; "finance"; "hr"; "operations";
   "support"; "research"].

Definition first_names : list string :=
  ["john"; "jane"; "mike"; "sarah"; "david"; "lisa"; "robert"; "emily";
   "chris"; "amanda"; "james"; "michelle"; "steven"; "rebecca"; "kevin";
   "jennifer"; "thomas"; "natalie"; "eric"; "susan"].
Definition last_names : list string :=
  ["smith"; "johnson"; "williams"; "brown"; "jones"; "miller"; "davis";
   "garcia"; "rodriguez"; "wilson"; "martinez"; "anderson"; "taylor";
   "thomas"; "moore"; "jackson"; "white"; "harris"].

(** The dictionaries [descriptions] and [data_fields], by ticket type. *)
Definition descriptions (ticket_type : string) : list string :=
  if String.eqb ticket_type "hardware" then
    ["Laptop overheating and shutting down randomly during presentations";
     "Desktop computer not powering on - no lights or sounds";
     "Monitor displaying distorted colors and flickering lines";
     "Keyboard keys not responding consistently during typing";
     "Printer paper jam error despite clear paper path";
     "Server disk space critically low at 98% capacity";
     "Workstation blue screen errors occurring multiple times daily";
     "Laptop battery not holding charge, lasts only 15 minutes";
     "Docking station not recognizing external monitors";
     "Server hardware failure detected in RAID controller"]
  else if String.eqb ticket_type "software" then
    ["Application crashing on startup with memory access violation";
     "Software license activation failed - invalid license key";
     "Program running extremely slow when processing large files";
     "Update installation stuck at 50% for over 2 hours";
     "Compatibility issues with new operating system update";
     "Plugin not loading correctly in design application";
     "Software freezing during use, requires force quit";
     "Installation package corrupted during download";
     "Application throwing database connection errors";
     "Software configuration reset after system reboot"]
  else if String.eqb ticket_type "network" then
    ["Intermittent internet connectivity in entire north building";
     "VPN connection timeout issues for remote team members";
     "WiFi signal weak in third floor conference room";
     "Network drive inaccessible with permission denied errors";
     "Slow file transfer speeds between departments";
     "DNS resolution failures for internal applications";
     "Port configuration required for new security system";
     "Network latency spikes during peak business hours";
     "Switch port malfunctioning in server room rack 4B";
     "Wireless access point firmware needs urgent update"]
  else if String.eqb ticket_type "email" then
    ["Outlook not syncing with Exchange server - connection timeout";
     "Legitimate emails being marked as spam by filter system";
     "Large attachments failing to send with size limit errors";
     "Calendar sync failed between mobile and desktop clients";
     "Email rules not executing automatically as configured";
     "Global address list not updating with new employees";
     "Email search functionality returning incomplete results";
     "Automatic replies not triggering during scheduled times";
     "Email client crashing when opening specific messages";
     "Signature formatting broken after recent update"]
  else if String.eqb ticket_type "access" then
    ["New employee needs access to project management software";
     "User account locked due to multiple failed login attempts";
     "Folder permissions need updating for quarterly project";
     "Database access required for financial reporting team";
     "VPN credentials not working for overseas contractor";
     "Application-specific roles need configuration";
     "Terminated employee access revocation incomplete";
     "Shared mailbox permissions need review and cleanup";
     "Multi-factor authentication device replacement needed";
     "Security group membership requires quarterly audit"]
  else if String.eqb ticket_type "security" then
    ["Critical Windows security patches need immediate deployment";
     "Firewall rules blocking legitimate application traffic";
     "Antivirus detection of potential malware in shared drive";
     "Security audit reveals compliance violations in user accounts";
     "Intrusion detection system generating false positives";
     "Password policy enforcement not working for service accounts";
     "Security certificate expiring for customer portal";
     "Data encryption required for sensitive client information";
     "Access logs showing suspicious login patterns";
     "Security training completion tracking implementation"]
  else if String.eqb ticket_type "backup" then
    ["Nightly backup failed due to insufficient storage space";
     "Backup verification process taking longer than expected";
     "Cloud backup synchronization stalled at 80% complete";
     "Backup restore test failed for critical database";
     "Backup retention policy needs configuration review";
     "Tape drive hardware failure in backup system";
     "Backup encryption key rotation required per policy";
     "Backup job scheduling conflict with maintenance window";
     "Incremental backup corruption detected during verification";
     "Backup storage capacity planning for next quarter"]
  else if String.eqb ticket_type "database" then
    ["Database performance degradation during peak hours";
     "SQL query timeout errors in reporting application";
     "Database connection pool exhaustion under load";
     "Index fragmentation causing slow query performance";
     "Database backup verification failed checksum test";
     "Table space running low, requires immediate attention";
     "Database replication lag between primary and secondary";
     "Stored procedure optimization needed for billing system";
     "Database log file growth exceeding allocated space";
     "Database version upgrade planning and testing"]
  else [].

Definition data_fields (ticket_type : string) : list string :=
  if String.eqb ticket_type "hardware" then
    ["Performance metrics"; "Hardware diagnostics"; "System logs";
     "Temperature readings"; "Power consumption data"]
  else if String.eqb ticket_type "software" then
    ["Application logs"; "Installation records"; "Error reports";
     "Performance analytics"; "Usage statistics"]
  else if String.eqb ticket_type "network" then
    ["Connectivity logs"; "Packet capture data"; "Network statistics";
     "Bandwidth usage"; "Latency measurements"]
  else if String.eqb ticket_type "email" then
    ["Configuration data"; "SMTP logs"; "Mail queue data";
     "Spam filter results"; "Delivery reports"]
  else if String.eqb ticket_type "access" then
    ["Audit logs"; "Permission records"; "Access control lists";
     "Login attempts"; "Security group data"]
  else if String.eqb ticket_type "security" then
    ["Security logs"; "Firewall rules"; "Threat detection data";
     "Virus scan results"; "Compliance reports"]
  else if String.eqb ticket_type "backup" then
    ["Backup logs"; "Verification reports"; "Storage metrics";
     "Recovery test results"; "Capacity planning data"]
  else if String.eqb ticket_type "database" then
    ["Query performance"; "Backup records"; "Connection logs";
     "Table statistics"; "Index usage data"]
  else [].

(** A field handed to [csv.writer]: the ticket id is a number, the rest text. *)
Inductive field :=
| FInt (n : Z)
| FStr (s : string).

#[global] Instance field_eq_dec : EqDecision field.
Proof. solve_decision. Defined.

Definition header : list field :=
  FStr <$> ["id"; "data"; "tickets_type"; "severity"; "status"; "description";
            "reported_by"; "created_at"].

Definition start_date : Z := Datetime.datetime 2024 1 1.

(** The body of the loop: the row of ticket [ticket_id]. *)
Definition ticket_row (ticket_id : Z) : Rand (list field) :=
  ticket_type ← choice ticket_types;
  severity ← choice severity_levels;
  status ← choice status_options;
  description ← choice (descriptions ticket_type);
  first_name ← choice first_names;
  last_name ← choice last_names;
  department ← choice departments;
  domain ← choice domains;
  let reporter := (first_name +:+ "." +:+ last_name +:+ "." +:+ department
                   +:+ "@" +:+ domain)%string in
  data_field ← choice (data_fields ticket_type);
  days_ago ← randint 0 90;
  hours_ago ← randint 0 23;
  minutes_ago ← randint 0 59;
  let created_at := start_date + Datetime.timedelta days_ago hours_ago minutes_ago in
  mret [FInt ticket_id; FStr data_field; FStr ticket_type; FStr severity;
        FStr status; FStr description; FStr reporter;
        FStr (Datetime.strftime created_at)].

(** [for ticket_id in ids: writer.writerow(...)] *)
Fixpoint write_rows (ids : list Z) : Rand (list (list field)) :=
  match ids with
  | [] => mret []
  | ticket_id :: ids' =>
      row ← ticket_row ticket_id;
      rest ← write_rows ids';
      mret (row :: rest)
  end.

(** The rows written to the file, from the random stream. *)
Definition generate_it_tickets_csv (stream : nat → nat) : list (list field) :=
  header :: (write_rows (seqZ 1 1000) stream 0%nat).1.

End Generator.

(** ** The chat-completion wrapper, [get_ai_response]

    The Cyber Security and IT pages carry the same function. *)

Module Chat.

(** A decoded JSON document; a [JObj] is the dictionary [response.json()]
    builds, so its keys are distinct. *)
#[warnings="-register-all"]
Inductive json :=
| JNull
| JBool (b : bool)
| JNum (n : Z)
| JStr (s : string)
| JArr (items : list json)
| JObj (fields : list (string * json)).

Definition API_KEY : string := EmptyString.
Definition OPENAI_API_URL : string := "https://api.openai.com/v1/chat/completions".
Definition OPENAI_MODEL : string := "gpt-4.1-mini".
Definition MAX_RETRIES : nat := 3.
Definition SYSTEM_INSTRUCTION : string := "You are a Data Science Specialist".

(** A chat message, [{"role": ..., "content": ...}]. *)
Record message := mkMsg { role : string; content : string }.

Record payload := mkPayload { model : string; messages : list message }.

(** What one [requests.post] meets. *)
Inductive post_result :=
| NoResponse          (* requests.post raises a RequestException: no response *)
| PostCrash           (* requests.post raises some other exception *)
| Response (status_code : Z) (body : option json).
                      (* a response; [body] is None when it is not JSON *)

(** The network, by attempt and request. *)
Definition network := nat → payload → post_result.

Inductive event :=
| Post (url authorization : string) (data : payload)
| StError                  (* st.error(...) *)
| Sleep (seconds : Z).       (* time.sleep(...) *)

(** How the call ends. *)
Inductive completion :=
| Return (v : json)
| Raised (e : exn).

Definition fallback_message : json :=
  JStr "I couldn't generate a clear response for that request.".
Definition authentication_message : json :=
  JStr "Authentication Error: The API Key is invalid or expired. Please check your key.".
Definition failure_message : json :=
  JStr "Failed to get a response after several tries. Check your connection or API status.".
Definition internal_error_message : json :=
  JStr "An internal error occurred.".

(** [d.get(k, default)]; None stands for the AttributeError of a value that
    is no dictionary. *)
Fixpoint assoc (k : string) (fields : list (string * json)) : option json :=
  match fields with
  | [] => None
  | (k', v) :: fields' => if String.eqb k k' then Some v else assoc k fields'
  end.

Definition dict_get (k : string) (otherwise : json) (d : json) : option json :=
  match d with
  | JObj fields => Some (default otherwise (assoc k fields))
  | _ => None
  end.

(** [v[0]]; None stands for the IndexError, KeyError or TypeError. *)
Definition item0 (v : json) : option json :=
  match v with
  | JArr (x :: _) => Some x
  | JStr (String c _) => Some (JStr (String c EmptyString))
  | _ => None
  end.

(** [result.get('choices', [{}])[0].get('message', {}).get('content')] *)
Definition generated_text (result : json) : option json :=
  choices ← dict_get "choices" (JArr [JObj []]) result;
  first ← item0 choices;
  msg ← dict_get "message" (JObj []) first;
  dict_get "content" JNull msg.

(** Truth value of a Python object. *)
Definition truthy (v : json) : bool :=
  match v with
  | JNull => false
  | JBool b => b
  | JNum n => negb (n =? 0)
  | JStr s => negb (String.eqb s EmptyString)
  | JArr items => negb (bool_decide (items = []))
  | JObj fields => negb (bool_decide (fields = []))
  end.

(** [response.raise_for_status()] raises an HTTPError on a 4xx or 5xx status. *)
Definition raise_for_status (status_code : Z) : bool :=
  (400 <=? status_code) && (status_code <? 600).

(** The messages of the request: the history, rebuilt message by message, and
    the prompt, under the system instruction. *)
Definition build_contents (prompt : string) (history : list message) : list message :=
  let contents :=
    fold_left (fun contents msg => contents ++ [mkMsg (role msg) (content msg)])
      history [] in
  contents ++ [mkMsg "user" prompt].

Definition payload_data (prompt : string) (history : list message) : payload :=
  mkPayload OPENAI_MODEL
    (mkMsg "system" SYSTEM_INSTRUCTION :: build_contents prompt history).

(** One turn of the retry loop ends the call or goes on to the next attempt,
    with the local variable [response] as it is then ([None]: not bound). *)
Inductive step :=
| Stop (c : completion)
| Next (response : option Z).

(** [except requests.exceptions.RequestException]: the handler reads
    [response.status_code], whatever [response] is bound to. *)
Definition on_request_exception (attempt : nat) (response : option Z)
    : list event * step :=
  match response with
  | None => ([], Stop (Raised (UnboundLocalError "response")))
  | Some status_code =>
      if status_code =? 401 then ([], Stop (Return authentication_message))
      else if (attempt <? MAX_RETRIES - 1)%nat
      then ([StError; Sleep (2 ^ Z.of_nat attempt)], Next response)
      else ([StError], Stop (Return failure_message))
  end.

(** The body of the [try]; a body that is not JSON makes [response.json()]
    raise [requests.exceptions.JSONDecodeError], a RequestException. *)
Definition try_once (net : network) (data : payload) (attempt : nat)
    (response : option Z) : list event * step :=
  let post := Post OPENAI_API_URL ("Bearer " +:+ API_KEY) data in
  match net attempt data with
  | NoResponse =>
      let '(evs, st) := on_request_exception attempt response in (post :: evs, st)
  | PostCrash => ([post; StError], Stop (Return internal_error_message))
  | Response status_code body =>
      let response := Some status_code in
      if raise_for_status status_code then
        let '(evs, st) := on_request_exception attempt response in (post :: evs, st)
      else
        match body with
        | None =>
            let '(evs, st) := on_request_exception attempt response in (post :: evs, st)
        | Some result =>
            match generated_text result with
            | Some text =>
                ([post], Stop (Return (if truthy text then text else fallback_message)))
            | None => ([post; StError], Stop (Return internal_error_message))
            end
        end
  end.

(** [for attempt in attempts: ...]; a loop that runs out returns None. *)
Fixpoint retry_loop (net : network) (data : payload) (attempts : list nat)
    (response : option Z) : list event * completion :=
  match attempts with
  | [] => ([], Return JNull)
  | attempt :: attempts' =>
      let '(evs, st) := try_once net data attempt response in
      match st with
      | Stop c => (evs, c)
      | Next response' =>
          let '(evs', c) := retry_loop net data attempts' response' in
          (evs ++ evs', c)
      end
  end.

Definition get_ai_response (net : network) (prompt : string)
    (history : list message) : list event * completion :=
  retry_loop net (payload_data prompt history) (seq 0 MAX_RETRIES) None.

End Chat.

(** ** The three pages side by side *)

Inductive page := CyberSecurity | DataScience | IT.

(** The session-state key under which a page stores its frame. *)
Definition key (p : page) : string :=
  match p with
  | CyberSecurity => "incidents_df"
  | DataScience => "datasets_df"
  | IT => "tickets_df"
  end.

Definition load_csv `{Library} (p : page) : read_csv_result → DataFrame :=
  match p with
  | CyberSecurity => Incidents.load_initial_incidents
  | DataScience => Datasets.load_initial_datasets
  | IT => Tickets.get_tickets_from_csv
  end.

Definition get_row (p : page) : DataFrame → option value → result (option Series) :=
  match p with
  | CyberSecurity => Incidents.get_incident_row
  | DataScience => Datasets.get_dataset_row
  | IT => Tickets.get_ticket_row
  end.

Definition handle_add (p : page) : new_data → Z → App unit :=
  match p with
  | CyberSecurity => Incidents.handle_add_incident
  | DataScience => Datasets.handle_add_dataset
  | IT => Tickets.handle_add_ticket
  end.

Definition handle_update (p : page) : value → list (string * value) → App unit :=
  match p with
  | CyberSecurity => Incidents.handle_update_incident
  | DataScience => Datasets.handle_update_dataset
  | IT => Tickets.handle_update_ticket
  end.

Definition handle_delete (p : page) : value → App unit :=
  match p with
  | CyberSecurity => Incidents.handle_delete_incident
  | DataScience => Datasets.handle_delete_dataset
  | IT => Tickets.handle_delete_ticket
  end.

Definition display_dashboard (p : page) : DataFrame → result view :=
  match p with
  | CyberSecurity => Incidents.display_dashboard
  | DataScience => Datasets.display_dashboard
  | IT => Tickets.display_dashboard
  end.

(** [display_crud_form], the update tab up to [current_data]: when the frame
    has an 'id' column and is not empty, the ids are sorted for the select
    box, and the row of the id picked there ([selected_update_id], None when
    there is nothing to pick) is looked up. *)
Definition update_tab_current_data (p : page) (df : DataFrame)
    (selected_update_id : option value) : result (option Series) :=
  let can_manage := has_column "id" df in
  if can_manage && negb (empty df) then
    ids ← getitem df "id";
    _ ← sort_values ids;
    match selected_update_id with
    | Some _ => get_row p df selected_update_id
    | None => Ok None
    end
  else Ok None.

(** Whether the loader of a page puts the column labels in lower case. *)
Definition lowercases_columns (p : page) : bool :=
  match p with
  | CyberSecurity => true
  | DataScience => true
  | IT => false
  end.

(** The id a page gives the first record of a frame without ids. *)
Definition first_id (p : page) : Z :=
  match p with
  | CyberSecurity => 1000
  | DataScience => 1
  | IT => 1000
  end.

(** ** Notions the statements use *)

(** The cell of a row under a column, missing when the frame has no such
    column. *)
Definition lookup_cell (cols : list string) (c : string) (r : list value) : value :=
  default VNaN (cell cols c r).

(** The id of a row of [df]. *)
Definition row_id (df : DataFrame) (r : list value) : value :=
  lookup_cell (columns df) "id" r.

(** A frame as the pages store it: every row has one cell per column, and the
    rows are labelled 0, 1, 2, ... *)
Definition aligned (df : DataFrame) : Prop :=
  Forall (fun r => length r = length (columns df)) (rows df).

Definition stored (df : DataFrame) : Prop :=
  aligned df ∧ index df = seq 0 (len df).

(** The integer ids of a frame, when it has an 'id' column of integers. *)
Definition as_int (v : value) : option Z :=
  match v with VInt n => Some n | _ => None end.

Definition int_ids (df : DataFrame) : option (list Z) :=
  match getitem df "id" with
  | Ok (Column s) => mapM as_int s
  | _ => None
  end.

(** Number of rows of [df] whose cell under [c] equals [v]; no row counts
    when the frame has no column [c]. *)
Fixpoint count_rows (cols : list string) (c : string) (v : value)
    (rs : list (list value)) : nat :=
  match rs with
  | [] => 0
  | r :: rs' =>
      match cell cols c r with
      | Some x => if value_eqb x v then S (count_rows cols c v rs')
                  else count_rows cols c v rs'
      | None => count_rows cols c v rs'
      end
  end.

(** The value a dictionary of updates holds for the key [c]; the updates are
    applied in order, so a later one wins. *)
Fixpoint assigned (c : string) (data : list (string * value)) : option value :=
  match data with
  | [] => None
  | (k, v) :: data' =>
      match assigned c data' with
      | Some v' => Some v'
      | None => if String.eqb c k then Some v else None
      end
  end.

(** The frame after the assignments of a dictionary of updates, when each of
    them is accepted. *)
Definition apply_updates (idx : list nat) (data : list (string * value))
    (df : DataFrame) : DataFrame :=
  fold_left (fun d '(key, v) => loc_write idx key v d) data df.

(** The assignments of an update, each checked against the column it writes
    to. *)
Fixpoint try_updates (idx : list nat) (data : list (string * value))
    (df : DataFrame) : result DataFrame :=
  match data with
  | [] => Ok df
  | (key, v) :: data' =>
      match loc_set idx key v df with
      | Ok df' => try_updates idx data' df'
      | Raise e => Raise e
      end
  end.

(** An update that any version of pandas accepts: a dictionary (its keys are
    distinct) of strings, each written to a new column or to columns that
    hold a string already. *)
Definition holds_text (df : DataFrame) (key : string) : bool :=
  forallb (fun j => existsb is_str (column_at df j)) (positions key (columns df)).

Definition fits (df : DataFrame) (data : list (string * value)) : bool :=
  bool_decide (NoDup data.*1)
  && forallb (fun kv : string * value => is_str kv.2 && holds_text df kv.1) data.

(** Whether add makes the column [c] of [df] a float64 column: a column of
    numbers is converted when the new row has no cell for it, and the 'id'
    column when an id of the frame is missing. *)
Definition float_after_add (df : DataFrame) (c : string) : bool :=
  forallb is_numeric (column_cells df c)
  && (if String.eqb c "id" then existsb is_missing (column_cells df c)
      else negb (bool_decide (c ∈ ["title"; "severity"; "status"; "timestamp"]))).

(** Integers that int64 and float64 columns hold alike, with room to count
    on: those below 2^53 in absolute value. *)
Definition small (n : Z) : Prop := - 2 ^ 53 < n < 2 ^ 53.

(** The frame a handler leaves under a page's key, and the alerts it shows. *)
Definition outcome (p : page) (h : App unit) (s : St)
    : result (option DataFrame * list alert) :=
  match h s with
  | Ok (_, s') => Ok (session_state s' !! key p, alerts s')
  | Raise e => Raise e
  end.

(** ** Notions the statements about the chat wrapper use *)

Module ChatSpec.
Import Chat.

Definition is_post (e : event) : bool :=
  match e with Post _ _ _ => true | _ => false end.

(** The number of requests a run sends. *)
Definition posts (evs : list event) : nat := length (List.filter is_post evs).

(** An attempt fails when the request meets no response, raises, or is
    answered with a 4xx or 5xx status. *)
Definition failed (r : post_result) : bool :=
  match r with
  | Response status_code _ => raise_for_status status_code
  | _ => true
  end.

(** An attempt answered with an error status other than 401. *)
Definition http_error (r : post_result) : bool :=
  match r with
  | Response status_code _ => raise_for_status status_code && negb (status_code =? 401)
  | _ => false
  end.

(** An attempt the wrapper treats as failed for now: answered with an error
    status other than 401 or with a body that is not JSON, or, from the
    second attempt on, not answered at all. *)
Definition retried (attempt : nat) (r : post_result) : bool :=
  match r with
  | Response status_code body =>
      negb (status_code =? 401)
      && (raise_for_status status_code
          || match body with Some _ => false | None => true end)
  | NoResponse => negb (attempt =? 0)%nat
  | PostCrash => false
  end.

(** The local variable [response] before an attempt, when the attempts
    before it were retried: bound to a status other than 401, after the first
    attempt. *)
Definition answered (attempt : nat) (response : option Z) : Prop :=
  attempt = 0%nat ∨ ∃ status_code, response = Some status_code
                                   ∧ (status_code =? 401) = false.

(** The retry behaviour in the specification's words: at most [MAX_RETRIES]
    attempts; after every failed attempt except the last a wait of
    2^attempt seconds and another attempt; after the final failed attempt a
    message is returned and nothing is raised. *)
Definition retries_with_backoff (net : network) (prompt : string)
    (history : list message) : Prop :=
  let data := payload_data prompt history in
  let run := get_ai_response net prompt history in
  (posts run.1 ≤ MAX_RETRIES)%nat
  ∧ (∀ attempt, (attempt < MAX_RETRIES - 1)%nat →
       (∀ i, (i ≤ attempt)%nat → failed (net i data) = true) →
       Sleep (2 ^ Z.of_nat attempt) ∈ run.1 ∧ (attempt + 2 ≤ posts run.1)%nat)
  ∧ ((∀ i, (i < MAX_RETRIES)%nat → failed (net i data) = true) →
     ∃ msg, run.2 = Return (JStr msg)).

(** The events of [k] attempts, from [attempt] on, each answered with an
    error status and followed by its wait. *)
Fixpoint backoff (data : payload) (attempt k : nat) : list event :=
  match k with
  | O => []
  | S k' =>
      [Post OPENAI_API_URL ("Bearer " +:+ API_KEY) data; StError;
       Sleep (2 ^ Z.of_nat attempt)] ++ backoff data (S attempt) k'
  end.



(** How the path to the content ends in a result: at the content, at a
    dictionary without the next key, or at a value that is not of the kind the
    path needs (no dictionary, no list, an empty list). *)
Inductive shape :=
| Content (text : json)
| KeyMissing
| Malformed.

Definition result_shape (result : json) : shape :=
  match result with
  | JObj fields =>
      match assoc "choices" fields with
      | None => KeyMissing
      | Some (JArr (JObj first :: _)) =>
          match assoc "message" first with
          | None => KeyMissing
          | Some (JObj msg) =>
              match assoc "content" msg with
              | Some text => Content text
              | None => KeyMissing
              end
          | Some _ => Malformed
          end
      | Some _ => Malformed
      end
  | _ => Malformed
  end.

(** The reply to a result, by its shape. *)
Definition reply (result : json) : json :=
  match result_shape result with
  | Content text => if truthy text then text else fallback_message
  | KeyMissing => fallback_message
  | Malformed => internal_error_message
  end.

(** Sample networks: every request answered 401, every request answered 500,
    no request answered, and every request answered with a result whose
    list of choices is empty. *)
Definition unauthorized : network := fun _ _ => Response 401 None.
Definition unavailable : network := fun _ _ => Response 500 None.
Definition unreachable : network := fun _ _ => NoResponse.
Definition no_choices : json := JObj [("choices", JArr [])].
Definition answers_no_choices : network := fun _ _ => Response 200 (Some no_choices).


End ChatSpec.

(** ** Notions the statement about the generator uses *)

(** A data row of the ticket file with the id [ticket_id]: eight fields, the
    severity and the status among the generator's, the creation time within
    90 days, 23 hours and 59 minutes of the start date. *)
Definition ticket_row_ok (ticket_id : Z) (row : list Generator.field) : Prop :=
  ∃ data_field ticket_type severity status description reporter created_at,
    row = [Generator.FInt ticket_id; Generator.FStr data_field;
           Generator.FStr ticket_type; Generator.FStr severity;
           Generator.FStr status; Generator.FStr description;
           Generator.FStr reporter;
           Generator.FStr (Datetime.strftime created_at)]
    ∧ severity ∈ ["Low"; "Medium"; "High"]
    ∧ status ∈ ["Open"; "In Progress"; "Closed"; "Resolved"]
    ∧ Datetime.datetime 2024 1 1 ≤ created_at
    ∧ created_at ≤ Datetime.datetime 2024 1 1 + Datetime.timedelta 90 23 59.

(** A random stream for the examples. *)
Definition sample_stream : nat → nat := fun pos => (7 * pos + 3)%nat.

(** ** Sample data *)

Definition sample_frame : DataFrame :=
  from_columns 3 [
    ("id", VInt <$> [101; 102; 103]);
    ("title", VStr <$> ["Phishing Campaign"; "Server Breach"; "DDoS Attack"]);
    ("severity", VStr <$> ["High"; "Critical"; "Medium"]);
    ("status", VStr <$> ["Open"; "In Progress"; "Open"])].

(** A frame read from a file without an 'id' column. *)
Definition frame_without_id : DataFrame :=
  from_columns 1 [("title", [VStr "Phishing Campaign"])].

Definition sample_state (p : page) (df : DataFrame) : St :=
  mkSt {[ key p := df ]} [].

Definition sample_form : new_data := mkNew "Lost badge" "Low".

(** The handlers of the three pages are one schema, instantiated at the
    page's key and first id. *)
Module Schema.

Definition get_row (df : DataFrame) (id : option value) : result (option Series) :=
  match id with
  | None => Ok None
  | Some id =>
      ids ← getitem df "id";
      filtered_df ← bool_index df (sel_eq ids id);
      if negb (empty filtered_df) then r ← iloc0 filtered_df; Ok (Some r)
      else Ok None
  end.

Definition new_id (first : Z) (current_df : DataFrame) : result value :=
  if negb (empty current_df) && has_column "id" current_df
  then ids ← getitem current_df "id"; max_plus_one ids
  else Ok (VInt first).

Definition new_row (id : value) (new_data : new_data) (now : Z) : DataFrame :=
  one_row [("id", id); ("title", VStr (title new_data));
           ("severity", VStr (severity new_data)); ("status", VStr "Open");
           ("timestamp", VTime now)].

Definition handle_add (k : string) (first : Z) (new_data : new_data) (now : Z)
    : App unit :=
  current_df ← session_get k;
  id ← lift (new_id first current_df);
  df ← lift (concat (new_row id new_data now) current_df);
  session_set k df;;
  show Success.

Definition update_loop (k : string) (idx : list nat)
    (updated_data : list (string * value)) : App unit :=
  for_each updated_data (fun '(key, value) =>
    df ← session_get k;
    df ← lift (loc_set idx key value df);
    session_set k df).

Definition handle_update (k : string) (id : value)
    (updated_data : list (string * value)) : App unit :=
  current_df ← session_get k;
  if negb (has_column "id" current_df) then show (Error MissingIdColumn)
  else
    ids ← lift (getitem current_df "id");
    matching ← lift (bool_index current_df (sel_eq ids id));
    let idx_to_update := index matching in
    if negb (bool_decide (idx_to_update = [])) then
      update_loop k idx_to_update updated_data;;
      show Success
    else show (Error NotFound).

Definition handle_delete (k : string) (id : value) : App unit :=
  current_df ← session_get k;
  if negb (has_column "id" current_df) then show (Error MissingIdColumn)
  else
    let rows_before := len current_df in
    ids ← lift (getitem current_df "id");
    kept ← lift (bool_index current_df (sel_ne ids id));
    session_set k (reset_index kept);;
    df ← session_get k;
    let rows_after := len df in
    if (rows_after <? rows_before)%nat then show Success
    else show (Error NotFound).

Definition display_dashboard (df : DataFrame) : result view :=
  if empty df then Ok NoData
  else
    let total := len df in
    open ←
      (if has_column "status" df
       then s ← getitem df "status"; d ← bool_index df (sel_eq s (VStr "Open")); Ok (len d)
       else Ok 0%nat);
    critical ←
      (if has_column "severity" df
       then s ← getitem df "severity"; d ← bool_index df (sel_eq s (VStr "Critical"));
            Ok (len d)
       else Ok 0%nat);
    Ok (Metrics total open critical).

End Schema.

(** ** More of the pages *)

(** *** The chat input handler of the Cyber Security and IT pages *)

Module ChatPage.
Import Chat.

(** How a turn of the chat ends. *)
Inductive turn_end :=
| Idle                      (* no prompt was entered *)
| Answered (reply : json)   (* the reply is shown and appended as the assistant's *)
| Failed (e : exn).         (* the exception leaves the handler *)

(** [if prompt := st.chat_input(...)]: the user's message is appended to
    [st.session_state.messages], and that list is the history handed to
    [get_ai_response] together with the prompt.  The result is the list of
    messages once the user's is appended, the events of the call and the end
    of the turn; the assistant's message of an answered turn holds the reply. *)
Definition chat_input (net : network) (prompt : option string)
    (messages : list message) : list message * list event * turn_end :=
  match prompt with
  | None => (messages, [], Idle)
  | Some prompt =>
      if String.eqb prompt EmptyString then (messages, [], Idle)
      else
        let messages := messages ++ [mkMsg "user" prompt] in
        let '(evs, c) := get_ai_response net prompt messages in
        (messages, evs,
         match c with
         | Return assistant_response => Answered assistant_response
         | Raised e => Failed e
         end)
  end.

(** The seconds a call spends in [time.sleep]. *)
Fixpoint total_wait (evs : list event) : Z :=
  match evs with
  | [] => 0
  | Sleep seconds :: evs' => seconds + total_wait evs'
  | _ :: evs' => total_wait evs'
  end.

End ChatPage.

(** *** The select boxes of the update form *)

(** [current_data.get(key, default)] on the row found: the cell under the
    label, the default without it, and the cells of every column so labelled
    when the label is duplicated. *)
Inductive picked :=
| Scalar (v : value)
| SubSeries (vs : list value).

Definition series_get (s : Series) (key : string) (otherwise : value) : picked :=
  match positions key (labels s) with
  | [] => Scalar otherwise
  | [j] => Scalar (cell_at j (cells s))
  | js => SubSeries ((fun j => cell_at j (cells s)) <$> js)
  end.

(** [x in options] for a list of strings: some option equals the cell.  The
    comparison of an option with a sub-Series has no truth value, and
    [ValueError] is raised. *)
Definition among (options : list string) (current : picked) : result bool :=
  match current with
  | Scalar v => Ok (existsb (fun o => value_eqb v (VStr o)) options)
  | SubSeries _ => Raise ValueError
  end.

(** [options.index(x)]: the position of the first option equal to the cell
    (only called when there is one). *)
Fixpoint position (options : list string) (current : value) : nat :=
  match options with
  | [] => 0
  | o :: options' =>
      if value_eqb current (VStr o) then 0 else S (position options' current)
  end.

(** [index=options.index(current) if current in options else 0] *)
Definition initial_index (options : list string) (current : picked) : result nat :=
  match among options current, current with
  | Ok true, Scalar v => Ok (position options v)
  | Ok _, _ => Ok 0%nat
  | Raise e, _ => Raise e
  end.

Definition severity_options : list string := ["Low"; "Medium"; "High"; "Critical"].
Definition status_options : list string := ["Open"; "In Progress"; "Closed"].

(** The severity and the status the update form shows for the row found,
    before the user changes them. *)
Definition preselected_severity (current_data : Series) : result (option string) :=
  let current_severity := series_get current_data "severity" (VStr "Medium") in
  i ← initial_index severity_options current_severity;
  Ok (severity_options !! i).

Definition preselected_status (current_data : Series) : result (option string) :=
  let current_status := series_get current_data "status" (VStr "Open") in
  i ← initial_index status_options current_status;
  Ok (status_options !! i).

(** ** Notions the further statements use *)

(** The detail of a data row of the ticket file: the description and the data
    field belong to the row's ticket type, the reporter is made of a first
    name, a last name, a department and a domain of the generator, and the
    creation time is a whole number of minutes after the start date. *)
Definition ticket_row_detail (row : list Generator.field) : Prop :=
  ∃ ticket_id data_field ticket_type severity status description
    first_name last_name department domain created_at,
    row = [Generator.FInt ticket_id; Generator.FStr data_field;
           Generator.FStr ticket_type; Generator.FStr severity;
           Generator.FStr status; Generator.FStr description;
           Generator.FStr (first_name +:+ "." +:+ last_name +:+ "." +:+ department
                           +:+ "@" +:+ domain);
           Generator.FStr (Datetime.strftime created_at)]
    ∧ ticket_type ∈ Generator.ticket_types
    ∧ description ∈ Generator.descriptions ticket_type
    ∧ data_field ∈ Generator.data_fields ticket_type
    ∧ first_name ∈ Generator.first_names
    ∧ last_name ∈ Generator.last_names
    ∧ department ∈ Generator.departments
    ∧ domain ∈ Generator.domains
    ∧ (created_at - Generator.start_date) mod 60 = 0
    ∧ (∃ month day, Datetime.civil_from_days (created_at / 86400) = (2024, month, day)
                    ∧ 1 ≤ month ≤ 3).

(** The conversion of the 'timestamp' column, as the three loaders do it. *)
Definition converted `{Library} (d : DataFrame) : DataFrame :=
  if has_column "timestamp" d then
    match getitem d "timestamp" with
    | Ok (Column s) => setitem "timestamp" (to_datetime s) d
    | _ => empty_frame
    end
  else d.

(** A network whose server answers 503 once and is then out of reach. *)
Definition goes_away : Chat.network := fun attempt _ =>
  match attempt with
  | O => Chat.Response 503 None
  | _ => Chat.NoResponse
  end.

(** A library for the examples: ASCII lower case, and a conversion that
    reads the dates written YYYY-MM-DD and takes a number as nanoseconds
    since the epoch; pandas reads more formats than this one, which here are
    taken as unreadable (NaT). *)
Definition ascii_lower (c : ascii) : ascii :=
  let n := nat_of_ascii c in
  if ((65 <=? n) && (n <=? 90))%nat then ascii_of_nat (n + 32) else c.

Fixpoint string_lower (s : string) : string :=
  match s with
  | EmptyString => EmptyString
  | String c s' => String (ascii_lower c) (string_lower s')
  end.

Definition digit_value (c : ascii) : option Z :=
  let n := Z.of_nat (nat_of_ascii c) in
  if (48 <=? n) && (n <=? 57) then Some (n - 48) else None.

Definition iso_date (s : string) : option Z :=
  match s with
  | String y1 (String y2 (String y3 (String y4 (String s1 (String m1 (String m2
      (String s2 (String d1 (String d2 EmptyString))))))))) =>
      y1 ← digit_value y1; y2 ← digit_value y2; y3 ← digit_value y3;
      y4 ← digit_value y4; m1 ← digit_value m1; m2 ← digit_value m2;
      d1 ← digit_value d1; d2 ← digit_value d2;
      let y := 1000 * y1 + 100 * y2 + 10 * y3 + y4 in
      let m := 10 * m1 + m2 in
      let d := 10 * d1 + d2 in
      if Ascii.eqb s1 "-"%char && Ascii.eqb s2 "-"%char
         && bool_decide (Datetime.civil_from_days (Datetime.days_from_civil y m d)
                         = (y, m, d))
      then Some (Datetime.datetime y m d) else None
  | _ => None
  end.

Definition sample_library : Library := {|
  str_lower := string_lower;
  to_datetime := map (fun v => match v with
                               | VStr s => match iso_date s with
                                           | Some t => VTime t
                                           | None => VNaN
                                           end
                               | VInt n => VTime (n / 1000000000)
                               | VTime t => VTime t
                               | VNaN => VNaN
                               end)
|}.

(** A frame as read from a file with upper-case labels. *)
Definition sample_file : DataFrame :=
  from_columns 2 [
    ("ID", VInt <$> [1; 2]);
    ("Timestamp", [VStr "2025-11-20"; VStr "soon"])].

(** Frames as read from files whose headers differ in case only: the
    loaders of the Cyber Security and Data Science pages give both columns
    the same label. *)
Definition file_with_two_ids : DataFrame :=
  from_columns 2 [
    ("ID", VInt <$> [1; 2]);
    ("id", VInt <$> [7; 8]);
    ("title", VStr <$> ["Phishing Campaign"; "Server Breach"])].

Definition frame_with_two_ids : DataFrame :=
  @load_csv sample_library CyberSecurity (CsvFrame file_with_two_ids).

Definition frame_with_two_titles : DataFrame :=
  @load_csv sample_library CyberSecurity
    (CsvFrame (from_columns 1 [
       ("id", [VInt 1]);
       ("Title", [VStr "Phishing Campaign"]);
       ("title", [VStr "phishing"])])).

Definition frame_with_two_statuses : DataFrame :=
  @load_csv sample_library CyberSecurity
    (CsvFrame (from_columns 1 [
       ("id", [VInt 1]);
       ("Status", [VStr "Open"]);
       ("status", [VStr "Closed"])])).

Definition file_with_two_timestamps : DataFrame :=
  from_columns 1 [
    ("id", [VInt 1]);
    ("Timestamp", [VStr "2025-11-20"]);
    ("timestamp", [VStr "2025-11-21"])].

(** A file with a header and no record. *)
Definition header_only : DataFrame :=
  from_columns 0 [("id", []); ("status", []); ("severity", [])].

(** Ids at the ends of the int64 range. *)
Definition frame_with_extreme_ids : DataFrame :=
  from_columns 2 [
    ("id", VInt <$> [2 ^ 63 - 1; - 2 ^ 63]);
    ("title", VStr <$> ["Phishing Campaign"; "Server Breach"])].

(** A column of numbers beside the ones the pages know. *)
Definition frame_with_priority : DataFrame :=
  from_columns 2 [
    ("id", VInt <$> [1; 2]);
    ("title", VStr <$> ["Phishing Campaign"; "Server Breach"]);
    ("priority", VInt <$> [3; 1])].

Definition frame_with_large_count : DataFrame :=
  from_columns 1 [("id", [VInt 1]); ("count", [VInt (2 ^ 53 + 1)])].

(** Ids that are no numbers. *)
Definition frame_with_text_ids : DataFrame :=
  from_columns 1 [("id", [VStr "INC-1"]); ("title", [VStr "Phishing Campaign"])].

(** * Properties *)

(** ** The pages are instances of the schema *)

Lemma get_row_schema p : get_row p = Schema.get_row.
Proof. by destruct p. Qed.

Lemma handle_add_schema p : handle_add p = Schema.handle_add (key p) (first_id p).
Proof. by destruct p. Qed.

Lemma handle_update_schema p : handle_update p = Schema.handle_update (key p).
Proof. by destruct p. Qed.

Lemma handle_delete_schema p : handle_delete p = Schema.handle_delete (key p).
Proof. by destruct p. Qed.

Lemma display_dashboard_schema p : display_dashboard p = Schema.display_dashboard.
Proof. by destruct p. Qed.

(** ** Columns and cells *)

Lemma col_index_Some c cols : c ∈ cols → is_Some (col_index c cols).
Proof.
  induction cols as [|c' cols IH]; intros Hin.
  - by apply elem_of_nil in Hin.
  - simpl. destruct (String.eqb_spec c c') as [->|Hne]; [by eexists|].
    apply elem_of_cons in Hin as [?|Hin]; [done|].
    destruct (IH Hin) as [j ->]. by eexists.
Qed.

Lemma col_index_None c cols : c ∉ cols → col_index c cols = None.
Proof.
  induction cols as [|c' cols IH]; intros Hin; [done|].
  simpl. apply not_elem_of_cons in Hin as [Hne Hin].
  destruct (String.eqb_spec c c') as [->|_]; [done|]. by rewrite IH.
Qed.

Lemma col_index_lookup c cols j : col_index c cols = Some j → cols !! j = Some c.
Proof.
  revert j. induction cols as [|c' cols IH]; intros j; [done|].
  simpl. destruct (String.eqb_spec c c') as [->|_].
  - by intros [= <-].
  - destruct (col_index c cols) as [j'|]; [|done].
    intros [= <-]. by apply IH.
Qed.

Lemma col_index_lt c cols j : col_index c cols = Some j → (j < length cols)%nat.
Proof. intros H. apply col_index_lookup in H. by apply lookup_lt_Some in H. Qed.

Lemma has_column_true c df :
  has_column c df = true → ∃ j, col_index c (columns df) = Some j.
Proof.
  unfold has_column. intros H%bool_decide_eq_true. by apply col_index_Some.
Qed.

Lemma has_column_false c df :
  has_column c df = false → col_index c (columns df) = None.
Proof.
  unfold has_column. intros H%bool_decide_eq_false. by apply col_index_None.
Qed.

Lemma positions_head c cols : head (positions c cols) = col_index c cols.
Proof.
  induction cols as [|c' cols IH]; [done|]. simpl.
  destruct (String.eqb c c'); [done|]. rewrite <- IH.
  by destruct (positions c cols).
Qed.

Lemma positions_nil c cols : positions c cols = [] ↔ col_index c cols = None.
Proof.
  rewrite <- positions_head. by destruct (positions c cols).
Qed.

Lemma positions_lookup c cols j : j ∈ positions c cols ↔ cols !! j = Some c.
Proof.
  revert j. induction cols as [|c' cols IH]; intros j; simpl.
  - by rewrite elem_of_nil.
  - assert (Hrest : j ∈ S <$> positions c cols
                    ↔ ∃ j', j = S j' ∧ cols !! j' = Some c).
    { rewrite list_elem_of_fmap. by setoid_rewrite IH. }
    destruct (String.eqb_spec c c') as [->|Hne].
    + rewrite elem_of_cons, Hrest. destruct j as [|j]; simpl.
      * split; [done|by left].
      * split; [intros [?|(j' & [= <-] & ?)]; done|right; eauto].
    + rewrite Hrest. destruct j as [|j]; simpl.
      * split; [by intros (? & ? & ?)|intros [= ?]; done].
      * split; [by intros (j' & [= <-] & ?)|eauto].
Qed.

(** A label that occurs once names one column. *)
Lemma positions_one c df :
  has_column c df = true → duplicated c df = false →
  ∃ j, positions c (columns df) = [j] ∧ col_index c (columns df) = Some j.
Proof.
  intros [j Hj]%has_column_true Hdup. rewrite <- positions_head in Hj.
  unfold duplicated in Hdup. apply Nat.ltb_ge in Hdup.
  destruct (positions c (columns df)) as [|j' [|? ?]] eqn:Hp; simpl in *;
    [done| |lia].
  injection Hj as ->. exists j. by rewrite <- positions_head, Hp.
Qed.

Lemma getitem_has_column c df :
  has_column c df = true → duplicated c df = false →
  getitem df c = Ok (Column (map (lookup_cell (columns df) c) (rows df))).
Proof.
  intros Hc Hdup. destruct (positions_one _ _ Hc Hdup) as (j & Hp & Hj).
  unfold getitem, column_at, lookup_cell, cell. by rewrite Hp, Hj.
Qed.

Lemma getitem_no_column c df :
  has_column c df = false → getitem df c = Raise (KeyError c).
Proof.
  intros H%has_column_false. apply positions_nil in H. unfold getitem.
  by rewrite H.
Qed.

Lemma getitem_duplicated c df :
  duplicated c df = true → ∃ cs, getitem df c = Ok (SubFrame cs).
Proof.
  unfold duplicated, getitem. intros Hdup%Nat.ltb_lt.
  destruct (positions c (columns df)) as [|j [|j' js]]; simpl in *; try lia.
  by eexists.
Qed.

Lemma duplicated_has_column c df : duplicated c df = true → has_column c df = true.
Proof.
  unfold duplicated. intros Hdup%Nat.ltb_lt.
  destruct (has_column c df) eqn:Hc; [done|].
  apply has_column_false, positions_nil in Hc. rewrite Hc in Hdup. simpl in Hdup. lia.
Qed.

(** ** Boolean indexing *)

Lemma mask_select_map {A : Type} (f : A → bool) (l : list A) :
  mask_select (map f l) l = List.filter f l.
Proof.
  induction l as [|x l IH]; [done|]. simpl. rewrite IH. by destruct (f x).
Qed.

Lemma bool_index_rows_eq df c v :
  mask_select (series_eq (map (lookup_cell (columns df) c) (rows df)) v) (rows df)
  = List.filter (fun r => value_eqb (lookup_cell (columns df) c r) v) (rows df).
Proof.
  unfold series_eq. rewrite map_map. apply mask_select_map.
Qed.

Lemma bool_index_rows_ne df c v :
  mask_select (series_ne (map (lookup_cell (columns df) c) (rows df)) v) (rows df)
  = List.filter (fun r => value_neb (lookup_cell (columns df) c r) v) (rows df).
Proof.
  unfold series_ne. rewrite map_map. apply mask_select_map.
Qed.

Lemma filter_length_le {A : Type} (f : A → bool) (l : list A) :
  (length (List.filter f l) ≤ length l)%nat.
Proof.
  induction l as [|x l IH]; simpl; [lia|]. destruct (f x); simpl; lia.
Qed.

Lemma filter_all {A : Type} (f : A → bool) (l : list A) :
  length (List.filter f l) = length l → List.filter f l = l.
Proof.
  induction l as [|x l IH]; simpl; [done|].
  destruct (f x); simpl.
  - intros [= H]. by rewrite IH.
  - pose proof (filter_length_le f l). lia.
Qed.

Lemma filter_shorter {A : Type} (f : A → bool) (l : list A) :
  (length (List.filter f l) < length l)%nat ↔ Exists (fun x => f x = false) l.
Proof.
  induction l as [|x l IH]; simpl.
  - split; [lia|]. by intros ?%Exists_nil.
  - pose proof (filter_length_le f l).
    rewrite Exists_cons. destruct (f x) eqn:Hx; simpl.
    + rewrite <- IH. split; [intros; right; lia|intros [?|?]; [done|lia]].
    + split; [by left|lia].
Qed.

(** ** Delete *)

(** What [handle_delete] does to a frame with an 'id' column. *)
Lemma schema_delete_run k s df id :
  session_state s !! k = Some df →
  has_column "id" df = true →
  duplicated "id" df = false →
  let kept := List.filter (fun r => value_neb (row_id df r) id) (rows df) in
  Schema.handle_delete k id s
  = Ok (tt, mkSt (<[k := mkDF (columns df) (seq 0 (length kept)) kept]> (session_state s))
              (alerts s ++ [if (length kept <? len df)%nat then Success
                            else Error NotFound])).
Proof.
  intros Hk Hid Hdup kept.
  unfold Schema.handle_delete, mbind, App_bind, session_get at 1. rewrite Hk, Hid.
  simpl. rewrite (getitem_has_column _ _ Hid Hdup). simpl.
  unfold session_get. simpl. rewrite lookup_insert_eq. simpl.
  unfold reset_index, select_rows, len. simpl. rewrite !bool_index_rows_ne.
  subst kept. unfold row_id.
  by destruct (length _ <? length (rows df))%nat.
Qed.

(** With two columns labelled 'id' the comparison gives a frame, and the
    selection by it raises. *)
Lemma schema_delete_duplicated k s df id :
  session_state s !! k = Some df →
  duplicated "id" df = true →
  Schema.handle_delete k id s = Raise ValueError.
Proof.
  intros Hk Hdup. pose proof (duplicated_has_column _ _ Hdup) as Hid.
  destruct (getitem_duplicated _ _ Hdup) as [cs Hcs].
  unfold Schema.handle_delete, mbind, App_bind, session_get at 1. rewrite Hk, Hid.
  simpl. by rewrite Hcs.
Qed.

Lemma schema_delete_returns k s s' df id :
  session_state s !! k = Some df →
  Schema.handle_delete k id s = Ok (tt, s') →
  duplicated "id" df = false.
Proof.
  intros Hk Hrun. destruct (duplicated "id" df) eqn:Hdup; [|done].
  by rewrite (schema_delete_duplicated _ _ _ _ Hk Hdup) in Hrun.
Qed.

(** What it does to a frame without one. *)
Lemma schema_delete_no_id k s df id :
  session_state s !! k = Some df →
  has_column "id" df = false →
  Schema.handle_delete k id s
  = Ok (tt, mkSt (session_state s) (alerts s ++ [Error MissingIdColumn])).
Proof.
  intros Hk Hid.
  unfold Schema.handle_delete, mbind, App_bind, session_get. by rewrite Hk, Hid.
Qed.

(** On the frame loaded from a file with the headers [ID] and [id], delete
    raises: it stores no frame and shows no alert. *)
Lemma delete_raises_on_two_id_columns :
  columns frame_with_two_ids = ["id"; "id"; "title"]
  ∧ has_column "id" frame_with_two_ids = true
  ∧ handle_delete CyberSecurity (VInt 7) (sample_state CyberSecurity frame_with_two_ids)
    = Raise ValueError.
Proof. by vm_compute. Qed.

(** C3, as the code has it. On a frame with one column labelled 'id', delete
    stores exactly the rows whose id differs from the given one, in their
    order, labelled 0, 1, 2, ...; it shows a success when a row went away,
    that is when some row had the id, and the not-found error otherwise, and
    then the rows are as before.  With more than one column labelled 'id'
    delete raises and stores nothing. *)
Theorem delete_keeps_the_other_rows (p : page) (s : St) (df : DataFrame) (id : value) :
  session_state s !! key p = Some df →
  has_column "id" df = true →
  (duplicated "id" df = true → handle_delete p id s = Raise ValueError)
  ∧ (duplicated "id" df = false →
  ∃ (df' : DataFrame) (a : alert),
    handle_delete p id s
      = Ok (tt, mkSt (<[key p := df']> (session_state s)) (alerts s ++ [a]))
    ∧ columns df' = columns df
    ∧ rows df' = List.filter (fun r => negb (value_eqb (row_id df r) id)) (rows df)
    ∧ index df' = seq 0 (len df')
    ∧ (a = Success ↔ Exists (fun r => value_eqb (row_id df r) id = true) (rows df))
    ∧ (a = Success ↔ (len df' < len df)%nat)
    ∧ (a ≠ Success → a = Error NotFound ∧ rows df' = rows df)).
Proof.
  intros Hk Hid. rewrite handle_delete_schema. split.
  { intros Hdup. by apply schema_delete_duplicated with df. }
  intros Hdup.
  eexists _, _. split; [apply (schema_delete_run _ _ _ _ Hk Hid Hdup)|].
  simpl. unfold value_neb.
  set (f := fun r => negb (value_eqb (row_id df r) id)).
  pose proof (filter_length_le f (rows df)) as Hle.
  pose proof (filter_shorter f (rows df)) as Hsh.
  assert (Hex : Exists (fun r => f r = false) (rows df)
                ↔ Exists (fun r => value_eqb (row_id df r) id = true) (rows df)).
  { rewrite !Exists_exists. unfold f.
    split; intros (r & Hin & Hr); exists r; (split; [done|]);
      by destruct (value_eqb _ _). }
  unfold len in *. simpl.
  split_and!; try done.
  - rewrite <- Hex, <- Hsh. destruct (Nat.ltb_spec (length (List.filter f (rows df)))
      (length (rows df))); split; try done; lia.
  - destruct (Nat.ltb_spec (length (List.filter f (rows df))) (length (rows df)));
      split; try done; lia.
  - destruct (Nat.ltb_spec (length (List.filter f (rows df))) (length (rows df)));
      [done|]. intros _. split; [done|]. apply filter_all. lia.
Qed.

(** ** Update *)

Lemma col_index_app_l c cols extra j :
  col_index c cols = Some j → col_index c (cols ++ extra) = Some j.
Proof.
  revert j. induction cols as [|c' cols IH]; intros j; [done|].
  simpl. destruct (String.eqb c c'); [done|].
  destruct (col_index c cols) as [j'|]; [|done].
  intros [= <-]. by rewrite (IH j').
Qed.

Lemma col_index_app_r c cols key :
  col_index c cols = None →
  col_index c (cols ++ [key])
  = if String.eqb c key then Some (length cols) else None.
Proof.
  induction cols as [|c' cols IH]; simpl.
  - by destruct (String.eqb c key).
  - destruct (String.eqb c c'); [done|].
    destruct (col_index c cols) as [j'|]; [done|]. intros _.
    rewrite IH by done. by destruct (String.eqb c key).
Qed.

Lemma cell_at_insert_eq j v r : (j < length r)%nat → cell_at j (<[j := v]> r) = v.
Proof.
  intros Hj. unfold cell_at. rewrite nth_lookup.
  by rewrite list_lookup_insert_eq.
Qed.

Lemma cell_at_insert_ne j j' v r : j ≠ j' → cell_at j' (<[j := v]> r) = cell_at j' r.
Proof.
  intros Hj. unfold cell_at. rewrite !nth_lookup.
  by rewrite list_lookup_insert_ne.
Qed.

Lemma cell_at_app_l j r x : (j < length r)%nat → cell_at j (r ++ [x]) = cell_at j r.
Proof. intros Hj. unfold cell_at. by rewrite app_nth1. Qed.

Lemma cell_at_app_r r x : cell_at (length r) (r ++ [x]) = x.
Proof. unfold cell_at. rewrite nth_middle. done. Qed.

Lemma cell_at_assign cols key v r j c :
  cols !! j = Some c → (j < length r)%nat →
  cell_at j (assign_cells cols key v r) = if String.eqb c key then v else cell_at j r.
Proof.
  intros Hc Hj. unfold cell_at, assign_cells. rewrite !nth_lookup, lookup_zip_with.
  rewrite Hc. destruct (lookup_lt_is_Some_2 r j Hj) as [x ->]. done.
Qed.

Lemma length_assign_cells cols key v r :
  length r = length cols → length (assign_cells cols key v r) = length r.
Proof. intros Hlen. unfold assign_cells. rewrite length_zip_with. lia. Qed.

(** One assignment [df.loc[idx, key] = v], seen row by row. *)
Lemma loc_assign_index idx key v df : index (loc_assign idx key v df) = index df.
Proof. unfold loc_assign. by destruct (has_column key df). Qed.

Lemma loc_assign_columns idx key v df c :
  c ∈ columns (loc_assign idx key v df) ↔ c ∈ columns df ∨ c = key.
Proof.
  unfold loc_assign. destruct (has_column key df) eqn:Hkey; simpl.
  - split; [by left|]. intros [?| ->]; [done|].
    by apply bool_decide_eq_true in Hkey.
  - rewrite elem_of_app, list_elem_of_singleton. done.
Qed.

Lemma loc_assign_rows_length idx key v df :
  length (index df) = length (rows df) →
  length (rows (loc_assign idx key v df)) = length (rows df).
Proof.
  intros Hlen. unfold loc_assign.
  destruct (has_column key df); simpl; rewrite length_zip_with; lia.
Qed.

Lemma loc_assign_aligned idx key v df : aligned df → aligned (loc_assign idx key v df).
Proof.
  unfold aligned, loc_assign. intros Hal.
  destruct (has_column key df); simpl.
  - apply Forall_lookup. intros n r' Hn.
    apply lookup_zip_with_Some in Hn as (i & r & -> & _ & Hr).
    eapply Forall_lookup in Hal; [|done].
    destruct (bool_decide _); by rewrite ?length_assign_cells.
  - apply Forall_lookup. intros n r' Hn.
    apply lookup_zip_with_Some in Hn as (i & r & -> & _ & Hr).
    eapply Forall_lookup in Hal; [|done].
    rewrite !length_app. simpl. lia.
Qed.

Lemma loc_assign_row idx key v df n i r :
  aligned df →
  index df !! n = Some i →
  rows df !! n = Some r →
  ∃ r', rows (loc_assign idx key v df) !! n = Some r'
    ∧ ∀ c, lookup_cell (columns (loc_assign idx key v df)) c r'
           = if bool_decide (i ∈ idx) && String.eqb c key then v
             else lookup_cell (columns df) c r.
Proof.
  intros Hal Hi Hr.
  assert (Hlen : length r = length (columns df)).
  { eapply Forall_lookup in Hal; done. }
  unfold loc_assign. destruct (has_column key df) eqn:Hkey; simpl.
  - eexists. split.
    { apply lookup_zip_with_Some. eauto. }
    intros c. destruct (bool_decide (i ∈ idx)); simpl; [|done].
    unfold lookup_cell, cell.
    destruct (col_index c (columns df)) as [j'|] eqn:Hc; simpl.
    + rewrite (cell_at_assign _ _ _ _ _ c); [done|by apply col_index_lookup|].
      rewrite Hlen. by eapply col_index_lt.
    + destruct (String.eqb_spec c key) as [->|Hne]; [|done].
      apply has_column_true in Hkey as [j Hj]. congruence.
  - apply has_column_false in Hkey. eexists. split.
    { apply lookup_zip_with_Some. eauto. }
    intros c. unfold lookup_cell, cell.
    destruct (col_index c (columns df)) as [j'|] eqn:Hc; simpl.
    + rewrite (col_index_app_l _ _ _ _ Hc). simpl.
      destruct (String.eqb_spec c key) as [->|Hne]; [congruence|].
      rewrite andb_false_r. apply cell_at_app_l.
      rewrite Hlen. by eapply col_index_lt.
    + rewrite (col_index_app_r _ _ _ Hc).
      destruct (String.eqb_spec c key) as [->|Hne]; simpl.
      * rewrite <- Hlen, cell_at_app_r. by destruct (bool_decide _).
      * by rewrite andb_false_r.
Qed.

(** The conversion to float64 of the columns labelled [key]. *)
Lemma as_float_aligned key df : aligned df → aligned (as_float key df).
Proof.
  unfold aligned, as_float. simpl. intros Hal.
  apply Forall_fmap. eapply Forall_impl; [exact Hal|].
  intros r Hr. simpl. by rewrite length_imap.
Qed.

Lemma as_float_cell key df c r :
  c ≠ key →
  lookup_cell (columns df) c
    (imap (fun j x =>
             if bool_decide (j ∈ positions key (columns df))
                && forallb is_numeric (column_at df j)
             then to_float x else x) r)
  = lookup_cell (columns df) c r.
Proof.
  intros Hne. unfold lookup_cell, cell.
  destruct (col_index c (columns df)) as [j|] eqn:Hc; simpl; [|done].
  unfold cell_at. rewrite !nth_lookup, list_lookup_imap.
  destruct (r !! j) as [x|]; simpl; [|done].
  rewrite bool_decide_eq_false_2; [done|].
  intros Hj%positions_lookup. apply col_index_lookup in Hc. congruence.
Qed.

Lemma loc_write_text idx key v df :
  is_missing v = false → loc_write idx key v df = loc_assign idx key v df.
Proof. intros Hv. unfold loc_write. by rewrite Hv. Qed.

Lemma loc_write_columns_eq idx key v df :
  columns (loc_write idx key v df) = columns (loc_assign idx key v df).
Proof.
  unfold loc_write. destruct (is_missing v); [|done].
  unfold loc_assign, has_column. simpl. by destruct (bool_decide _).
Qed.

Lemma loc_write_index idx key v df : index (loc_write idx key v df) = index df.
Proof. unfold loc_write. rewrite loc_assign_index. by destruct (is_missing v). Qed.

Lemma loc_write_columns idx key v df c :
  c ∈ columns (loc_write idx key v df) ↔ c ∈ columns df ∨ c = key.
Proof. rewrite loc_write_columns_eq. apply loc_assign_columns. Qed.

Lemma loc_write_rows_length idx key v df :
  length (index df) = length (rows df) →
  length (rows (loc_write idx key v df)) = length (rows df).
Proof.
  intros Hlen. unfold loc_write. destruct (is_missing v).
  - rewrite loc_assign_rows_length; simpl; by rewrite ?length_map.
  - by apply loc_assign_rows_length.
Qed.

Lemma loc_write_aligned idx key v df : aligned df → aligned (loc_write idx key v df).
Proof.
  intros Hal. unfold loc_write. apply loc_assign_aligned.
  destruct (is_missing v); [by apply as_float_aligned|done].
Qed.

(** A row after one assignment.  The cell of a row that is not selected,
    under the key a missing value is written to, may have been converted. *)
Lemma loc_write_row idx key v df n i r :
  aligned df →
  index df !! n = Some i →
  rows df !! n = Some r →
  ∃ r', rows (loc_write idx key v df) !! n = Some r'
    ∧ ∀ c, String.eqb c key && is_missing v && negb (bool_decide (i ∈ idx)) = false →
           lookup_cell (columns (loc_write idx key v df)) c r'
           = if bool_decide (i ∈ idx) && String.eqb c key then v
             else lookup_cell (columns df) c r.
Proof.
  intros Hal Hi Hr. unfold loc_write. destruct (is_missing v) eqn:Hv.
  - destruct (loc_assign_row idx key v (as_float key df) n i _
                (as_float_aligned key df Hal) Hi
                (eq_trans (list_lookup_fmap _ _ _) (f_equal _ Hr)))
      as (r' & Hr' & Hc).
    exists r'. split; [done|]. intros c Hcond. rewrite Hc.
    destruct (bool_decide (i ∈ idx)) eqn:Hin; simpl in *.
    + destruct (String.eqb c key) eqn:Heq; [done|].
      apply as_float_cell. by apply String.eqb_neq.
    + destruct (String.eqb c key) eqn:Heq; [done|].
      apply as_float_cell. by apply String.eqb_neq.
  - destruct (loc_assign_row idx key v df n i r Hal Hi Hr) as (r' & Hr' & Hc).
    exists r'. split; [done|]. intros c _. apply Hc.
Qed.

(** All the assignments of an update. *)
Lemma apply_updates_index idx data df : index (apply_updates idx data df) = index df.
Proof.
  revert df. induction data as [|[k v] data IH]; intros df; [done|].
  simpl. by rewrite IH, loc_write_index.
Qed.

Lemma apply_updates_rows_length idx data df :
  length (index df) = length (rows df) →
  length (rows (apply_updates idx data df)) = length (rows df).
Proof.
  revert df. induction data as [|[k v] data IH]; intros df Hlen; [done|].
  simpl. rewrite IH.
  - by apply loc_write_rows_length.
  - by rewrite loc_write_index, loc_write_rows_length.
Qed.

Lemma apply_updates_columns idx data df c :
  c ∈ columns (apply_updates idx data df) ↔ c ∈ columns df ∨ c ∈ data.*1.
Proof.
  revert df. induction data as [|[k v] data IH]; intros df; simpl.
  - rewrite elem_of_nil. tauto.
  - rewrite IH, loc_write_columns, elem_of_cons. tauto.
Qed.

(** A row after the assignments: a selected row holds the values assigned
    and its old cells elsewhere; a row that is not selected keeps its cell
    under every label that no missing value is assigned to. *)
Lemma apply_updates_row idx data df n i r :
  aligned df →
  length (index df) = length (rows df) →
  index df !! n = Some i →
  rows df !! n = Some r →
  ∃ r', rows (apply_updates idx data df) !! n = Some r'
    ∧ ∀ c, (∀ v, (c, v) ∈ data → is_missing v = true → i ∈ idx) →
           lookup_cell (columns (apply_updates idx data df)) c r'
           = if bool_decide (i ∈ idx)
             then default (lookup_cell (columns df) c r) (assigned c data)
             else lookup_cell (columns df) c r.
Proof.
  revert df r. induction data as [|[k v] data IH]; intros df r Hal Hlen Hi Hr.
  - exists r. split; [done|]. intros c _. simpl. by destruct (bool_decide _).
  - destruct (loc_write_row idx k v df n i r Hal Hi Hr) as (r1 & Hr1 & Hc1).
    destruct (IH (loc_write idx k v df) r1) as (r' & Hr' & Hc').
    + by apply loc_write_aligned.
    + by rewrite loc_write_index, loc_write_rows_length.
    + by rewrite loc_write_index.
    + done.
    + exists r'. split; [done|]. intros c Hmiss. simpl.
      change (fold_left _ data (loc_write idx k v df))
        with (apply_updates idx data (loc_write idx k v df)).
      rewrite Hc', Hc1.
      * destruct (bool_decide (i ∈ idx)); simpl; [|done].
        destruct (assigned c data); simpl; [done|].
        by destruct (String.eqb c k).
      * destruct (String.eqb_spec c k) as [->|Hne]; [|done].
        destruct (is_missing v) eqn:Hv; [|done]. simpl.
        rewrite bool_decide_eq_true_2; [done|].
        apply (Hmiss v); [|done]. apply elem_of_cons. by left.
      * intros v' Hin. apply Hmiss. apply elem_of_cons. by right.
Qed.

(** ** The types of the columns an update writes to *)

(** A column that holds a string takes a string. *)
Lemma accepts_text col v :
  is_str v = true → existsb is_str col = true → accepts (dtype_of col) v = true.
Proof.
  intros Hv Hcol. destruct v as [|s| |]; try done.
  assert (Hint : forallb is_int col = false).
  { apply not_true_iff_false. intros Hall. rewrite forallb_forall in Hall.
    apply existsb_exists in Hcol as (x & Hx & Hs). apply Hall in Hx.
    by destruct x. }
  assert (Hnum : forallb is_numeric col = false).
  { apply not_true_iff_false. intros Hall. rewrite forallb_forall in Hall.
    apply existsb_exists in Hcol as (x & Hx & Hs). apply Hall in Hx.
    by destruct x. }
  assert (Htime : forallb is_instant col = false).
  { apply not_true_iff_false. intros Hall. rewrite forallb_forall in Hall.
    apply existsb_exists in Hcol as (x & Hx & Hs). apply Hall in Hx.
    by destruct x. }
  unfold dtype_of. destruct col as [|x col]; [done|].
  rewrite Hint, Hnum, Htime. by destruct (forallb is_text (x :: col)).
Qed.

Lemma writable_text key v df :
  is_str v = true → holds_text df key = true → writable key v df = true.
Proof.
  unfold holds_text, writable. rewrite !forallb_forall.
  intros Hv Hall j Hj. apply accepts_text; auto.
Qed.

Lemma positions_app_other c cols key :
  c ≠ key → positions c (cols ++ [key]) = positions c cols.
Proof.
  intros Hne. induction cols as [|c' cols IH]; simpl.
  - by destruct (String.eqb_spec c key).
  - by rewrite IH.
Qed.

(** An assignment under [key] leaves the columns of another label as they
    are. *)
Lemma column_at_loc_assign idx key v df j c :
  aligned df →
  length (index df) = length (rows df) →
  columns df !! j = Some c → c ≠ key →
  column_at (loc_assign idx key v df) j = column_at df j.
Proof.
  intros Hal Hlen Hc Hne. unfold column_at. apply list_eq. intros n.
  rewrite !list_lookup_fmap.
  destruct (rows df !! n) as [r|] eqn:Hr; simpl.
  - destruct (lookup_lt_is_Some_2 (index df) n) as [i Hi].
    { rewrite Hlen. by eapply lookup_lt_Some. }
    assert (Hr_len : length r = length (columns df)).
    { eapply Forall_lookup in Hal; done. }
    assert (Hj : (j < length r)%nat).
    { rewrite Hr_len. by eapply lookup_lt_Some. }
    unfold loc_assign. destruct (has_column key df); simpl.
    + rewrite (proj2 (lookup_zip_with_Some _ _ _ n _)) by eauto. simpl.
      destruct (bool_decide (i ∈ idx)); [|done].
      rewrite (cell_at_assign _ _ _ _ _ c) by done.
      by destruct (String.eqb_spec c key).
    + rewrite (proj2 (lookup_zip_with_Some _ _ _ n _)) by eauto. simpl.
      by rewrite cell_at_app_l.
  - rewrite (proj2 (lookup_ge_None _ n)); [done|].
    rewrite loc_assign_rows_length by done. by apply lookup_ge_None.
Qed.

Lemma positions_loc_assign idx key v df c :
  c ≠ key →
  positions c (columns (loc_assign idx key v df)) = positions c (columns df).
Proof.
  intros Hne. unfold loc_assign. destruct (has_column key df); simpl; [done|].
  by apply positions_app_other.
Qed.

Lemma forallb_agree {A : Type} (f g : A → bool) (l : list A) :
  (∀ x, x ∈ l → f x = g x) → forallb f l = forallb g l.
Proof.
  induction l as [|x l IH]; intros H; [done|]. simpl.
  rewrite (H x) by (apply elem_of_cons; by left).
  rewrite IH; [done|]. intros y Hy. apply H. apply elem_of_cons. by right.
Qed.

Lemma holds_text_loc_assign idx key v df c :
  aligned df →
  length (index df) = length (rows df) →
  c ≠ key →
  holds_text (loc_assign idx key v df) c = holds_text df c.
Proof.
  intros Hal Hlen Hne. unfold holds_text. rewrite positions_loc_assign by done.
  apply forallb_agree. intros j Hj%positions_lookup.
  by rewrite (column_at_loc_assign _ _ _ _ _ c).
Qed.

Lemma try_updates_Ok idx data df df' :
  try_updates idx data df = Ok df' → df' = apply_updates idx data df.
Proof.
  revert df. induction data as [|[k v] data IH]; intros df; simpl.
  - by intros [= <-].
  - unfold loc_set. destruct (writable k v df); [|done]. apply IH.
Qed.

Lemma is_str_present v : is_str v = true → is_missing v = false.
Proof. by destruct v. Qed.

Lemma fits_present df data c v :
  fits df data = true → (c, v) ∈ data → is_missing v = false.
Proof.
  unfold fits. intros [_ Hall]%andb_true_iff Hin.
  rewrite forallb_forall in Hall. apply list_elem_of_In, Hall in Hin.
  apply andb_true_iff in Hin as [Hv _]. by apply is_str_present.
Qed.

Lemma try_updates_fits idx data df :
  aligned df →
  length (index df) = length (rows df) →
  fits df data = true →
  try_updates idx data df = Ok (apply_updates idx data df).
Proof.
  revert df. induction data as [|[k v] data IH]; intros df Hal Hlen Hfits; [done|].
  unfold fits in Hfits. apply andb_true_iff in Hfits as [Hnd Hall].
  apply bool_decide_eq_true in Hnd. apply NoDup_cons in Hnd as [Hk Hnd].
  simpl in Hall. apply andb_true_iff in Hall as [Hkv Hall].
  apply andb_true_iff in Hkv as [Hv Htext]. simpl in Hv, Htext.
  simpl. unfold loc_set. rewrite writable_text by done.
  rewrite (loc_write_text _ _ _ _ (is_str_present _ Hv)).
  apply IH.
  - by apply loc_assign_aligned.
  - by rewrite loc_assign_index, loc_assign_rows_length.
  - unfold fits. apply andb_true_iff. split; [by apply bool_decide_eq_true|].
    rewrite forallb_forall in Hall. apply forallb_forall. intros [k' v'] Hin.
    specialize (Hall _ Hin). apply andb_true_iff in Hall as [Hv' Ht']. simpl in *.
    rewrite Hv'. simpl. rewrite holds_text_loc_assign; [done..|].
    intros ->. apply Hk. apply list_elem_of_fmap. exists (k, v').
    split; [done|]. by apply list_elem_of_In.
Qed.

(** The labels boolean indexing selects. *)
Lemma mask_select_labels {A : Type} (f : A → bool) (l : list A) (start n : nat) (x : A) :
  l !! n = Some x →
  (start + n)%nat ∈ mask_select (map f l) (seq start (length l)) ↔ f x = true.
Proof.
  revert start n. induction l as [|y l IH]; intros start n Hn; [done|].
  simpl. destruct n as [|n]; simpl in Hn.
  - injection Hn as ->. rewrite Nat.add_0_r.
    destruct (f x) eqn:Hx.
    + split; [done|]. intros _. apply elem_of_cons. by left.
    + split; [|done]. intros Hin. exfalso.
      assert (Hsub : ∀ m, m ∈ mask_select (map f l) (seq (S start) (length l))
                      → (S start ≤ m)%nat).
      { clear. generalize (S start). induction l as [|y l IH]; intros st m; simpl.
        - by intros ?%elem_of_nil.
        - destruct (f y).
          + intros [->|Hm]%elem_of_cons; [lia|]. apply IH in Hm. lia.
          + intros Hm. apply IH in Hm. lia. }
      apply Hsub in Hin. lia.
  - replace (start + S n)%nat with (S start + n)%nat by lia.
    rewrite <- (IH (S start) n Hn).
    destruct (f y); [|done].
    rewrite elem_of_cons. split; [intros [?|?]; [lia|done]|by right].
Qed.

Lemma mask_select_nil {A B : Type} (f : A → bool) (l : list A) (labels : list B) :
  length labels = length l →
  mask_select (map f l) labels = [] ↔ Forall (fun x => f x = false) l.
Proof.
  revert labels. induction l as [|y l IH]; intros [|b labels] Hlen; simpl in *;
    try done.
  injection Hlen as Hlen. rewrite Forall_cons. destruct (f y).
  - split; [done|]. by intros [? _].
  - rewrite IH by done. tauto.
Qed.

Lemma update_loop_run k idx data s df :
  session_state s !! k = Some df →
  Schema.update_loop k idx data s
  = match try_updates idx data df with
    | Ok df' => Ok (tt, mkSt (<[k := df']> (session_state s)) (alerts s))
    | Raise e => Raise e
    end.
Proof.
  revert s df. induction data as [|[key v] data IH]; intros s df Hk.
  - simpl. unfold mret, App_ret. rewrite insert_id by done. by destruct s.
  - unfold Schema.update_loop in *. simpl.
    unfold mbind, App_bind, session_get at 1. rewrite Hk. simpl.
    destruct (loc_set idx key v df) as [df1|e]; simpl; [|done].
    erewrite IH; [|simpl; apply lookup_insert_eq].
    simpl. destruct (try_updates idx data df1); [|done].
    by rewrite insert_insert_eq.
Qed.

(** What [handle_update] does, case by case. *)
Lemma schema_update_no_id k s df id data :
  session_state s !! k = Some df →
  has_column "id" df = false →
  Schema.handle_update k id data s
  = Ok (tt, mkSt (session_state s) (alerts s ++ [Error MissingIdColumn])).
Proof.
  intros Hk Hid.
  unfold Schema.handle_update, mbind, App_bind, session_get. by rewrite Hk, Hid.
Qed.

Lemma schema_update_run k s df id data :
  session_state s !! k = Some df →
  has_column "id" df = true →
  duplicated "id" df = false →
  let idx := mask_select (series_eq (map (row_id df) (rows df)) id) (index df) in
  Schema.handle_update k id data s
  = if bool_decide (idx = [])
    then Ok (tt, mkSt (session_state s) (alerts s ++ [Error NotFound]))
    else match try_updates idx data df with
         | Ok df' => Ok (tt, mkSt (<[k := df']> (session_state s))
                              (alerts s ++ [Success]))
         | Raise e => Raise e
         end.
Proof.
  intros Hk Hid Hdup idx.
  unfold Schema.handle_update, mbind, App_bind, session_get at 1. rewrite Hk, Hid.
  simpl. rewrite (getitem_has_column _ _ Hid Hdup). simpl.
  change (lookup_cell (columns df) "id") with (row_id df). fold idx.
  destruct (bool_decide (idx = [])); simpl; [done|].
  rewrite (update_loop_run _ _ _ _ _ Hk).
  by destruct (try_updates idx data df).
Qed.

Lemma schema_update_duplicated k s df id data :
  session_state s !! k = Some df →
  duplicated "id" df = true →
  Schema.handle_update k id data s = Raise ValueError.
Proof.
  intros Hk Hdup. pose proof (duplicated_has_column _ _ Hdup) as Hid.
  destruct (getitem_duplicated _ _ Hdup) as [cs Hcs].
  unfold Schema.handle_update, mbind, App_bind, session_get at 1. rewrite Hk, Hid.
  simpl. by rewrite Hcs.
Qed.

Lemma schema_update_returns k s s' df id data :
  session_state s !! k = Some df →
  Schema.handle_update k id data s = Ok (tt, s') →
  duplicated "id" df = false.
Proof.
  intros Hk Hrun. destruct (duplicated "id" df) eqn:Hdup; [|done].
  by rewrite (schema_update_duplicated _ _ _ _ _ Hk Hdup) in Hrun.
Qed.

(** What an update that returns has stored. *)
Lemma schema_update_result k s s' df id data :
  session_state s !! k = Some df →
  has_column "id" df = true →
  Schema.handle_update k id data s = Ok (tt, s') →
  let idx := mask_select (series_eq (map (row_id df) (rows df)) id) (index df) in
  s' = if bool_decide (idx = [])
       then mkSt (session_state s) (alerts s ++ [Error NotFound])
       else mkSt (<[k := apply_updates idx data df]> (session_state s))
              (alerts s ++ [Success]).
Proof.
  intros Hk Hid Hrun idx.
  pose proof (schema_update_returns _ _ _ _ _ _ Hk Hrun) as Hdup.
  rewrite (schema_update_run _ _ _ _ _ Hk Hid Hdup) in Hrun. fold idx in Hrun.
  destruct (bool_decide (idx = [])); [by injection Hrun as <-|].
  destruct (try_updates idx data df) as [df'|e] eqn:Htry; [|done].
  apply try_updates_Ok in Htry as ->. by injection Hrun as <-.
Qed.

(** Update can end without an error shown and without a success: on the
    frame loaded from a file with the headers [ID] and [id] it raises, and
    so it does (pandas 3) when a row has the id and a string is to be written
    into a column of integers. *)
Lemma update_can_raise :
  columns frame_with_two_ids = ["id"; "id"; "title"]
  ∧ handle_update CyberSecurity (VInt 7) [("title", VStr "Server Breach")]
      (sample_state CyberSecurity frame_with_two_ids)
    = Raise ValueError
  ∧ get_row IT frame_with_priority (Some (VInt 2))
    = Ok (Some (mkSeries ["id"; "title"; "priority"]
                  [VInt 2; VStr "Server Breach"; VInt 1]))
  ∧ handle_update IT (VInt 2) [("priority", VStr "High")]
      (sample_state IT frame_with_priority)
    = Raise TypeError.
Proof. by vm_compute. Qed.

(** C2, as the code has it. On a stored frame whose label 'id' is not
    duplicated, and for an update that writes strings to new columns or to
    columns that hold a string, update shows an error exactly when the frame
    has no 'id' column or no row has the given id, and then the stored frame
    is as before; when a row matches it shows a success, and the rows with
    the id hold the values of the update under its keys and their old cells
    elsewhere, the other rows their old cells.  With more than one column
    labelled 'id' update raises and shows nothing. *)
Theorem update_overwrites_the_matching_rows
    (p : page) (s : St) (df : DataFrame) (id : value) (data : list (string * value)) :
  session_state s !! key p = Some df →
  stored df →
  (duplicated "id" df = true → handle_update p id data s = Raise ValueError)
  ∧ (duplicated "id" df = false → fits df data = true →
  ∃ (df' : DataFrame) (a : alert),
    handle_update p id data s
      = Ok (tt, mkSt (<[key p := df']> (session_state s)) (alerts s ++ [a]))
    ∧ ((∃ why, a = Error why)
       ↔ has_column "id" df = false
         ∨ Forall (fun r => value_eqb (row_id df r) id = false) (rows df))
    ∧ ((∃ why, a = Error why) → df' = df)
    ∧ (a = Success ∨ ∃ why, a = Error why)
    ∧ (a = Success →
       index df' = index df
       ∧ len df' = len df
       ∧ (∀ c, c ∈ columns df' ↔ c ∈ columns df ∨ c ∈ data.*1)
       ∧ ∀ n r, rows df !! n = Some r →
           ∃ r', rows df' !! n = Some r'
             ∧ ∀ c, lookup_cell (columns df') c r'
                    = if value_eqb (row_id df r) id
                      then default (lookup_cell (columns df) c r) (assigned c data)
                      else lookup_cell (columns df) c r)).
Proof.
  intros Hk [Hal Hidx]. rewrite handle_update_schema. split.
  { intros Hdup. by apply schema_update_duplicated with df. }
  intros Hdup Hfits.
  assert (Hlen : length (index df) = length (rows df)).
  { rewrite Hidx. apply length_seq. }
  destruct (has_column "id" df) eqn:Hid.
  - rewrite (schema_update_run _ _ _ _ _ Hk Hid Hdup). simpl.
    set (f := fun r => value_eqb (row_id df r) id).
    assert (Hm : series_eq (map (row_id df) (rows df)) id = map f (rows df)).
    { unfold series_eq. by rewrite map_map. }
    rewrite Hm.
    pose proof (mask_select_nil f (rows df) (index df) Hlen) as Hnil.
    destruct (bool_decide_reflect (mask_select (map f (rows df)) (index df) = []))
      as [He|Hne].
    + exists df, (Error NotFound). rewrite insert_id by done.
      split_and!; try done.
      * split; [intros _; right; by apply Hnil|by eexists].
      * right. by eexists.
    + rewrite (try_updates_fits _ _ _ Hal Hlen Hfits).
      eexists _, Success. split; [done|]. split_and!.
      * split; [by intros [? ?]|]. intros [?|HF]; [done|].
        by apply Hnil in HF.
      * by intros [? ?].
      * by left.
      * intros _. split_and!.
        -- apply apply_updates_index.
        -- unfold len. by apply apply_updates_rows_length.
        -- apply apply_updates_columns.
        -- intros n r Hr.
           assert (Hi : index df !! n = Some n).
           { rewrite Hidx. apply lookup_seq. split; [done|].
             by apply lookup_lt_Some in Hr. }
           destruct (apply_updates_row
                       (mask_select (map f (rows df)) (index df)) data df n n r
                       Hal Hlen Hi Hr) as (r' & Hr' & Hc).
           exists r'. split; [done|]. intros c. rewrite Hc.
           2:{ intros v Hv Hmiss. by rewrite (fits_present _ _ _ _ Hfits Hv) in Hmiss. }
           assert (Hin : bool_decide (n ∈ mask_select (map f (rows df)) (index df))
                         = f r).
           { rewrite Hidx. unfold len.
             pose proof (mask_select_labels f (rows df) 0 n r Hr) as Hl.
             simpl in Hl. destruct (f r).
             - apply bool_decide_eq_true. by apply Hl.
             - apply bool_decide_eq_false. intros Hc'. apply Hl in Hc'. done. }
           by rewrite Hin.
  - rewrite (schema_update_no_id _ _ _ _ _ Hk Hid).
    exists df, (Error MissingIdColumn). rewrite insert_id by done.
    split_and!; try done.
    + split; [by left|by eexists].
    + right. by eexists.
Qed.

(** ** The dashboard's metrics *)

Lemma count_rows_no_column cols c v rs :
  col_index c cols = None → count_rows cols c v rs = 0%nat.
Proof.
  intros Hc. induction rs as [|r rs IH]; [done|].
  simpl. unfold cell. by rewrite Hc.
Qed.

Lemma len_bool_index_eq df c v :
  has_column c df = true →
  length (mask_select (series_eq (map (lookup_cell (columns df) c) (rows df)) v) (rows df))
  = count_rows (columns df) c v (rows df).
Proof.
  intros [j Hj]%has_column_true. rewrite bool_index_rows_eq.
  induction (rows df) as [|r rs IH]; [done|].
  simpl. unfold lookup_cell at 1, cell. rewrite Hj. simpl.
  destruct (value_eqb (cell_at j r) v); simpl; by rewrite IH.
Qed.

Lemma schema_metric df c v :
  duplicated c df = false →
  (if has_column c df
   then s ← getitem df c; d ← bool_index df (sel_eq s v); Ok (len d)
   else Ok 0%nat)
  = Ok (count_rows (columns df) c v (rows df)).
Proof.
  intros Hdup. destruct (has_column c df) eqn:Hc.
  - rewrite (getitem_has_column _ _ Hc Hdup). simpl. unfold len. simpl.
    by rewrite len_bool_index_eq.
  - by rewrite count_rows_no_column by by apply has_column_false.
Qed.

(** A file with a header and no record shows no metric at all, and a frame
    with two columns labelled 'status' makes the dashboard raise. *)
Lemma no_metrics_without_records :
  display_dashboard IT header_only = Ok NoData
  ∧ display_dashboard IT header_only
    ≠ Ok (Metrics (len header_only)
            (count_rows (columns header_only) "status" (VStr "Open")
               (rows header_only))
            (count_rows (columns header_only) "severity" (VStr "Critical")
               (rows header_only)))
  ∧ columns frame_with_two_statuses = ["id"; "status"; "status"]
  ∧ display_dashboard CyberSecurity frame_with_two_statuses = Raise ValueError.
Proof. split_and!; by vm_compute. Qed.

(** C6, as the code has it. On an empty frame (no row or no column) the
    dashboard shows no metric.  On a frame that is not empty and in which
    neither the label 'status' nor the label 'severity' is duplicated, it
    shows as total the number of rows, as open count the number of rows whose
    'status' is 'Open' and as critical count the number of rows whose
    'severity' is 'Critical', a count being 0 when its column is missing. *)
Theorem dashboard_counts_are_correct (p : page) (df : DataFrame) :
  (empty df = true → display_dashboard p df = Ok NoData)
  ∧ (empty df = false →
     duplicated "status" df = false →
     duplicated "severity" df = false →
     display_dashboard p df
     = Ok (Metrics (length (rows df))
             (count_rows (columns df) "status" (VStr "Open") (rows df))
             (count_rows (columns df) "severity" (VStr "Critical") (rows df))))
  ∧ (has_column "status" df = false →
     count_rows (columns df) "status" (VStr "Open") (rows df) = 0%nat)
  ∧ (has_column "severity" df = false →
     count_rows (columns df) "severity" (VStr "Critical") (rows df) = 0%nat).
Proof.
  rewrite display_dashboard_schema. unfold Schema.display_dashboard.
  split_and!.
  - by intros ->.
  - intros -> Hstatus Hseverity.
    rewrite (schema_metric _ _ _ Hstatus). simpl.
    by rewrite (schema_metric _ _ _ Hseverity).
  - intros H%has_column_false. by apply count_rows_no_column.
  - intros H%has_column_false. by apply count_rows_no_column.
Qed.

(** ** Add *)

Lemma lookup_cell_no_column cols c r : c ∉ cols → lookup_cell cols c r = VNaN.
Proof. intros H. unfold lookup_cell, cell. by rewrite col_index_None. Qed.

Lemma float64_small n : - 2 ^ 53 ≤ n ≤ 2 ^ 53 → float64 n = n.
Proof.
  intros Hn. unfold float64.
  destruct (Z.leb_spec (Z.abs n) (2 ^ 53)) as [_|Habs]; [done|lia].
Qed.

Lemma wrap64_small n : - 2 ^ 63 ≤ n < 2 ^ 63 → wrap64 n = n.
Proof.
  intros Hn. unfold wrap64. rewrite Z.mod_small; lia.
Qed.

Lemma to_float_eqb_str v s : value_eqb (to_float v) (VStr s) = value_eqb v (VStr s).
Proof. by destruct v. Qed.

(** A cell after the concatenation: converted when its column became
    float64. *)
Lemma lookup_cell_realign a b cols own c r :
  (c ∈ own → c ∈ cols) →
  lookup_cell cols c (realign a b cols own r)
  = if float_column a b c then to_float (lookup_cell own c r)
    else lookup_cell own c r.
Proof.
  intros Hsub. destruct (decide (c ∈ cols)) as [Hin|Hout].
  - destruct (col_index_Some _ _ Hin) as [j Hj].
    unfold lookup_cell at 1, cell. rewrite Hj. simpl.
    unfold cell_at, realign. rewrite nth_lookup, list_lookup_fmap.
    by rewrite (col_index_lookup _ _ _ Hj).
  - rewrite !lookup_cell_no_column by auto. by destruct (float_column a b c).
Qed.

Lemma elem_of_union_columns a b c : c ∈ union_columns a b ↔ c ∈ a ∨ c ∈ b.
Proof.
  unfold union_columns. rewrite elem_of_app, !list_elem_of_In, filter_In.
  rewrite <- !list_elem_of_In.
  destruct (decide (c ∈ a)) as [Ha|Ha].
  - tauto.
  - rewrite bool_decide_eq_false_2 by done. simpl. tauto.
Qed.

Lemma NoDup_union_columns a b : NoDup a → NoDup b → NoDup (union_columns a b).
Proof.
  intros Ha Hb. unfold union_columns. apply NoDup_app. split_and!; [done| |].
  - intros c Hc Hin. apply list_elem_of_In, filter_In in Hin as [_ Hin].
    by rewrite bool_decide_eq_true_2 in Hin.
  - apply NoDup_ListNoDup, List.NoDup_filter. by apply NoDup_ListNoDup.
Qed.

Lemma concat_columns a b c :
  c ∈ columns (union_concat a b) ↔ c ∈ columns a ∨ c ∈ columns b.
Proof. apply elem_of_union_columns. Qed.

Lemma concat_len a b : len (union_concat a b) = (len a + len b)%nat.
Proof. unfold len, union_concat. simpl. by rewrite length_app, !length_map. Qed.

Lemma concat_index a b : index (union_concat a b) = seq 0 (len (union_concat a b)).
Proof. done. Qed.

(** The rows of the second frame keep their cells, after the rows of the
    first one. *)
Lemma concat_row_r a b n r :
  rows b !! n = Some r →
  ∃ r', rows (union_concat a b) !! (len a + n)%nat = Some r'
    ∧ ∀ c, lookup_cell (columns (union_concat a b)) c r'
           = if float_column a b c then to_float (lookup_cell (columns b) c r)
             else lookup_cell (columns b) c r.
Proof.
  intros Hr.
  exists (realign a b (columns (union_concat a b)) (columns b) r). split.
  - unfold union_concat, len. simpl. rewrite lookup_app_r; rewrite length_map; [|lia].
    replace (length (rows a) + n - length (rows a))%nat with n by lia.
    by rewrite list_lookup_fmap, Hr.
  - intros c. apply lookup_cell_realign. intros Hc.
    apply concat_columns. by right.
Qed.

Lemma concat_row_l a b n r :
  rows a !! n = Some r →
  ∃ r', rows (union_concat a b) !! n = Some r'
    ∧ ∀ c, lookup_cell (columns (union_concat a b)) c r'
           = if float_column a b c then to_float (lookup_cell (columns a) c r)
             else lookup_cell (columns a) c r.
Proof.
  intros Hr.
  exists (realign a b (columns (union_concat a b)) (columns a) r). split.
  - unfold union_concat. simpl. rewrite lookup_app_l.
    + by rewrite list_lookup_fmap, Hr.
    + rewrite length_map. by apply lookup_lt_Some in Hr.
  - intros c. apply lookup_cell_realign. intros Hc.
    apply concat_columns. by left.
Qed.

Lemma concat_aligned a b : aligned (union_concat a b).
Proof.
  unfold aligned, union_concat. simpl. apply Forall_app.
  split; apply Forall_fmap, Forall_true; intros r; simpl;
    unfold realign; by rewrite length_map.
Qed.

(** Labels that are distinct are not duplicated. *)
Lemma NoDup_positions c cols : NoDup cols → (length (positions c cols) ≤ 1)%nat.
Proof.
  induction 1 as [|c' cols Hc' _ IH]; simpl; [lia|].
  destruct (String.eqb_spec c c') as [->|_].
  - rewrite (proj2 (positions_nil c' cols)); [simpl; lia|].
    by apply col_index_None.
  - by rewrite length_fmap.
Qed.

Lemma NoDup_not_duplicated c df : NoDup (columns df) → duplicated c df = false.
Proof.
  intros Hnd. unfold duplicated. apply Nat.ltb_ge. by apply NoDup_positions.
Qed.

(** The frame of the new row has five distinct labels, so that it can be
    concatenated to the frames whose labels are distinct, and to no other. *)
Lemma new_row_labels id nd now :
  columns (Schema.new_row id nd now) = ["id"; "title"; "severity"; "status"; "timestamp"].
Proof. done. Qed.

Lemma concat_new_row id nd now df :
  concat (Schema.new_row id nd now) df
  = if bool_decide (NoDup (columns df))
    then Ok (union_concat (Schema.new_row id nd now) df)
    else Raise InvalidIndexError.
Proof.
  assert (Hnd : NoDup ["id"; "title"; "severity"; "status"; "timestamp"])
    by compute_done.
  unfold concat. rewrite new_row_labels, (bool_decide_eq_true_2 _ Hnd). simpl.
  destruct (bool_decide_reflect (NoDup (columns df))) as [?|Hdup]; [done|].
  rewrite bool_decide_eq_false_2; [done|]. intros Heq. apply Hdup. by rewrite <- Heq.
Qed.

(** The id of the new record. *)
Lemma new_id_first first df :
  empty df = true ∨ has_column "id" df = false →
  Schema.new_id first df = Ok (VInt first).
Proof.
  unfold Schema.new_id. intros [-> | ->]; [done|]. by rewrite andb_false_r.
Qed.

Lemma new_id_next first df :
  empty df = false → has_column "id" df = true → duplicated "id" df = false →
  Schema.new_id first df = series_max_plus_one (map (row_id df) (rows df)).
Proof.
  unfold Schema.new_id. intros -> Hid Hdup. rewrite Hid. simpl.
  by rewrite (getitem_has_column _ _ Hid Hdup).
Qed.

Lemma new_id_duplicated first df :
  empty df = false → duplicated "id" df = true →
  ∃ e, Schema.new_id first df = Raise e.
Proof.
  unfold Schema.new_id. intros -> Hdup.
  rewrite (duplicated_has_column _ _ Hdup). simpl.
  destruct (getitem_duplicated _ _ Hdup) as [cs ->]. simpl.
  destruct (forallb _ cs); by eexists.
Qed.

Lemma schema_add_run k first nd now s df :
  session_state s !! k = Some df →
  Schema.handle_add k first nd now s
  = match Schema.new_id first df with
    | Ok id =>
        if bool_decide (NoDup (columns df))
        then Ok (tt, mkSt (<[k := union_concat (Schema.new_row id nd now) df]>
                             (session_state s))
                       (alerts s ++ [Success]))
        else Raise InvalidIndexError
    | Raise e => Raise e
    end.
Proof.
  intros Hk. unfold Schema.handle_add, mbind, App_bind, session_get. rewrite Hk.
  simpl. unfold lift. destruct (Schema.new_id first df) as [id|e]; [|done].
  rewrite concat_new_row. by destruct (bool_decide (NoDup (columns df))).
Qed.

(** What an add that returns has stored. *)
Lemma schema_add_returns k first nd now s s' df :
  session_state s !! k = Some df →
  Schema.handle_add k first nd now s = Ok (tt, s') →
  ∃ id, Schema.new_id first df = Ok id
    ∧ NoDup (columns df)
    ∧ s' = mkSt (<[k := union_concat (Schema.new_row id nd now) df]> (session_state s))
             (alerts s ++ [Success]).
Proof.
  intros Hk Hrun. rewrite (schema_add_run _ _ _ _ _ _ Hk) in Hrun.
  destruct (Schema.new_id first df) as [id|e]; [|done].
  destruct (bool_decide_reflect (NoDup (columns df))) as [Hnd|_]; [|done].
  injection Hrun as <-. by exists id.
Qed.

Lemma not_all_numeric s :
  forallb is_numeric s = false ↔ Exists (fun v => is_numeric v = false) s.
Proof.
  induction s as [|v s IH]; simpl.
  - split; [done|]. by intros ?%Exists_nil.
  - rewrite Exists_cons, <- IH. destruct (is_numeric v); simpl; [|tauto].
    split; [by right|]. by intros [?|?].
Qed.

Lemma max_plus_one_raise s :
  series_max_plus_one s = Raise TypeError ↔ Exists (fun v => is_numeric v = false) s.
Proof.
  rewrite <- not_all_numeric. unfold series_max_plus_one.
  destruct (forallb is_numeric s); [|done].
  by destruct (int_cells s).
Qed.

Lemma max_plus_one_cases s :
  (∃ v, series_max_plus_one s = Ok v ∧ is_numeric v = true
        ∧ (is_missing v = true → existsb is_missing s = true ∨ s = []))
  ∨ series_max_plus_one s = Raise TypeError.
Proof.
  unfold series_max_plus_one. destruct (forallb is_numeric s) eqn:Hnum; [left|by right].
  destruct (int_cells s) as [|n l] eqn:Hints; eexists; (split; [done|]);
    (split; [done|]); [|done].
  intros _. destruct s as [|v s]; [by right|left].
  destruct v; simpl in *; try done.
Qed.

Lemma new_row_cell id nd now c :
  lookup_cell (columns (Schema.new_row id nd now)) c
    [id; VStr (title nd); VStr (severity nd); VStr "Open"; VTime now]
  = if String.eqb c "id" then id
    else if String.eqb c "title" then VStr (title nd)
    else if String.eqb c "severity" then VStr (severity nd)
    else if String.eqb c "status" then VStr "Open"
    else if String.eqb c "timestamp" then VTime now
    else VNaN.
Proof.
  unfold lookup_cell, cell. simpl.
  repeat (destruct (String.eqb c _); [done|]). done.
Qed.

(** The id add gives is a number, and a missing one only when an id of the
    frame is missing. *)
Lemma new_id_value first df id :
  Schema.new_id first df = Ok id →
  is_numeric id = true
  ∧ (is_missing id = true → existsb is_missing (column_cells df "id") = true).
Proof.
  intros Hid. destruct (empty df) eqn:He.
  { rewrite new_id_first in Hid by by left. by injection Hid as <-. }
  destruct (has_column "id" df) eqn:Hcol.
  2:{ rewrite new_id_first in Hid by by right. by injection Hid as <-. }
  destruct (duplicated "id" df) eqn:Hdup.
  { destruct (new_id_duplicated first df He Hdup) as [e He']. congruence. }
  rewrite (new_id_next _ _ He Hcol Hdup) in Hid.
  destruct (max_plus_one_cases (map (row_id df) (rows df)))
    as [(v & Hv & Hnum & Hmiss)|Hraise]; [|congruence].
  rewrite Hv in Hid. injection Hid as <-. split; [done|].
  intros Hm. destruct (Hmiss Hm) as [?|Hnil]; [done|].
  apply fmap_nil_inv in Hnil. unfold empty in He. rewrite Hnil in He.
  by destruct (columns df).
Qed.

Lemma float_column_add first id nd now df c :
  Schema.new_id first df = Ok id →
  float_column (Schema.new_row id nd now) df c = float_after_add df c.
Proof.
  intros [Hnum Hmiss]%new_id_value. unfold float_column, float_after_add.
  change (column_cells (Schema.new_row id nd now) c)
    with [lookup_cell (columns (Schema.new_row id nd now)) c
            [id; VStr (title nd); VStr (severity nd); VStr "Open"; VTime now]].
  rewrite new_row_cell. cbn [app forallb existsb].
  destruct (String.eqb_spec c "id") as [->|Hid].
  { rewrite Hnum. simpl. destruct (is_missing id); [|done].
    rewrite Hmiss by done. by rewrite orb_true_r. }
  destruct (String.eqb_spec c "title") as [->|Htitle]; [by rewrite andb_false_r|].
  destruct (String.eqb_spec c "severity") as [->|Hseverity];
    [by rewrite andb_false_r|].
  destruct (String.eqb_spec c "status") as [->|Hstatus]; [by rewrite andb_false_r|].
  destruct (String.eqb_spec c "timestamp") as [->|Htimestamp];
    [by rewrite andb_false_r|].
  simpl. rewrite bool_decide_eq_false_2; [done|].
  rewrite !elem_of_cons, elem_of_nil. tauto.
Qed.

(** The frame [handle_add] stores, whatever id it gives the new record. *)
Lemma add_frame id nd now df :
  let nr := Schema.new_row id nd now in
  let df' := union_concat nr df in
  len df' = S (len df)
  ∧ (∀ c, c ∈ columns df → c ∈ columns df')
  ∧ (∀ n r, rows df !! n = Some r →
       ∃ r', rows df' !! S n = Some r'
         ∧ ∀ c, lookup_cell (columns df') c r'
                = if float_column nr df c then to_float (lookup_cell (columns df) c r)
                  else lookup_cell (columns df) c r)
  ∧ ∃ r0, rows df' !! 0%nat = Some r0
      ∧ lookup_cell (columns df') "id" r0
        = (if float_column nr df "id" then to_float id else id)
      ∧ lookup_cell (columns df') "title" r0 = VStr (title nd)
      ∧ lookup_cell (columns df') "severity" r0 = VStr (severity nd)
      ∧ lookup_cell (columns df') "status" r0 = VStr "Open".
Proof.
  intros nr df'. split_and!.
  - unfold df'. by rewrite concat_len.
  - intros c Hc. apply concat_columns. by right.
  - intros n r Hr. apply (concat_row_r nr) in Hr. done.
  - destruct (concat_row_l nr df 0
                [id; VStr (title nd); VStr (severity nd); VStr "Open"; VTime now])
      as (r0 & Hr0 & Hc); [done|].
    exists r0. split; [done|]. rewrite !Hc. unfold nr. rewrite !new_row_cell.
    set (f := float_column (Schema.new_row id nd now) df). clearbody f. simpl.
    split_and!;
      [done|by destruct (f "title")|by destruct (f "severity")|by destruct (f "status")].
Qed.

(** Add does not always leave the rows it finds under a new row: ids that
    are no numbers make [max() + 1] raise; a frame with a duplicated label
    cannot be concatenated to the new row; and a column of integers that the
    new row lacks becomes float64, which rounds an integer above 2^53. *)
Lemma add_can_raise_or_round :
  handle_add IT sample_form 1700000000 (sample_state IT frame_with_text_ids)
  = Raise TypeError
  ∧ columns frame_with_two_titles = ["id"; "title"; "title"]
  ∧ (∃ e, handle_add CyberSecurity sample_form 1700000000
            (sample_state CyberSecurity frame_with_two_titles) = Raise e)
  ∧ outcome IT (handle_add IT sample_form 1700000000)
      (sample_state IT frame_with_large_count)
    = Ok (Some (mkDF ["id"; "title"; "severity"; "status"; "timestamp"; "count"]
                  [0; 1]%nat
                  [[VInt 2; VStr "Lost badge"; VStr "Low"; VStr "Open";
                    VTime 1700000000; VNaN];
                   [VInt 1; VNaN; VNaN; VNaN; VNaN; VInt (2 ^ 53)]]),
          [Success]).
Proof.
  split; [by vm_compute|]. split; [by vm_compute|].
  split; [eexists; by vm_compute|]. by vm_compute.
Qed.

(** C9, as the code has it. Whenever add completes, the rows it finds follow
    the new row in their order, one position down, each with its cells,
    except that the numbers of a column which the concatenation makes
    float64 are converted, which changes integers above 2^53 only; the new
    row is first, its status 'Open', its title and severity those of the
    form.  Add completes exactly on the frames whose labels are distinct and
    which are empty, have no 'id' column, or have numbers or missing cells
    as ids. *)
Theorem add_changes_no_existing_row
    (p : page) (s : St) (df : DataFrame) (nd : new_data) (now : Z) :
  session_state s !! key p = Some df →
  (∀ s', handle_add p nd now s = Ok (tt, s') →
     ∃ (df' : DataFrame) (r0 : list value),
       s' = mkSt (<[key p := df']> (session_state s)) (alerts s ++ [Success])
       ∧ len df' = S (len df)
       ∧ (∀ c, c ∈ columns df → c ∈ columns df')
       ∧ (∀ n r, rows df !! n = Some r →
            ∃ r', rows df' !! S n = Some r'
              ∧ ∀ c, lookup_cell (columns df') c r'
                     = if float_after_add df c
                       then to_float (lookup_cell (columns df) c r)
                       else lookup_cell (columns df) c r)
       ∧ rows df' !! 0%nat = Some r0
       ∧ lookup_cell (columns df') "status" r0 = VStr "Open"
       ∧ lookup_cell (columns df') "title" r0 = VStr (title nd)
       ∧ lookup_cell (columns df') "severity" r0 = VStr (severity nd))
  ∧ ((∃ s', handle_add p nd now s = Ok (tt, s'))
     ↔ NoDup (columns df)
       ∧ (empty df = true ∨ has_column "id" df = false
          ∨ Forall (fun r => is_numeric (row_id df r) = true) (rows df)))
  ∧ (∀ v, to_float v = v
          ∨ ∃ n, v = VInt n ∧ to_float v = VInt (float64 n) ∧ 2 ^ 53 < Z.abs n).
Proof.
  intros Hk. rewrite handle_add_schema. split_and!.
  - intros s' Hrun.
    destruct (schema_add_returns _ _ _ _ _ _ _ Hk Hrun) as (id & Hid & Hnd & ->).
    destruct (add_frame id nd now df)
      as (Hlen & Hcols & Hrows & r0 & H0 & _ & Ht & Hs & Ho).
    eexists _, r0. split_and!; try done.
    intros n r Hr. destruct (Hrows n r Hr) as (r' & Hr' & Hc).
    exists r'. split; [done|]. intros c.
    by rewrite Hc, (float_column_add _ _ _ _ _ _ Hid).
  - rewrite (schema_add_run _ _ _ _ _ _ Hk). split.
    + intros [s' Hrun].
      destruct (Schema.new_id (first_id p) df) as [id|e] eqn:Hid; [|done].
      destruct (bool_decide_reflect (NoDup (columns df))) as [Hnd|_]; [|done].
      split; [done|].
      destruct (empty df) eqn:He; [by left|].
      destruct (has_column "id" df) eqn:Hcol; [|by right; left].
      right. right.
      rewrite (new_id_next _ _ He Hcol (NoDup_not_duplicated _ _ Hnd)) in Hid.
      apply Forall_forall. intros r Hr.
      destruct (is_numeric (row_id df r)) eqn:Hnum; [done|].
      assert (Hraise : series_max_plus_one (map (row_id df) (rows df))
                       = Raise TypeError).
      { apply max_plus_one_raise, Exists_exists. exists (row_id df r).
        split; [|done]. apply list_elem_of_fmap. by exists r. }
      congruence.
    + intros [Hnd Hcase]. rewrite (bool_decide_eq_true_2 _ Hnd).
      assert (Hid : ∃ id, Schema.new_id (first_id p) df = Ok id).
      { destruct (empty df) eqn:He.
        { eexists. apply new_id_first. by left. }
        destruct (has_column "id" df) eqn:Hcol.
        2:{ eexists. apply new_id_first. by right. }
        destruct Hcase as [?|[?|Hall]]; [done..|].
        rewrite (new_id_next _ _ He Hcol (NoDup_not_duplicated _ _ Hnd)).
        destruct (max_plus_one_cases (map (row_id df) (rows df)))
          as [(v & Hv & _)|Hraise]; [by eexists|].
        apply max_plus_one_raise, Exists_exists in Hraise as (v & Hin & Hv).
        apply list_elem_of_fmap in Hin as (r & -> & Hr).
        rewrite Forall_forall in Hall. rewrite (Hall r Hr) in Hv. done. }
      destruct Hid as [id ->]. by eexists.
  - intros v. destruct v as [n| | |]; try by left.
    destruct (Z.leb_spec (Z.abs n) (2 ^ 53)) as [Hle|Hgt].
    + left. simpl. rewrite float64_small; [done|lia].
    + right. by exists n.
Qed.

(** ** Ids *)

Lemma mapM_as_int s l : mapM as_int s = Some l ↔ s = VInt <$> l.
Proof.
  rewrite mapM_Some. split.
  - induction 1 as [|v n s l Hv _ IH]; [done|].
    destruct v; try done. injection Hv as ->. simpl. by rewrite IH.
  - intros ->. induction l as [|n l IH]; constructor; done.
Qed.

Lemma int_ids_spec df l :
  int_ids df = Some l
  ↔ has_column "id" df = true ∧ duplicated "id" df = false
    ∧ map (row_id df) (rows df) = VInt <$> l.
Proof.
  unfold int_ids. destruct (has_column "id" df) eqn:Hid.
  - destruct (duplicated "id" df) eqn:Hdup.
    + destruct (getitem_duplicated _ _ Hdup) as [cs ->].
      split; [done|]. by intros (_ & ? & _).
    + rewrite (getitem_has_column _ _ Hid Hdup), mapM_as_int. unfold row_id.
      split; [done|]. by intros (_ & _ & ?).
  - rewrite (getitem_no_column _ _ Hid). split; [done|]. by intros [? _].
Qed.

Lemma max_list_ge n l : n ≤ max_list n l ∧ Forall (fun x => x ≤ max_list n l) l.
Proof.
  unfold max_list. revert n. induction l as [|x l IH]; intros n; simpl.
  - split; [lia|constructor].
  - destruct (IH (Z.max n x)) as [H1 H2]. split; [lia|].
    constructor; [lia|done].
Qed.

Lemma max_list_elem n l : max_list n l ∈ n :: l.
Proof.
  unfold max_list. revert n. induction l as [|x l IH]; intros n; simpl.
  - apply elem_of_cons. by left.
  - specialize (IH (Z.max n x)).
    apply elem_of_cons in IH as [IH|IH].
    + rewrite IH. destruct (Z.max_spec n x) as [[_ ->]|[_ ->]].
      * apply elem_of_cons. right. apply elem_of_cons. by left.
      * apply elem_of_cons. by left.
    + apply elem_of_cons. right. apply elem_of_cons. by right.
Qed.

Lemma int_cells_ints l : int_cells (VInt <$> l) = l.
Proof.
  induction l as [|n l IH]; [done|].
  change (int_cells (VInt <$> n :: l)) with (n :: int_cells (VInt <$> l)).
  by rewrite IH.
Qed.

Lemma all_numeric_ints l : forallb is_numeric (VInt <$> l) = true.
Proof. induction l as [|n l IH]; [done|]. done. Qed.

Lemma all_int_ints l : forallb is_int (VInt <$> l) = true.
Proof. induction l as [|n l IH]; [done|]. done. Qed.

Lemma none_missing_ints l : existsb is_missing (VInt <$> l) = false.
Proof. induction l as [|n l IH]; [done|]. done. Qed.

(** [max() + 1] over integer ids is the largest id plus one, computed in 64
    bits. *)
Lemma max_plus_one_wraps l :
  l ≠ [] →
  ∃ m, m ∈ l ∧ Forall (fun x => x ≤ m) l
    ∧ series_max_plus_one (VInt <$> l) = Ok (VInt (wrap64 (m + 1))).
Proof.
  intros Hne. unfold series_max_plus_one.
  rewrite all_numeric_ints, int_cells_ints, all_int_ints.
  destruct l as [|n l]; [done|].
  exists (max_list n l). split; [apply max_list_elem|]. split; [|done].
  destruct (max_list_ge n l) as [H1 H2]. by constructor.
Qed.

(** Over small ids it is above every one of them. *)
Lemma max_plus_one_ints l :
  l ≠ [] → Forall small l →
  ∃ new, series_max_plus_one (VInt <$> l) = Ok (VInt new)
    ∧ (new - 1) ∈ l ∧ Forall (fun x => x < new) l.
Proof.
  intros Hne Hsmall. destruct (max_plus_one_wraps l Hne) as (m & Hm & Hle & ->).
  assert (Hms : small m) by (rewrite Forall_forall in Hsmall; auto).
  unfold small in Hms. rewrite wrap64_small by lia.
  eexists. split; [done|].
  replace (m + 1 - 1) with m by lia. split; [done|].
  eapply Forall_impl; [done|]. simpl. intros; lia.
Qed.

Lemma filter_int_ids (g : list value → value) (f : list value → bool) rs l :
  map g rs = VInt <$> l →
  ∃ l', map g (List.filter f rs) = VInt <$> l' ∧ l' `sublist_of` l.
Proof.
  revert l. induction rs as [|r rs IH]; intros [|n l] Hl; try done.
  - by exists [].
  - injection Hl as Hn Hl. destruct (IH l Hl) as (l' & Hl' & Hsub).
    simpl. destruct (f r).
    + exists (n :: l'). simpl. rewrite Hn, Hl'. split; [done|].
      by apply sublist_skip.
    + exists l'. split; [done|]. by apply sublist_cons.
Qed.

Lemma assigned_None c data : c ∉ data.*1 → assigned c data = None.
Proof.
  induction data as [|[k v] data IH]; [done|]. simpl.
  intros [Hne Hin]%not_elem_of_cons. rewrite IH by done.
  by destruct (String.eqb_spec c k).
Qed.

Lemma apply_updates_ids idx data df :
  aligned df →
  length (index df) = length (rows df) →
  "id" ∉ data.*1 →
  map (row_id (apply_updates idx data df)) (rows (apply_updates idx data df))
  = map (row_id df) (rows df).
Proof.
  intros Hal Hlen Hid. apply list_eq. intros n.
  rewrite !list_lookup_fmap.
  destruct (rows df !! n) as [r|] eqn:Hr.
  - destruct (lookup_lt_is_Some_2 (index df) n) as [i Hi].
    { rewrite Hlen. by eapply lookup_lt_Some. }
    destruct (apply_updates_row idx data df n i r Hal Hlen Hi Hr) as (r' & -> & Hc).
    simpl. unfold row_id. rewrite Hc, (assigned_None _ _ Hid).
    + by destruct (bool_decide _).
    + intros v Hin. destruct Hid. apply list_elem_of_fmap. by exists ("id", v).
  - rewrite (proj2 (lookup_ge_None _ _)); [done|].
    rewrite apply_updates_rows_length by done. by apply lookup_ge_None.
Qed.

(** An update that does not assign 'id' leaves the label 'id' where it is. *)
Lemma positions_apply_updates idx data df c :
  c ∉ data.*1 →
  positions c (columns (apply_updates idx data df)) = positions c (columns df).
Proof.
  revert df. induction data as [|[k v] data IH]; intros df Hc; [done|].
  apply not_elem_of_cons in Hc as [Hne Hc]. simpl.
  change (fold_left _ data (loc_write idx k v df))
    with (apply_updates idx data (loc_write idx k v df)).
  rewrite IH by done. rewrite loc_write_columns_eq. by apply positions_loc_assign.
Qed.

Lemma apply_updates_duplicated idx data df c :
  c ∉ data.*1 →
  duplicated c (apply_updates idx data df) = duplicated c df.
Proof. intros Hc. unfold duplicated. by rewrite positions_apply_updates. Qed.

Lemma float_after_add_int_ids df l :
  map (row_id df) (rows df) = VInt <$> l → float_after_add df "id" = false.
Proof.
  intros Hl. unfold float_after_add.
  change (column_cells df "id") with (map (row_id df) (rows df)).
  rewrite Hl. simpl. by rewrite none_missing_ints, andb_false_r.
Qed.

Lemma add_ids first id nd now df :
  Schema.new_id first df = Ok id →
  float_after_add df "id" = false →
  map (row_id (union_concat (Schema.new_row id nd now) df))
      (rows (union_concat (Schema.new_row id nd now) df))
  = id :: map (row_id df) (rows df).
Proof.
  intros Hid Hfloat.
  set (nr := Schema.new_row id nd now). set (df' := union_concat nr df).
  assert (Hrows : rows df'
    = realign nr df (columns df') (columns nr)
        [id; VStr (title nd); VStr (severity nd); VStr "Open"; VTime now]
      :: map (realign nr df (columns df') (columns df)) (rows df)) by done.
  rewrite Hrows. cbn [map]. f_equal.
  - unfold row_id. rewrite lookup_cell_realign
      by (intros ?; apply concat_columns; by left).
    unfold nr. by rewrite (float_column_add _ _ _ _ _ _ Hid), Hfloat, new_row_cell.
  - rewrite map_map. apply map_ext. intros r. unfold row_id.
    rewrite lookup_cell_realign by (intros ?; apply concat_columns; by right).
    unfold nr. by rewrite (float_column_add _ _ _ _ _ _ Hid), Hfloat.
Qed.

Lemma concat_has_id id nd now df :
  has_column "id" (union_concat (Schema.new_row id nd now) df) = true.
Proof.
  apply bool_decide_eq_true, concat_columns. left. apply elem_of_cons. by left.
Qed.

Lemma concat_NoDup id nd now df :
  NoDup (columns df) → NoDup (columns (union_concat (Schema.new_row id nd now) df)).
Proof.
  intros Hnd. apply NoDup_union_columns; [|done]. compute_done.
Qed.

(** At the end of the int64 range [max() + 1] wraps around: the new id is the
    smallest number, here an id the frame has already. *)
Lemma add_wraps_around_at_the_largest_id :
  int_ids frame_with_extreme_ids = Some [2 ^ 63 - 1; - 2 ^ 63]
  ∧ (∃ s', handle_add IT sample_form 0 (sample_state IT frame_with_extreme_ids)
           = Ok (tt, s')
       ∧ session_state s' !! key IT ≫= int_ids
         = Some [- 2 ^ 63; 2 ^ 63 - 1; - 2 ^ 63])
  ∧ int_ids frame_with_two_titles = Some [1]
  ∧ (∃ e, handle_add CyberSecurity sample_form 0
            (sample_state CyberSecurity frame_with_two_titles) = Raise e).
Proof.
  split; [by vm_compute|]. split; [eexists; split; by vm_compute|].
  split; [by vm_compute|]. eexists. by vm_compute.
Qed.

(** C8, as the code has it. On a stored frame that is not empty and has one
    'id' column of pairwise distinct integers: when the labels are distinct
    and the ids below 2^53 in absolute value, add gives the new row the
    largest id plus one, above every id of the frame, and the ids stay
    distinct; delete keeps a part of the ids, still distinct; an update that
    does not assign 'id' leaves the ids as they are whenever it completes,
    as it does when it writes strings to text columns. *)
Theorem ids_stay_distinct (p : page) (s : St) (df : DataFrame) (l : list Z) :
  session_state s !! key p = Some df →
  stored df →
  empty df = false →
  int_ids df = Some l →
  NoDup l →
  (NoDup (columns df) → Forall small l →
   ∀ nd now, ∃ (df' : DataFrame) (new : Z),
      handle_add p nd now s
        = Ok (tt, mkSt (<[key p := df']> (session_state s)) (alerts s ++ [Success]))
      ∧ int_ids df' = Some (new :: l)
      ∧ (new - 1) ∈ l
      ∧ Forall (fun x => x < new) l
      ∧ NoDup (new :: l))
  ∧ (∀ id, ∃ (df' : DataFrame) (a : alert) (l' : list Z),
      handle_delete p id s
        = Ok (tt, mkSt (<[key p := df']> (session_state s)) (alerts s ++ [a]))
      ∧ int_ids df' = Some l'
      ∧ l' `sublist_of` l
      ∧ NoDup l')
  ∧ (∀ id data, "id" ∉ data.*1 →
      (fits df data = true → ∃ s', handle_update p id data s = Ok (tt, s'))
      ∧ (∀ s', handle_update p id data s = Ok (tt, s') →
           ∃ df', session_state s' !! key p = Some df'
             ∧ int_ids df' = Some l
             ∧ NoDup l)).
Proof.
  intros Hk [Hal Hidx] Hne Hids Hnd.
  pose proof Hids as (Hid & Hdup & Hl)%int_ids_spec.
  assert (Hlen : length (index df) = length (rows df)).
  { rewrite Hidx. apply length_seq. }
  assert (Hlne : l ≠ []).
  { intros ->. unfold empty in Hne. destruct (rows df); [|done].
    by destruct (columns df). }
  split_and!.
  - intros Hcols Hsmall nd now.
    rewrite handle_add_schema, (schema_add_run _ _ _ _ _ _ Hk).
    rewrite (bool_decide_eq_true_2 _ Hcols).
    pose proof (new_id_next (first_id p) _ Hne Hid Hdup) as Hnew. rewrite Hl in Hnew.
    destruct (max_plus_one_ints l Hlne Hsmall) as (new & Hmax & Hin & Hlt).
    rewrite Hmax in Hnew. rewrite Hnew.
    eexists _, new. split; [done|]. split_and!; try done.
    + apply int_ids_spec. split_and!.
      * apply concat_has_id.
      * by apply NoDup_not_duplicated, concat_NoDup.
      * rewrite (add_ids _ _ _ _ _ Hnew (float_after_add_int_ids _ _ Hl)).
        by rewrite Hl.
    + constructor; [|done]. intros Hnew'.
      rewrite Forall_forall in Hlt. specialize (Hlt _ Hnew'). lia.
  - intros id. rewrite handle_delete_schema, (schema_delete_run _ _ _ _ Hk Hid Hdup).
    simpl.
    destruct (filter_int_ids (row_id df)
                (fun r => value_neb (row_id df r) id) (rows df) l Hl)
      as (l' & Hl' & Hsub).
    eexists _, _, l'. split; [done|]. split_and!; try done.
    + by apply int_ids_spec.
    + by eapply sublist_NoDup.
  - intros id data Hdata. rewrite handle_update_schema. split.
    + intros Hfits. rewrite (schema_update_run _ _ _ _ _ Hk Hid Hdup). simpl.
      rewrite (try_updates_fits _ _ _ Hal Hlen Hfits).
      destruct (bool_decide _); by eexists.
    + intros s' Hrun.
      rewrite (schema_update_result _ _ _ _ _ _ Hk Hid Hrun).
      destruct (bool_decide _); simpl.
      * by exists df.
      * eexists. split; [apply lookup_insert_eq|]. split; [|done].
        apply int_ids_spec. split_and!.
        -- apply bool_decide_eq_true, apply_updates_columns. left.
           by apply bool_decide_eq_true in Hid.
        -- by rewrite apply_updates_duplicated.
        -- by rewrite apply_updates_ids.
Qed.

(** ** The store invariant *)

Lemma filter_aligned (f : list value → bool) cols labels rs :
  aligned (mkDF cols labels rs) →
  aligned (mkDF cols (seq 0 (length (List.filter f rs))) (List.filter f rs)).
Proof.
  unfold aligned. simpl. rewrite !Forall_forall. intros Hal r Hr.
  apply list_elem_of_In, filter_In in Hr as [Hr _]. apply Hal.
  by apply list_elem_of_In.
Qed.

Lemma apply_updates_aligned idx data df :
  aligned df → aligned (apply_updates idx data df).
Proof.
  revert df. induction data as [|[k v] data IH]; intros df Hal; [done|].
  apply IH. by apply loc_write_aligned.
Qed.

(** X8. The handlers keep the frame they store in the shape [stored]
    describes: from a stored frame, whichever of add, update and delete
    completes leaves under the page's key a frame whose rows have one cell per
    column and are labelled 0, 1, 2, ... *)
Lemma handlers_keep_the_frame_stored (p : page) (s s' : St) (df : DataFrame) :
  session_state s !! key p = Some df →
  stored df →
  (∃ nd now, handle_add p nd now s = Ok (tt, s'))
  ∨ (∃ id data, handle_update p id data s = Ok (tt, s'))
  ∨ (∃ id, handle_delete p id s = Ok (tt, s')) →
  ∃ df', session_state s' !! key p = Some df' ∧ stored df'.
Proof.
  intros Hk [Hal Hidx] H.
  assert (Hlen : length (index df) = length (rows df)).
  { rewrite Hidx. apply length_seq. }
  destruct H as [(nd & now & H)|[(id & data & H)|(id & H)]].
  - rewrite handle_add_schema in H.
    destruct (schema_add_returns _ _ _ _ _ _ _ Hk H) as (new & _ & _ & ->). simpl.
    eexists. split; [apply lookup_insert_eq|].
    split; [apply concat_aligned|apply concat_index].
  - rewrite handle_update_schema in H. destruct (has_column "id" df) eqn:Hid.
    + rewrite (schema_update_result _ _ _ _ _ _ Hk Hid H).
      destruct (bool_decide _); simpl.
      * by exists df.
      * eexists. split; [apply lookup_insert_eq|]. split.
        -- by apply apply_updates_aligned.
        -- rewrite apply_updates_index. unfold len.
           by rewrite apply_updates_rows_length.
    + rewrite (schema_update_no_id _ _ _ _ _ Hk Hid) in H. injection H as <-.
      by exists df.
  - rewrite handle_delete_schema in H. destruct (has_column "id" df) eqn:Hid.
    + pose proof (schema_delete_returns _ _ _ _ _ Hk H) as Hdup.
      rewrite (schema_delete_run _ _ _ _ Hk Hid Hdup) in H. simpl in H.
      injection H as <-. simpl.
      eexists. split; [apply lookup_insert_eq|]. split; [|done].
      destruct df as [cols labels rs]. by eapply filter_aligned.
    + rewrite (schema_delete_no_id _ _ _ _ Hk Hid) in H. injection H as <-.
      by exists df.
Qed.

(** ** Frames without an 'id' column *)

Lemma find_filter {A : Type} (f : A → bool) (l : list A) :
  List.find f l = head (List.filter f l).
Proof.
  induction l as [|x l IH]; [done|]. simpl. by destruct (f x).
Qed.

Lemma schema_get_row_find df id :
  has_column "id" df = true →
  duplicated "id" df = false →
  Schema.get_row df (Some id)
  = Ok (mkSeries (columns df)
          <$> List.find (fun r => value_eqb (row_id df r) id) (rows df)).
Proof.
  intros Hid Hdup. unfold Schema.get_row.
  rewrite (getitem_has_column _ _ Hid Hdup). simpl.
  rewrite find_filter. unfold empty, iloc0, select_rows. simpl.
  rewrite bool_index_rows_eq. fold (row_id df).
  apply bool_decide_eq_true in Hid.
  destruct (columns df) as [|c cols] eqn:Hcols; [by apply elem_of_nil in Hid|].
  change (lookup_cell (c :: cols) "id") with (fun r => lookup_cell (c :: cols) "id" r).
  unfold row_id. rewrite Hcols.
  by destruct (List.filter _ (rows df)).
Qed.

Lemma schema_get_row_ok df id :
  has_column "id" df = true → duplicated "id" df = false →
  ∃ r, Schema.get_row df id = Ok r.
Proof.
  intros Hid Hdup. destruct id as [id|]; [|by eexists].
  rewrite (schema_get_row_find _ _ Hid Hdup). by eexists.
Qed.

Lemma schema_get_row_raises df id :
  has_column "id" df = false → Schema.get_row df (Some id) = Raise (KeyError "id").
Proof.
  intros Hid. unfold Schema.get_row. by rewrite (getitem_no_column _ _ Hid).
Qed.


(** The new row of an add that meets no id: it carries the page's first id. *)
Lemma schema_add_first k first nd now s df :
  session_state s !! k = Some df →
  empty df = true ∨ has_column "id" df = false →
  NoDup (columns df) →
  - 2 ^ 53 ≤ first ≤ 2 ^ 53 →
  ∃ df' r0,
    Schema.handle_add k first nd now s
    = Ok (tt, mkSt (<[k := df']> (session_state s)) (alerts s ++ [Success]))
    ∧ rows df' !! 0%nat = Some r0
    ∧ row_id df' r0 = VInt first.
Proof.
  intros Hk Hcase Hnd Hfirst. rewrite (schema_add_run _ _ _ _ _ _ Hk).
  rewrite (new_id_first _ _ Hcase), (bool_decide_eq_true_2 _ Hnd).
  destruct (add_frame (VInt first) nd now df) as (_ & _ & _ & r0 & H0 & Hid0 & _).
  eexists _, r0. split; [done|]. split; [done|].
  unfold row_id. rewrite Hid0. simpl. rewrite float64_small by done.
  by destruct (float_column _ _ _).
Qed.

Lemma first_id_small p : - 2 ^ 53 ≤ first_id p ≤ 2 ^ 53.
Proof. destruct p; simpl; lia. Qed.

(** The update tab ends with the row, with None, or with a [TypeError] of
    the sorting of the ids. *)
Lemma update_tab_cases p df selected :
  (∃ r, update_tab_current_data p df selected = Ok r)
  ∨ update_tab_current_data p df selected = Raise TypeError.
Proof.
  unfold update_tab_current_data.
  destruct (has_column "id" df) eqn:Hid; simpl; [|left; by eexists].
  destruct (negb (empty df)); [|left; by eexists].
  destruct (duplicated "id" df) eqn:Hdup.
  - destruct (getitem_duplicated _ _ Hdup) as [cs ->]. by right.
  - rewrite (getitem_has_column _ _ Hid Hdup). simpl.
    unfold series_sort_values. destruct (same_kind _); simpl; [|by right].
    destruct selected; [|left; by eexists].
    rewrite get_row_schema. left. by apply schema_get_row_ok.
Qed.

(** The lookup of a row raises on a frame read without an 'id' column. *)
Lemma get_row_raises_without_id :
  get_row CyberSecurity frame_without_id (Some (VInt 1)) = Raise (KeyError "id")
  ∧ get_row DataScience frame_without_id (Some (VInt 1)) = Raise (KeyError "id")
  ∧ get_row IT frame_without_id (Some (VInt 1)) = Raise (KeyError "id").
Proof. by vm_compute. Qed.

(** C4, as the code has it. On a stored frame without an 'id' column update
    and delete show the missing-column error and leave the session state as
    it is, and add, when the labels of the frame are distinct, gives the new
    record the page's first id; none of them raises.  The lookup of a row has
    no guard of its own: it raises KeyError on such a frame for every id but
    None, and returns on the frames with one 'id' column.  Its caller, the
    update tab, looks a row up only when the frame has an 'id' column, so
    that the tab never raises KeyError. *)
Theorem missing_id_column_is_guarded (p : page) (s : St) (df : DataFrame) :
  session_state s !! key p = Some df →
  (has_column "id" df = false →
     (NoDup (columns df) → ∀ nd now, ∃ df' r0,
        handle_add p nd now s
          = Ok (tt, mkSt (<[key p := df']> (session_state s)) (alerts s ++ [Success]))
        ∧ rows df' !! 0%nat = Some r0
        ∧ row_id df' r0 = VInt (first_id p))
     ∧ (∀ id data,
        handle_update p id data s
          = Ok (tt, mkSt (session_state s) (alerts s ++ [Error MissingIdColumn])))
     ∧ (∀ id,
        handle_delete p id s
          = Ok (tt, mkSt (session_state s) (alerts s ++ [Error MissingIdColumn])))
     ∧ get_row p df None = Ok None
     ∧ (∀ id, get_row p df (Some id) = Raise (KeyError "id"))
     ∧ (∀ selected, update_tab_current_data p df selected = Ok None))
  ∧ (has_column "id" df = true → duplicated "id" df = false →
     ∀ id, ∃ r, get_row p df id = Ok r)
  ∧ (∀ selected k, update_tab_current_data p df selected ≠ Raise (KeyError k)).
Proof.
  intros Hk. split_and!.
  - intros Hid. split_and!.
    + intros Hnd nd now. rewrite handle_add_schema.
      apply schema_add_first with df; [done|by right|done|apply first_id_small].
    + intros id data. rewrite handle_update_schema. by eapply schema_update_no_id.
    + intros id. rewrite handle_delete_schema. by eapply schema_delete_no_id.
    + by rewrite get_row_schema.
    + intros id. rewrite get_row_schema. by apply schema_get_row_raises.
    + intros selected. unfold update_tab_current_data. by rewrite Hid.
  - intros Hid Hdup id. rewrite get_row_schema. by apply schema_get_row_ok.
  - intros selected k Hraise.
    destruct (update_tab_cases p df selected) as [[r Hr]|Hr]; congruence.
Qed.

(** ** The pages against each other *)

(** What a handler that completes has stored: a state that differs from the
    one it started in at most under its key. *)
Lemma schema_add_other_keys k first nd now s s' df k' :
  session_state s !! k = Some df →
  Schema.handle_add k first nd now s = Ok (tt, s') →
  k' ≠ k → session_state s' !! k' = session_state s !! k'.
Proof.
  intros Hk H Hne.
  destruct (schema_add_returns _ _ _ _ _ _ _ Hk H) as (new & _ & _ & ->). simpl.
  by rewrite lookup_insert_ne.
Qed.

Lemma schema_update_other_keys k id data s s' df k' :
  session_state s !! k = Some df →
  Schema.handle_update k id data s = Ok (tt, s') →
  k' ≠ k → session_state s' !! k' = session_state s !! k'.
Proof.
  intros Hk H Hne. destruct (has_column "id" df) eqn:Hid.
  - rewrite (schema_update_result _ _ _ _ _ _ Hk Hid H).
    destruct (bool_decide _); simpl; [done|]. by rewrite lookup_insert_ne.
  - rewrite (schema_update_no_id _ _ _ _ _ Hk Hid) in H. by injection H as <-.
Qed.

Lemma schema_delete_other_keys k id s s' df k' :
  session_state s !! k = Some df →
  Schema.handle_delete k id s = Ok (tt, s') →
  k' ≠ k → session_state s' !! k' = session_state s !! k'.
Proof.
  intros Hk H Hne. destruct (has_column "id" df) eqn:Hid.
  - pose proof (schema_delete_returns _ _ _ _ _ Hk H) as Hdup.
    rewrite (schema_delete_run _ _ _ _ Hk Hid Hdup) in H. simpl in H.
    injection H as <-. simpl. by rewrite lookup_insert_ne.
  - rewrite (schema_delete_no_id _ _ _ _ Hk Hid) in H. by injection H as <-.
Qed.

(** X9. A handler touches the frame under its page's key only: whichever of
    add, update and delete completes, every other key of the session state
    holds what it held. *)
Lemma handlers_touch_their_key (p : page) (s s' : St) (df : DataFrame) :
  session_state s !! key p = Some df →
  (∃ nd now, handle_add p nd now s = Ok (tt, s'))
  ∨ (∃ id data, handle_update p id data s = Ok (tt, s'))
  ∨ (∃ id, handle_delete p id s = Ok (tt, s')) →
  ∀ k, k ≠ key p → session_state s' !! k = session_state s !! k.
Proof.
  intros Hk H k Hne. destruct H as [(nd & now & H)|[(id & data & H)|(id & H)]].
  - rewrite handle_add_schema in H. by eapply schema_add_other_keys.
  - rewrite handle_update_schema in H. by eapply schema_update_other_keys.
  - rewrite handle_delete_schema in H. by eapply schema_delete_other_keys.
Qed.

(** On an empty store the Cyber Security page numbers the first record 1000
    and the Data Science page 1. *)
Lemma add_differs_between_pages :
  outcome CyberSecurity (handle_add CyberSecurity sample_form 0)
    (sample_state CyberSecurity empty_frame)
  ≠ outcome DataScience (handle_add DataScience sample_form 0)
    (sample_state DataScience empty_frame).
Proof. vm_compute. intros [=]. Qed.

(** C1, as the code has it. Started on the same frame, the three pages agree
    on update, on delete and on the lookup of a row; they agree on add when
    the frame is not empty and has an 'id' column, and the Cyber Security and
    IT pages, which share the first id 1000, agree on add always; a handler
    that completes leaves the other keys of the session state as they are.
    On a frame with distinct labels that is empty or has no 'id' column, add
    gives the new record the page's first id: 1000 on the Cyber Security and
    IT pages, 1 on the Data Science page.  The loaders agree on a file that
    cannot be read for another reason than being absent; for an absent file
    each page has its own sample data, no two pages the same; and on a file
    that is read two loaders agree when both, or neither, lower-case the
    column labels, or the labels are in lower case already. *)
Theorem pages_agree (p q : page) (sp sq : St) (df : DataFrame) :
  session_state sp !! key p = Some df →
  session_state sq !! key q = Some df →
  alerts sp = alerts sq →
  (∀ id data,
     outcome p (handle_update p id data) sp = outcome q (handle_update q id data) sq)
  ∧ (∀ id, outcome p (handle_delete p id) sp = outcome q (handle_delete q id) sq)
  ∧ (∀ id, get_row p df id = get_row q df id)
  ∧ (∀ nd now,
     (empty df = false ∧ has_column "id" df = true) ∨ first_id p = first_id q →
     outcome p (handle_add p nd now) sp = outcome q (handle_add q nd now) sq)
  ∧ (∀ s',
     (∃ nd now, handle_add p nd now sp = Ok (tt, s'))
     ∨ (∃ id data, handle_update p id data sp = Ok (tt, s'))
     ∨ (∃ id, handle_delete p id sp = Ok (tt, s')) →
     ∀ k, k ≠ key p → session_state s' !! k = session_state sp !! k)
  ∧ (empty df = true ∨ has_column "id" df = false →
     NoDup (columns df) →
     ∀ nd now, ∃ df' r0,
       outcome p (handle_add p nd now) sp = Ok (Some df', alerts sp ++ [Success])
       ∧ rows df' !! 0%nat = Some r0
       ∧ row_id df' r0 = VInt (first_id p))
  ∧ (first_id CyberSecurity = 1000 ∧ first_id DataScience = 1 ∧ first_id IT = 1000)
  ∧ (∀ (L : Library), load_csv p CsvOtherError = load_csv q CsvOtherError)
  ∧ (∀ (L : Library), load_csv p CsvFileNotFound = load_csv q CsvFileNotFound → p = q)
  ∧ (∀ (L : Library) d,
     lowercases_columns p = lowercases_columns q
     ∨ map str_lower (columns d) = columns d →
     load_csv p (CsvFrame d) = load_csv q (CsvFrame d)).
Proof.
  intros Hp Hq Hal. split_and!.
  - intros id data. rewrite !handle_update_schema. unfold outcome.
    destruct (has_column "id" df) eqn:Hid.
    + destruct (duplicated "id" df) eqn:Hdup.
      { by rewrite (schema_update_duplicated _ _ _ _ _ Hp Hdup),
          (schema_update_duplicated _ _ _ _ _ Hq Hdup). }
      rewrite (schema_update_run _ _ _ _ _ Hp Hid Hdup),
        (schema_update_run _ _ _ _ _ Hq Hid Hdup). simpl.
      destruct (bool_decide _); simpl; [congruence|].
      destruct (try_updates _ data df); simpl; [|done].
      rewrite !lookup_insert_eq. congruence.
    + rewrite (schema_update_no_id _ _ _ _ _ Hp Hid),
        (schema_update_no_id _ _ _ _ _ Hq Hid). simpl. congruence.
  - intros id. rewrite !handle_delete_schema. unfold outcome.
    destruct (has_column "id" df) eqn:Hid.
    + destruct (duplicated "id" df) eqn:Hdup.
      { by rewrite (schema_delete_duplicated _ _ _ _ Hp Hdup),
          (schema_delete_duplicated _ _ _ _ Hq Hdup). }
      rewrite (schema_delete_run _ _ _ _ Hp Hid Hdup),
        (schema_delete_run _ _ _ _ Hq Hid Hdup).
      simpl. rewrite !lookup_insert_eq. congruence.
    + rewrite (schema_delete_no_id _ _ _ _ Hp Hid),
        (schema_delete_no_id _ _ _ _ Hq Hid). simpl. congruence.
  - intros id. by rewrite !get_row_schema.
  - intros nd now Hcase. rewrite !handle_add_schema. unfold outcome.
    rewrite (schema_add_run _ _ _ _ _ _ Hp), (schema_add_run _ _ _ _ _ _ Hq).
    assert (Hnew : Schema.new_id (first_id p) df = Schema.new_id (first_id q) df).
    { destruct Hcase as [[He Hid]| ->]; [|done].
      unfold Schema.new_id. by rewrite He, Hid. }
    rewrite Hnew. destruct (Schema.new_id (first_id q) df); [|done].
    destruct (bool_decide _); [|done].
    simpl. rewrite !lookup_insert_eq. congruence.
  - intros s' [(nd & now & H)|[(id & data & H)|(id & H)]] k Hne.
    + rewrite handle_add_schema in H. by eapply schema_add_other_keys.
    + rewrite handle_update_schema in H. by eapply schema_update_other_keys.
    + rewrite handle_delete_schema in H. by eapply schema_delete_other_keys.
  - intros Hcase Hnd nd now. rewrite handle_add_schema.
    destruct (schema_add_first (key p) (first_id p) nd now sp df Hp Hcase Hnd
                (first_id_small p)) as (df' & r0 & Hrun & Hr0 & Hid).
    exists df', r0. unfold outcome. rewrite Hrun. simpl.
    by rewrite lookup_insert_eq.
  - done.
  - done.
  - done.
  - intros L. by destruct p, q.
  - intros L. destruct p, q; try done; intros Heq; exfalso;
      apply (f_equal (fun d => rows d !! 0%nat)) in Heq; vm_compute in Heq;
      congruence.
  - intros L d [Hsame|Hlow].
    + by destruct p, q.
    + assert (Hd : set_columns (columns d) d = d) by by destruct d.
      destruct p, q; try done; simpl;
        unfold Incidents.load_initial_incidents, Datasets.load_initial_datasets,
          Tickets.get_tickets_from_csv; by rewrite Hlow, Hd.
Qed.

(** ** The chat-completion wrapper *)

Section ChatProperties.
Import Chat ChatSpec.

Variable net : network.
Variable data : payload.

Local Abbreviation post := (Post OPENAI_API_URL ("Bearer " +:+ API_KEY) data).

(** One attempt, by what the request meets. *)
Lemma try_once_unauthorized attempt response body :
  net attempt data = Response 401 body →
  try_once net data attempt response = ([post], Stop (Return authentication_message)).
Proof. intros H. unfold try_once. by rewrite H. Qed.

Lemma try_once_crash attempt response :
  net attempt data = PostCrash →
  try_once net data attempt response
  = ([post; StError], Stop (Return internal_error_message)).
Proof. intros H. unfold try_once. by rewrite H. Qed.

Lemma try_once_http_error attempt response :
  http_error (net attempt data) = true →
  ∃ status_code,
    try_once net data attempt response
    = if (attempt <? MAX_RETRIES - 1)%nat
      then ([post; StError; Sleep (2 ^ Z.of_nat attempt)], Next (Some status_code))
      else ([post; StError], Stop (Return failure_message)).
Proof.
  unfold http_error, try_once. destruct (net attempt data) as [| |status body]; try done.
  intros [Hr Hs%negb_true_iff]%andb_true_iff. exists status.
  rewrite Hr. unfold on_request_exception. rewrite Hs.
  by destruct (attempt <? MAX_RETRIES - 1)%nat.
Qed.



Lemma try_once_events attempt response :
  ∃ evs, (try_once net data attempt response).1 = post :: evs
    ∧ Forall (fun e => is_post e = false) evs.
Proof.
  unfold try_once, on_request_exception.
  destruct (net attempt data) as [| |status body];
    [destruct response as [status|]| |destruct (raise_for_status status);
       [|destruct body as [result|]; [destruct (generated_text result)|]]];
    try destruct (status =? 401);
    try destruct (attempt <? MAX_RETRIES - 1)%nat;
    (eexists; split; [reflexivity|repeat constructor]).
Qed.

Lemma try_once_one_post attempt response :
  posts (try_once net data attempt response).1 = 1%nat.
Proof.
  destruct (try_once_events attempt response) as (evs & -> & Hevs).
  unfold posts. simpl. f_equal.
  induction Hevs as [|e evs He _ IH]; [done|]. simpl. by rewrite He.
Qed.

Lemma try_once_posts attempt response e :
  e ∈ (try_once net data attempt response).1 → is_post e = true → e = post.
Proof.
  destruct (try_once_events attempt response) as (evs & -> & Hevs).
  intros [->|Hin]%elem_of_cons; [done|].
  rewrite Forall_forall in Hevs. rewrite (Hevs e Hin). done.
Qed.

Lemma try_once_starts_with_post attempt response :
  ∃ evs, (try_once net data attempt response).1 = post :: evs.
Proof. destruct (try_once_events attempt response) as (evs & ? & _). eauto. Qed.

(** The loop. *)
Lemma posts_app evs evs' : posts (evs ++ evs') = (posts evs + posts evs')%nat.
Proof. unfold posts. by rewrite List.filter_app, length_app. Qed.

Lemma retry_loop_posts_le attempts response :
  (posts (retry_loop net data attempts response).1 ≤ length attempts)%nat.
Proof.
  revert response. induction attempts as [|a attempts IH]; intros response.
  - simpl. unfold posts. simpl. lia.
  - simpl. pose proof (try_once_one_post a response) as H1.
    destruct (try_once net data a response) as [evs [c|response']]; simpl in *.
    + lia.
    + specialize (IH response').
      destruct (retry_loop net data attempts response') as [evs' c]. simpl in *.
      rewrite posts_app. lia.
Qed.

Lemma retry_loop_post_events attempts response e :
  e ∈ (retry_loop net data attempts response).1 → is_post e = true → e = post.
Proof.
  revert response. induction attempts as [|a attempts IH]; intros response.
  - simpl. by intros ?%elem_of_nil.
  - simpl. pose proof (try_once_posts a response e) as H1.
    destruct (try_once net data a response) as [evs [c|response']]; simpl in *.
    + done.
    + specialize (IH response').
      destruct (retry_loop net data attempts response') as [evs' c]. simpl in *.
      rewrite elem_of_app. intros [?|?]; auto.
Qed.


Lemma try_once_retried attempt response :
  retried attempt (net attempt data) = true →
  answered attempt response →
  ∃ status_code,
    (status_code =? 401) = false
    ∧ try_once net data attempt response
      = if (attempt <? MAX_RETRIES - 1)%nat
        then ([post; StError; Sleep (2 ^ Z.of_nat attempt)], Next (Some status_code))
        else ([post; StError], Stop (Return failure_message)).
Proof.
  unfold retried, try_once, on_request_exception. intros Hr Ha.
  destruct (net attempt data) as [| |status body]; [|done|].
  - destruct Ha as [->|(st & -> & Hst)]; [done|].
    exists st. rewrite Hst. split; [done|].
    by destruct (attempt <? MAX_RETRIES - 1)%nat.
  - apply andb_true_iff in Hr as [Hs%negb_true_iff Hr].
    exists status. split; [done|].
    destruct (raise_for_status status); simpl in Hr.
    + rewrite Hs. by destruct (attempt <? MAX_RETRIES - 1)%nat.
    + destruct body as [result|]; [done|].
      rewrite Hs. by destruct (attempt <? MAX_RETRIES - 1)%nat.
Qed.

Lemma retry_loop_retries k : ∀ a n response,
  (a + k ≤ MAX_RETRIES - 1)%nat →
  answered a response →
  (∀ i, (i < k)%nat → retried (a + i) (net (a + i)%nat data) = true) →
  ∃ response',
    answered (a + k) response'
    ∧ retry_loop net data (seq a (k + n)) response
      = (backoff data a k ++ (retry_loop net data (seq (a + k) n) response').1,
         (retry_loop net data (seq (a + k) n) response').2).
Proof.
  induction k as [|k IH]; intros a n response Ha Hans Herr.
  - exists response. rewrite Nat.add_0_r. split; [done|]. simpl.
    by destruct (retry_loop net data (seq a n) response).
  - simpl. destruct (try_once_retried a response) as (status & Hstatus & Ht).
    { rewrite <- (Nat.add_0_r a). apply Herr. lia. }
    { done. }
    rewrite Ht.
    assert ((a <? MAX_RETRIES - 1)%nat = true) as -> by (apply Nat.ltb_lt; lia).
    destruct (IH (S a) n (Some status)) as (response' & Hans' & Hloop).
    { lia. }
    { right. by exists status. }
    { intros i Hi. replace (S a + i)%nat with (a + S i)%nat by lia. apply Herr. lia. }
    exists response'. replace (a + S k)%nat with (S a + k)%nat by lia.
    split; [done|]. by rewrite Hloop.
Qed.

End ChatProperties.

Section ChatClaims.
Import Chat ChatSpec.


Lemma build_contents_history prompt history :
  build_contents prompt history = history ++ [mkMsg "user" prompt].
Proof.
  unfold build_contents. f_equal.
  assert (H : ∀ acc, fold_left
    (fun contents msg => contents ++ [mkMsg (role msg) (content msg)]) history acc
    = acc ++ history).
  { induction history as [|[r c] history IH]; intros acc; simpl.
    - by rewrite app_nil_r.
    - rewrite IH. by rewrite <- app_assoc. }
  apply H.
Qed.

(** After [k] attempts that were retried, the call goes on with attempt [k]
    and ends as that attempt ends. *)
Lemma run_after_retries net prompt history k :
  let data := payload_data prompt history in
  (k < MAX_RETRIES)%nat →
  (∀ i, (i < k)%nat → retried i (net i data) = true) →
  ∃ response,
    answered k response
    ∧ (∃ evs, (get_ai_response net prompt history).1
              = backoff data 0 k
                ++ Post OPENAI_API_URL ("Bearer " +:+ API_KEY) data :: evs)
    ∧ ∀ evs c,
        try_once net data k response = (evs, Stop c) →
        get_ai_response net prompt history = (backoff data 0 k ++ evs, c).
Proof.
  intros data Hk Herr. unfold get_ai_response. fold data.
  destruct (retry_loop_retries net data k 0 (MAX_RETRIES - k) None)
    as (response & Hans & Hloop);
    [unfold MAX_RETRIES in *; lia|by left|done|].
  exists response. split; [done|].
  replace (k + (MAX_RETRIES - k))%nat with MAX_RETRIES in Hloop by lia.
  rewrite Hloop. simpl.
  destruct (MAX_RETRIES - k)%nat as [|n] eqn:Hn; [lia|].
  simpl. split.
  - destruct (try_once_starts_with_post net data k response) as [evs Hevs].
    destruct (try_once net data k response) as [evs0 [c|response']];
      simpl in Hevs; subst evs0; simpl.
    + by eexists.
    + destruct (retry_loop net data (seq (S k) n) response'). simpl. by eexists.
  - intros evs c Ht. by rewrite Ht.
Qed.

(** With every request answered 401 the wrapper stops at the first attempt:
    no wait and no second attempt follow it. *)
Lemma no_backoff_when_unauthorized :
  ¬ retries_with_backoff unauthorized "hello" [].
Proof.
  intros (_ & H & _). destruct (H 0%nat) as [Hin _].
  - unfold MAX_RETRIES. lia.
  - done.
  - vm_compute in Hin. apply elem_of_cons in Hin as [?|Hin]; [done|].
    by apply elem_of_nil in Hin.
Qed.

(** With no request answered the handler reads [response] before anything
    was assigned to it. *)
Lemma unbound_response_when_unreachable :
  (get_ai_response unreachable "hello" []).2 = Raised (UnboundLocalError "response").
Proof. reflexivity. Qed.

(** C5, as the code has it. The wrapper sends at most [MAX_RETRIES] requests.
    After every attempt that is answered with an error status other than 401
    or with a body that is not JSON, or that, after an attempt that was
    answered, meets no response, it waits 2^attempt seconds and sends the
    next request, except after the third such attempt, when it returns the
    failure message.  An attempt answered 401 ends the call at once with the
    authentication message, and a request that raises another exception than
    a request exception ends it with the internal-error message, without a
    wait. *)
Theorem retries_error_statuses_with_backoff
    (net : network) (prompt : string) (history : list message) :
  let data := payload_data prompt history in
  let run := get_ai_response net prompt history in
  let post := Post OPENAI_API_URL ("Bearer " +:+ API_KEY) data in
  (posts run.1 ≤ MAX_RETRIES)%nat
  ∧ ∀ k, (k < MAX_RETRIES)%nat →
      (∀ i, (i < k)%nat → retried i (net i data) = true) →
      (∃ evs, run.1 = backoff data 0 k ++ post :: evs)
      ∧ (retried k (net k data) = true → k = (MAX_RETRIES - 1)%nat →
         run = (backoff data 0 k ++ [post; StError], Return failure_message))
      ∧ ((∃ body, net k data = Response 401 body) →
         run = (backoff data 0 k ++ [post], Return authentication_message))
      ∧ (net k data = PostCrash →
         run = (backoff data 0 k ++ [post; StError], Return internal_error_message)).
Proof.
  intros data run post. subst run post. split.
  - apply (retry_loop_posts_le net data (seq 0 MAX_RETRIES) None).
  - subst data. intros k Hk Herr.
    destruct (run_after_retries net prompt history k Hk Herr)
      as (response & Hans & Hnext & Hrun).
    split_and!.
    + done.
    + intros Hlast ->. apply Hrun.
      destruct (try_once_retried net _ (MAX_RETRIES - 1) response Hlast Hans)
        as (status & _ & Ht). by rewrite Ht.
    + intros [body H401]. apply Hrun. by eapply try_once_unauthorized.
    + intros Hcrash. apply Hrun. by apply try_once_crash.
Qed.



End ChatClaims.

(** ** The ticket generator *)

Section GeneratorProperties.
Import Generator.

Variable stream : nat → nat.

Lemma choice_run (l : list string) pos :
  choice l stream pos = (nth (stream pos mod length l)%nat l EmptyString, S pos).
Proof. done. Qed.

Lemma choice_elem (l : list string) pos :
  l ≠ [] → (choice l stream pos).1 ∈ l.
Proof.
  intros Hl. rewrite choice_run. simpl. apply list_elem_of_In, nth_In.
  apply Nat.mod_upper_bound. by destruct l.
Qed.

Lemma randint_run a b pos :
  randint a b stream pos
  = (a + Z.of_nat (stream pos mod Z.to_nat (b - a + 1))%nat, S pos).
Proof. done. Qed.

Lemma randint_bounds a b pos :
  a ≤ b → a ≤ a + Z.of_nat (stream pos mod Z.to_nat (b - a + 1))%nat ≤ b.
Proof.
  intros Hab.
  pose proof (Nat.mod_upper_bound (stream pos) (Z.to_nat (b - a + 1))). lia.
Qed.

(** Every ticket type has descriptions and data fields to draw from. *)
Lemma tables_have_entries :
  Forall (fun ticket_type =>
            descriptions ticket_type ≠ [] ∧ data_fields ticket_type ≠ [])
    ticket_types.
Proof. repeat constructor; done. Qed.

Lemma ticket_row_run ticket_id pos :
  ∃ row, ticket_row ticket_id stream pos = (row, (pos + 12)%nat)
    ∧ ticket_row_ok ticket_id row.
Proof.
  unfold ticket_row, mbind, Rand_bind, mret, Rand_ret.
  rewrite !choice_run, !randint_run.
  replace (pos + 12)%nat
    with (S (S (S (S (S (S (S (S (S (S (S (S pos)))))))))))) by lia.
  eexists. split; [reflexivity|].
  eexists _, _, _, _, _, _, _. split; [reflexivity|].
  split_and!.
  - apply (choice_elem severity_levels (S pos)). done.
  - apply (choice_elem status_options (S (S pos))). done.
  - pose proof (randint_bounds 0 90 (S (S (S (S (S (S (S (S (S pos)))))))))) as H1.
    pose proof (randint_bounds 0 23 (S (S (S (S (S (S (S (S (S (S pos))))))))))) as H2.
    pose proof (randint_bounds 0 59 (S (S (S (S (S (S (S (S (S (S (S pos)))))))))))) as H3.
    unfold start_date, Datetime.timedelta. lia.
  - pose proof (randint_bounds 0 90 (S (S (S (S (S (S (S (S (S pos)))))))))) as H1.
    pose proof (randint_bounds 0 23 (S (S (S (S (S (S (S (S (S (S pos))))))))))) as H2.
    pose proof (randint_bounds 0 59 (S (S (S (S (S (S (S (S (S (S (S pos)))))))))))) as H3.
    unfold start_date, Datetime.timedelta. lia.
Qed.

Lemma write_rows_run ids : ∀ pos,
  ∃ data_rows,
    write_rows ids stream pos = (data_rows, (pos + 12 * length ids)%nat)
    ∧ Forall2 ticket_row_ok ids data_rows.
Proof.
  induction ids as [|ticket_id ids IH]; intros pos.
  - exists []. split; [|constructor]. simpl. unfold mret, Rand_ret. f_equal. lia.

  - destruct (ticket_row_run ticket_id pos) as (row & Hrow & Hok).
    destruct (IH (pos + 12)%nat) as (rest & Hrest & Hoks).
    exists (row :: rest). split; [|by constructor].
    simpl. unfold mbind, Rand_bind, mret, Rand_ret. rewrite Hrow, Hrest.
    f_equal. lia.
Qed.

End GeneratorProperties.

(** C10. Whatever the random stream, the generator writes the header row and
    then 1000 data rows; the n-th data row has the id n, a severity among
    'Low', 'Medium', 'High', a status among 'Open', 'In Progress', 'Closed',
    'Resolved', and a creation time from 2024-01-01 00:00:00 to 90 days, 23
    hours and 59 minutes later, both included. *)
Theorem generator_writes_1000_tickets (stream : nat → nat) :
  ∃ data_rows : list (list Generator.field),
    Generator.generate_it_tickets_csv stream
    = (Generator.FStr <$> ["id"; "data"; "tickets_type"; "severity"; "status";
                           "description"; "reported_by"; "created_at"])
      :: data_rows
    ∧ length data_rows = 1000%nat
    ∧ (∀ n row, data_rows !! n = Some row → ticket_row_ok (Z.of_nat n + 1) row)
    ∧ Datetime.strftime (Datetime.datetime 2024 1 1) = "2024-01-01 00:00:00"
    ∧ Datetime.strftime (Datetime.datetime 2024 1 1 + Datetime.timedelta 90 23 59)
      = "2024-03-31 23:59:00".
Proof.
  destruct (write_rows_run stream (seqZ 1 1000) 0) as (data_rows & Hrun & Hok).
  exists data_rows. unfold Generator.generate_it_tickets_csv. rewrite Hrun.
  split; [done|].
  pose proof (Forall2_length _ _ _ Hok) as Hlen. rewrite length_seqZ in Hlen.
  split_and!.
  - lia.
  - intros n row Hn.
    destruct (Forall2_lookup_r _ _ _ _ _ Hok Hn) as (ticket_id & Hid & Hrow).
    apply lookup_seqZ in Hid as [-> _].
    by replace (Z.of_nat n + 1) with (1 + Z.of_nat n) by lia.
  - by vm_compute.
  - by vm_compute.
Qed.

(** ** The statements on the sample data *)

Lemma sample_frame_stored : stored sample_frame.
Proof. split; [repeat constructor|reflexivity]. Defined.

Lemma pages_agree_witness :
  session_state (sample_state CyberSecurity sample_frame) !! key CyberSecurity
    = Some sample_frame
  ∧ session_state (sample_state IT sample_frame) !! key IT = Some sample_frame
  ∧ outcome CyberSecurity (handle_delete CyberSecurity (VInt 102))
      (sample_state CyberSecurity sample_frame)
    = outcome IT (handle_delete IT (VInt 102)) (sample_state IT sample_frame).
Proof.
  split_and!; [reflexivity..|].
  destruct (pages_agree CyberSecurity IT
              (sample_state CyberSecurity sample_frame)
              (sample_state IT sample_frame) sample_frame
              eq_refl eq_refl eq_refl) as (_ & Hdelete & _).
  apply Hdelete.
Defined.

Lemma update_overwrites_the_matching_rows_witness :
  session_state (sample_state DataScience sample_frame) !! key DataScience
    = Some sample_frame
  ∧ stored sample_frame
  ∧ duplicated "id" sample_frame = false
  ∧ fits sample_frame [("status", VStr "Closed")] = true
  ∧ ∃ (df' : DataFrame) (a : alert),
      handle_update DataScience (VInt 102) [("status", VStr "Closed")]
        (sample_state DataScience sample_frame)
      = Ok (tt, mkSt (<[key DataScience := df']> {[ key DataScience := sample_frame ]})
                  [a])
      ∧ (a = Success ∨ ∃ why, a = Error why).
Proof.
  split_and!; [reflexivity|apply sample_frame_stored|reflexivity..|].
  destruct (update_overwrites_the_matching_rows DataScience
              (sample_state DataScience sample_frame) sample_frame (VInt 102)
              [("status", VStr "Closed")] eq_refl sample_frame_stored)
    as (_ & Hcompletes).
  destruct (Hcompletes eq_refl eq_refl) as (df' & a & Hrun & _ & _ & Ha & _).
  exists df', a. split; [exact Hrun|exact Ha].
Defined.

Lemma delete_keeps_the_other_rows_witness :
  session_state (sample_state IT sample_frame) !! key IT = Some sample_frame
  ∧ has_column "id" sample_frame = true
  ∧ duplicated "id" sample_frame = false
  ∧ ∃ (df' : DataFrame),
      rows df' = List.filter (fun r => negb (value_eqb (row_id sample_frame r) (VInt 102)))
                   (rows sample_frame)
      ∧ index df' = seq 0 (len df').
Proof.
  split_and!; [reflexivity..|].
  destruct (delete_keeps_the_other_rows IT (sample_state IT sample_frame)
              sample_frame (VInt 102) eq_refl eq_refl) as (_ & Hcompletes).
  destruct (Hcompletes eq_refl) as (df' & a & _ & _ & Hrows & Hindex & _).
  exists df'. split; [exact Hrows|exact Hindex].
Defined.

Lemma missing_id_column_is_guarded_witness :
  session_state (sample_state CyberSecurity frame_without_id) !! key CyberSecurity
    = Some frame_without_id
  ∧ has_column "id" frame_without_id = false
  ∧ handle_delete CyberSecurity (VInt 1) (sample_state CyberSecurity frame_without_id)
    = Ok (tt, mkSt {[ key CyberSecurity := frame_without_id ]} [Error MissingIdColumn]).
Proof.
  split_and!; [reflexivity..|].
  destruct (missing_id_column_is_guarded CyberSecurity
              (sample_state CyberSecurity frame_without_id) frame_without_id eq_refl)
    as (Hguard & _).
  destruct (Hguard eq_refl) as (_ & _ & Hdelete & _).
  apply Hdelete.
Defined.

Lemma retries_error_statuses_with_backoff_witness :
  (∀ i, (i < 2)%nat →
     ChatSpec.retried i (ChatSpec.unavailable i (Chat.payload_data "hello" [])) = true)
  ∧ Chat.get_ai_response ChatSpec.unavailable "hello" []
    = (let post := Chat.Post Chat.OPENAI_API_URL "Bearer "
                     (Chat.payload_data "hello" []) in
       [post; Chat.StError; Chat.Sleep 1; post; Chat.StError; Chat.Sleep 2;
        post; Chat.StError],
       Chat.Return Chat.failure_message).
Proof.
  split; [reflexivity|].
  destruct (retries_error_statuses_with_backoff ChatSpec.unavailable "hello" [])
    as (_ & Hruns).
  destruct (Hruns 2%nat) as (_ & Hlast & _).
  - unfold Chat.MAX_RETRIES. lia.
  - reflexivity.
  - apply Hlast; reflexivity.
Defined.

Lemma dashboard_counts_are_correct_witness :
  empty sample_frame = false
  ∧ duplicated "status" sample_frame = false
  ∧ duplicated "severity" sample_frame = false
  ∧ display_dashboard IT sample_frame = Ok (Metrics 3 2 1).
Proof.
  split_and!; [reflexivity..|].
  destruct (dashboard_counts_are_correct IT sample_frame) as (_ & Hshow & _).
  rewrite (Hshow eq_refl eq_refl eq_refl). reflexivity.
Defined.


Lemma ids_stay_distinct_witness :
  session_state (sample_state CyberSecurity sample_frame) !! key CyberSecurity
    = Some sample_frame
  ∧ stored sample_frame
  ∧ empty sample_frame = false
  ∧ int_ids sample_frame = Some [101; 102; 103]
  ∧ NoDup [101; 102; 103]
  ∧ NoDup (columns sample_frame)
  ∧ Forall small [101; 102; 103]
  ∧ ∃ (df' : DataFrame) (new : Z),
      handle_add CyberSecurity sample_form 0 (sample_state CyberSecurity sample_frame)
      = Ok (tt, mkSt (<[key CyberSecurity := df']> {[ key CyberSecurity := sample_frame ]})
                  [Success])
      ∧ int_ids df' = Some [new; 101; 102; 103]
      ∧ NoDup [new; 101; 102; 103].
Proof.
  assert (Hnd : NoDup [101; 102; 103]) by compute_done.
  assert (Hcols : NoDup (columns sample_frame)) by compute_done.
  assert (Hsmall : Forall small [101; 102; 103])
    by (repeat constructor; unfold small; lia).
  split_and!; [reflexivity|apply sample_frame_stored|reflexivity..|exact Hnd
              |exact Hcols|exact Hsmall|].
  destruct (ids_stay_distinct CyberSecurity (sample_state CyberSecurity sample_frame)
              sample_frame [101; 102; 103] eq_refl sample_frame_stored eq_refl
              eq_refl Hnd) as (Hadd & _).
  destruct (Hadd Hcols Hsmall sample_form 0)
    as (df' & new & Hrun & Hids & _ & _ & Hnew).
  exists df', new. split_and!; [exact Hrun|exact Hids|exact Hnew].
Defined.

Lemma add_changes_no_existing_row_witness :
  session_state (sample_state DataScience sample_frame) !! key DataScience
    = Some sample_frame
  ∧ NoDup (columns sample_frame)
  ∧ Forall (fun r => is_numeric (row_id sample_frame r) = true) (rows sample_frame)
  ∧ ∃ s' df' r',
      handle_add DataScience sample_form 0 (sample_state DataScience sample_frame)
        = Ok (tt, s')
      ∧ session_state s' !! key DataScience = Some df'
      ∧ rows df' !! 2%nat = Some r'
      ∧ lookup_cell (columns df') "title" r' = VStr "Server Breach".
Proof.
  assert (Hcols : NoDup (columns sample_frame)) by compute_done.
  assert (Hnum : Forall (fun r => is_numeric (row_id sample_frame r) = true)
                   (rows sample_frame)) by (repeat constructor).
  split_and!; [reflexivity|exact Hcols|exact Hnum|].
  destruct (add_changes_no_existing_row DataScience
              (sample_state DataScience sample_frame) sample_frame sample_form 0
              eq_refl) as (Hrows & Hreturns & _).
  destruct (proj2 Hreturns (conj Hcols (or_intror (or_intror Hnum)))) as [s' Hrun].
  destruct (Hrows s' Hrun) as (df' & r0 & Hs' & _ & _ & Hold & _).
  destruct (Hold 1%nat [VInt 102; VStr "Server Breach"; VStr "Critical";
                        VStr "In Progress"] eq_refl) as (r' & Hr' & Hcells).
  exists s', df', r'. split_and!; [exact Hrun| |exact Hr'|].
  - rewrite Hs'. apply lookup_insert_eq.
  - rewrite Hcells. reflexivity.
Defined.

Lemma generator_writes_1000_tickets_witness :
  ∃ row, Generator.generate_it_tickets_csv sample_stream !! 1%nat = Some row
    ∧ ticket_row_ok 1 row.
Proof.
  destruct (generator_writes_1000_tickets sample_stream)
    as (data_rows & Hfile & Hlen & Hrows & _).
  destruct (lookup_lt_is_Some_2 data_rows 0) as [row Hrow].
  - rewrite Hlen. lia.
  - exists row. rewrite Hfile. split; [exact Hrow|].
    exact (Hrows 0%nat row Hrow).
Defined.

(** ** Runs on the sample data *)

Example delete_sample :
  outcome IT (handle_delete IT (VInt 102)) (sample_state IT sample_frame)
  = Ok (Some (mkDF ["id"; "title"; "severity"; "status"] [0; 1]%nat
                [[VInt 101; VStr "Phishing Campaign"; VStr "High"; VStr "Open"];
                 [VInt 103; VStr "DDoS Attack"; VStr "Medium"; VStr "Open"]]),
        [Success]).
Proof. by vm_compute. Qed.

Example delete_unknown_id :
  outcome IT (handle_delete IT (VInt 7)) (sample_state IT sample_frame)
  = Ok (Some sample_frame, [Error NotFound]).
Proof. by vm_compute. Qed.

Example update_sample :
  outcome IT
    (handle_update IT (VInt 102) [("status", VStr "Closed"); ("owner", VStr "ann")])
    (sample_state IT sample_frame)
  = Ok (Some (mkDF ["id"; "title"; "severity"; "status"; "owner"] [0; 1; 2]%nat
                [[VInt 101; VStr "Phishing Campaign"; VStr "High"; VStr "Open"; VNaN];
                 [VInt 102; VStr "Server Breach"; VStr "Critical"; VStr "Closed";
                  VStr "ann"];
                 [VInt 103; VStr "DDoS Attack"; VStr "Medium"; VStr "Open"; VNaN]]),
        [Success]).
Proof. by vm_compute. Qed.

Example add_sample :
  outcome IT (handle_add IT sample_form 1700000000) (sample_state IT sample_frame)
  = Ok (Some (mkDF ["id"; "title"; "severity"; "status"; "timestamp"] [0; 1; 2; 3]%nat
                [[VInt 104; VStr "Lost badge"; VStr "Low"; VStr "Open";
                  VTime 1700000000];
                 [VInt 101; VStr "Phishing Campaign"; VStr "High"; VStr "Open"; VNaN];
                 [VInt 102; VStr "Server Breach"; VStr "Critical"; VStr "In Progress";
                  VNaN];
                 [VInt 103; VStr "DDoS Attack"; VStr "Medium"; VStr "Open"; VNaN]]),
        [Success]).
Proof. by vm_compute. Qed.

(** The ids of the update tab's select box. *)
Example sorted_ids :
  (getitem sample_frame "id" ≫= sort_values) = Ok [VInt 101; VInt 102; VInt 103].
Proof. by vm_compute. Qed.

(** A missing value written into a column of integers makes it a float64
    column. *)
Example missing_into_integers :
  loc_set [0%nat] "count" VNaN
    (mkDF ["count"] [0; 1]%nat [[VInt 1]; [VInt (2 ^ 53 + 1)]])
  = Ok (mkDF ["count"] [0; 1]%nat [[VNaN]; [VInt (2 ^ 53)]]).
Proof. by vm_compute. Qed.

Example get_row_sample :
  get_row DataScience sample_frame (Some (VInt 103))
  = Ok (Some (mkSeries ["id"; "title"; "severity"; "status"]
                [VInt 103; VStr "DDoS Attack"; VStr "Medium"; VStr "Open"])).
Proof. by vm_compute. Qed.

Example first_ticket_of_sample_stream :
  (Generator.ticket_row 1 sample_stream 0%nat).1
  = [Generator.FInt 1; Generator.FStr "Delivery reports"; Generator.FStr "email";
     Generator.FStr "Medium"; Generator.FStr "In Progress";
     Generator.FStr "Email rules not executing automatically as configured";
     Generator.FStr "michelle.williams.operations@business.net";
     Generator.FStr "2024-03-07 01:20:00"].
Proof. by vm_compute. Qed.

Example mock_timestamp :
  Datetime.strftime (Datetime.datetime 2025 11 20) = "2025-11-20 00:00:00".
Proof. by vm_compute. Qed.

(** * Further properties *)

(** ** Looking a row up *)



(** ** Add, then look up *)

Lemma value_eqb_refl v : v ≠ VNaN → value_eqb v v = true.
Proof.
  destruct v; simpl; intros H; try done.
  - apply Z.eqb_refl.
  - apply String.eqb_refl.
  - apply Z.eqb_refl.
Qed.

(** X2. The record add stores can be looked up at once: when add completes,
    the first row of the stored frame carries the form's title and severity
    and the status 'Open', and the lookup of its id returns that row, unless
    the id is missing (NaN, as [max() + 1] gives on a frame whose ids are all
    missing). *)
Theorem add_then_get_row
    (p : page) (s s' : St) (df : DataFrame) (nd : new_data) (now : Z) :
  session_state s !! key p = Some df →
  handle_add p nd now s = Ok (tt, s') →
  ∃ (df' : DataFrame) (r0 : list value),
    session_state s' !! key p = Some df'
    ∧ rows df' !! 0%nat = Some r0
    ∧ lookup_cell (columns df') "title" r0 = VStr (title nd)
    ∧ lookup_cell (columns df') "severity" r0 = VStr (severity nd)
    ∧ lookup_cell (columns df') "status" r0 = VStr "Open"
    ∧ (row_id df' r0 ≠ VNaN →
       get_row p df' (Some (row_id df' r0)) = Ok (Some (mkSeries (columns df') r0))).
Proof.
  intros Hk Hadd. rewrite handle_add_schema in Hadd.
  destruct (schema_add_returns _ _ _ _ _ _ _ Hk Hadd) as (id & Hid & Hnd & ->).
  simpl. set (df' := union_concat (Schema.new_row id nd now) df).
  destruct (add_frame id nd now df) as (_ & _ & _ & r0 & H0 & _ & Ht & Hs & Ho).
  fold df' in H0, Ht, Hs, Ho.
  exists df', r0.
  split; [apply lookup_insert_eq|]. split; [done|]. split; [done|].
  split; [done|]. split; [done|].
  intros Hnan.
  rewrite get_row_schema, schema_get_row_find;
    [|apply concat_has_id|by apply NoDup_not_duplicated, concat_NoDup].
  destruct (rows df') as [|r rs]; [done|]. injection H0 as ->.
  cbn [List.find]. by rewrite value_eqb_refl.
Qed.

Lemma add_then_get_row_witness :
  session_state (sample_state IT sample_frame) !! key IT = Some sample_frame
  ∧ ∃ s' df' r0,
      handle_add IT sample_form 0 (sample_state IT sample_frame) = Ok (tt, s')
      ∧ session_state s' !! key IT = Some df'
      ∧ rows df' !! 0%nat = Some r0
      ∧ lookup_cell (columns df') "status" r0 = VStr "Open".
Proof.
  split; [reflexivity|].
  destruct (handle_add IT sample_form 0 (sample_state IT sample_frame))
    as [[[] s']|e] eqn:Hrun; [|by vm_compute in Hrun].
  destruct (add_then_get_row IT (sample_state IT sample_frame) s' sample_frame
              sample_form 0 eq_refl Hrun)
    as (df' & r0 & Hdf' & Hr0 & _ & _ & Hstatus & _).
  exists s', df', r0. split_and!; [reflexivity|exact Hdf'|exact Hr0|exact Hstatus].
Defined.

(** ** Delete, then look up or delete again *)

Lemma filter_twice {A : Type} (f : A → bool) (l : list A) :
  List.filter f (List.filter f l) = List.filter f l.
Proof.
  induction l as [|x l IH]; [done|]. simpl.
  destruct (f x) eqn:Hx; simpl; by rewrite ?Hx, IH.
Qed.

Lemma find_in_filter_neg {A : Type} (f : A → bool) (l : list A) :
  List.find f (List.filter (fun x => negb (f x)) l) = None.
Proof.
  induction l as [|x l IH]; [done|]. simpl.
  destruct (f x) eqn:Hx; simpl; by rewrite ?Hx, IH.
Qed.

(** X3. After a delete the id is gone and a second delete changes nothing:
    on a frame with an 'id' column, once delete has run the lookup of the id
    returns None, and deleting the id again shows the not-found error and
    leaves the session state as the first delete left it. *)
Theorem delete_then_get_row_and_delete_again
    (p : page) (s s1 : St) (df : DataFrame) (id : value) :
  session_state s !! key p = Some df →
  has_column "id" df = true →
  handle_delete p id s = Ok (tt, s1) →
  ∃ df1 : DataFrame,
    session_state s1 !! key p = Some df1
    ∧ get_row p df1 (Some id) = Ok None
    ∧ handle_delete p id s1
      = Ok (tt, mkSt (session_state s1) (alerts s1 ++ [Error NotFound])).
Proof.
  intros Hk Hid Hdel. rewrite handle_delete_schema in Hdel.
  pose proof (schema_delete_returns _ _ _ _ _ Hk Hdel) as Hdup.
  rewrite (schema_delete_run _ _ _ _ Hk Hid Hdup) in Hdel.
  injection Hdel as <-. simpl.
  set (f := fun r => value_neb (row_id df r) id).
  set (df1 := mkDF (columns df) (seq 0 (length (List.filter f (rows df))))
                (List.filter f (rows df))).
  assert (Hid1 : has_column "id" df1 = true) by done.
  assert (Hdup1 : duplicated "id" df1 = false) by done.
  exists df1. split; [apply lookup_insert_eq|]. split.
  - rewrite get_row_schema, (schema_get_row_find _ _ Hid1 Hdup1). simpl.
    change (fun r => value_eqb (row_id df1 r) id)
      with (fun r => value_eqb (row_id df r) id).
    unfold f, value_neb. by rewrite find_in_filter_neg.
  - rewrite handle_delete_schema.
    rewrite (schema_delete_run (key p) _ df1 id);
      [|apply lookup_insert_eq|done|done].
    simpl. change (fun r => value_neb (row_id df1 r) id) with f.
    rewrite filter_twice, insert_insert_eq, Nat.ltb_irrefl. done.
Qed.

Lemma delete_then_get_row_and_delete_again_witness :
  session_state (sample_state IT sample_frame) !! key IT = Some sample_frame
  ∧ has_column "id" sample_frame = true
  ∧ ∃ s1 df1,
      handle_delete IT (VInt 102) (sample_state IT sample_frame) = Ok (tt, s1)
      ∧ session_state s1 !! key IT = Some df1
      ∧ get_row IT df1 (Some (VInt 102)) = Ok None.
Proof.
  split_and!; [reflexivity..|].
  destruct (handle_delete IT (VInt 102) (sample_state IT sample_frame))
    as [[[] s1]|e] eqn:Hrun; [|by vm_compute in Hrun].
  destruct (delete_then_get_row_and_delete_again IT (sample_state IT sample_frame)
              s1 sample_frame (VInt 102) eq_refl eq_refl Hrun)
    as (df1 & Hdf1 & Hgone & _).
  exists s1, df1. split_and!; [reflexivity|exact Hdf1|exact Hgone].
Defined.

(** ** Update, then look up *)




(** ** Add and the dashboard *)

Lemma cell_realign a b cols own c r :
  c ∈ cols →
  cell cols c (realign a b cols own r)
  = Some (if float_column a b c then to_float (lookup_cell own c r)
          else lookup_cell own c r).
Proof.
  intros Hin. destruct (col_index_Some _ _ Hin) as [j Hj].
  unfold cell. rewrite Hj. simpl. f_equal.
  unfold cell_at, realign. rewrite nth_lookup, list_lookup_fmap.
  by rewrite (col_index_lookup _ _ _ Hj).
Qed.

Lemma count_rows_realign a b cols own c s rs :
  c ∈ cols →
  count_rows cols c (VStr s) (map (realign a b cols own) rs)
  = count_rows own c (VStr s) rs.
Proof.
  intros Hin. induction rs as [|r rs IH]; [done|].
  simpl. rewrite (cell_realign _ _ _ _ _ _ Hin), IH.
  unfold lookup_cell.
  destruct (float_column a b c); [rewrite to_float_eqb_str|];
    by destruct (cell own c r).
Qed.

(** X5. Add shows on the dashboard: when add completes, the dashboard of the
    stored frame shows one more record in total and one more open record than
    the frame had, and one more critical record exactly when the form's
    severity is 'Critical'. *)
Theorem add_raises_the_metrics
    (p : page) (s s' : St) (df : DataFrame) (nd : new_data) (now : Z) :
  session_state s !! key p = Some df →
  handle_add p nd now s = Ok (tt, s') →
  ∃ df' : DataFrame,
    session_state s' !! key p = Some df'
    ∧ display_dashboard p df'
      = Ok (Metrics (S (len df))
              (S (count_rows (columns df) "status" (VStr "Open") (rows df)))
              (count_rows (columns df) "severity" (VStr "Critical") (rows df)
               + (if String.eqb (severity nd) "Critical" then 1 else 0))%nat).
Proof.
  intros Hk Hadd. rewrite handle_add_schema in Hadd.
  destruct (schema_add_returns _ _ _ _ _ _ _ Hk Hadd) as (id & Hid & Hnd & ->).
  simpl. set (nr := Schema.new_row id nd now). set (df' := union_concat nr df).
  exists df'. split; [apply lookup_insert_eq|].
  assert (Hdup : ∀ c, duplicated c df' = false).
  { intros c. by apply NoDup_not_duplicated, concat_NoDup. }
  rewrite display_dashboard_schema. unfold Schema.display_dashboard.
  change (empty df') with false. cbn iota.
  rewrite (schema_metric _ _ _ (Hdup "status")). cbn [mbind result_bind].
  rewrite (schema_metric _ _ _ (Hdup "severity")). cbn [mbind result_bind].
  change (len df')
    with (S (length (map (realign nr df (columns df') (columns df)) (rows df)))).
  rewrite length_map.
  set (r0 := realign nr df (columns df') (columns nr)
               [id; VStr (title nd); VStr (severity nd); VStr "Open"; VTime now]).
  change (rows df')
    with (r0 :: map (realign nr df (columns df') (columns df)) (rows df)).
  cbn [count_rows]. unfold r0.
  rewrite !cell_realign by (apply concat_columns; left; compute_done).
  rewrite !count_rows_realign by (apply concat_columns; left; compute_done).
  unfold nr. rewrite !new_row_cell.
  set (f := float_column (Schema.new_row id nd now) df). clearbody f.
  cbn [String.eqb Ascii.eqb Bool.eqb to_float value_eqb].
  unfold len.
  destruct (f "status"), (f "severity"); cbn [to_float value_eqb];
    rewrite String.eqb_refl;
    destruct (String.eqb (severity nd) "Critical"); simpl; do 2 f_equal; lia.
Qed.

Lemma add_raises_the_metrics_witness :
  session_state (sample_state CyberSecurity sample_frame) !! key CyberSecurity
    = Some sample_frame
  ∧ ∃ s' df',
      handle_add CyberSecurity (mkNew "Ransomware" "Critical") 0
        (sample_state CyberSecurity sample_frame) = Ok (tt, s')
      ∧ session_state s' !! key CyberSecurity = Some df'
      ∧ display_dashboard CyberSecurity sample_frame = Ok (Metrics 3 2 1)
      ∧ display_dashboard CyberSecurity df' = Ok (Metrics 4 3 2).
Proof.
  split; [reflexivity|].
  destruct (handle_add CyberSecurity (mkNew "Ransomware" "Critical") 0
              (sample_state CyberSecurity sample_frame)) as [[[] s']|e] eqn:Hrun;
    [|by vm_compute in Hrun].
  destruct (add_raises_the_metrics CyberSecurity
              (sample_state CyberSecurity sample_frame) s' sample_frame
              (mkNew "Ransomware" "Critical") 0 eq_refl Hrun) as (df' & Hdf' & Hshow).
  exists s', df'. split_and!; [reflexivity|exact Hdf'|reflexivity|exact Hshow].
Defined.

(** ** Add, then delete *)

(** X6. Delete undoes add: on a frame that is not empty, with distinct
    labels and integer ids below 2^53 in absolute value, add followed by the
    delete of the id just given completes with two successes and stores a
    frame with as many rows as before, each row with its old cells, the
    numbers of the columns that add made float64 converted. *)
Theorem add_then_delete_restores_the_rows
    (p : page) (s : St) (df : DataFrame) (l : list Z) (nd : new_data) (now : Z) :
  session_state s !! key p = Some df →
  empty df = false →
  NoDup (columns df) →
  int_ids df = Some l →
  Forall small l →
  ∃ (s1 s2 : St) (new : Z) (df2 : DataFrame),
    handle_add p nd now s = Ok (tt, s1)
    ∧ Forall (fun x => x < new) l
    ∧ handle_delete p (VInt new) s1 = Ok (tt, s2)
    ∧ alerts s2 = alerts s ++ [Success; Success]
    ∧ session_state s2 !! key p = Some df2
    ∧ len df2 = len df
    ∧ ∀ n r, rows df !! n = Some r →
        ∃ r', rows df2 !! n = Some r'
          ∧ ∀ c, lookup_cell (columns df2) c r'
                 = if float_after_add df c
                   then to_float (lookup_cell (columns df) c r)
                   else lookup_cell (columns df) c r.
Proof.
  intros Hk Hne Hcols Hids Hsmall.
  pose proof Hids as (Hid & Hdup & Hl)%int_ids_spec.
  assert (Hlne : l ≠ []).
  { intros ->. unfold empty in Hne. destruct (rows df); [|done].
    by destruct (columns df). }
  destruct (max_plus_one_ints l Hlne Hsmall) as (new & Hmax & _ & Hlt).
  pose proof (new_id_next (first_id p) _ Hne Hid Hdup) as Hnew.
  rewrite Hl, Hmax in Hnew.
  rewrite handle_add_schema, (schema_add_run _ _ _ _ _ _ Hk).
  rewrite Hnew, (bool_decide_eq_true_2 _ Hcols).
  set (nr := Schema.new_row (VInt new) nd now).
  set (df1 := union_concat nr df).
  set (r0 := realign nr df (columns df1) (columns nr)
               [VInt new; VStr (title nd); VStr (severity nd); VStr "Open";
                VTime now]).
  set (old := map (realign nr df (columns df1) (columns df)) (rows df)).
  pose proof (add_ids _ _ nd now _ Hnew (float_after_add_int_ids _ _ Hl)) as Hids1.
  fold nr df1 in Hids1. rewrite Hl in Hids1.
  change (rows df1) with (r0 :: old) in Hids1. cbn [map] in Hids1.
  injection Hids1 as Hr0 Hold.
  assert (Hkept : List.filter (fun r => value_neb (row_id df1 r) (VInt new)) (rows df1)
                  = old).
  { change (rows df1) with (r0 :: old). cbn [List.filter]. rewrite Hr0.
    replace (value_neb (VInt new) (VInt new)) with false
      by (unfold value_neb; simpl; by rewrite Z.eqb_refl).
    apply filter_all. rewrite <- (length_map (row_id df1) (List.filter _ old)).
    rewrite <- (length_map (row_id df1) old).
    assert (Hall : ∀ rs vs, map (row_id df1) rs = VInt <$> vs →
              Forall (fun x => x < new) vs →
              map (row_id df1)
                (List.filter (fun r => value_neb (row_id df1 r) (VInt new)) rs)
              = map (row_id df1) rs).
    { clear. induction rs as [|r rs IH]; intros [|v vs] Hmap Hvs; try done.
      injection Hmap as Hr Hmap. apply Forall_cons in Hvs as [Hv Hvs].
      simpl. rewrite Hr. unfold value_neb at 1. simpl.
      destruct (Z.eqb_spec v new) as [?|_]; [lia|]. simpl.
      by rewrite Hr, (IH vs). }
    by rewrite (Hall old l). }
  assert (Hshorter : (length old <? len df1)%nat = true).
  { apply Nat.ltb_lt. unfold len. change (rows df1) with (r0 :: old). simpl. lia. }
  eexists _, _, new, _. split; [done|]. split; [done|].
  rewrite handle_delete_schema.
  rewrite (schema_delete_run (key p) _ df1 (VInt new));
    [|apply lookup_insert_eq|apply concat_has_id
     |by apply NoDup_not_duplicated, concat_NoDup].
  cbv zeta. rewrite Hkept, Hshorter.
  split; [done|]. simpl. split; [by rewrite <- app_assoc|].
  rewrite insert_insert_eq, lookup_insert_eq.
  split; [done|]. split.
  - unfold len, old. simpl. by rewrite length_map.
  - intros n r Hr. exists (realign nr df (columns df1) (columns df) r). split.
    + change (old !! n = Some (realign nr df (columns df1) (columns df) r)).
      unfold old. by rewrite list_lookup_fmap, Hr.
    + intros c. change (columns (mkDF (columns df1) _ _)) with (columns df1).
      rewrite lookup_cell_realign by (intros ?; apply concat_columns; by right).
      unfold nr. by rewrite (float_column_add _ _ _ _ _ _ Hnew).
Qed.

Lemma add_then_delete_restores_the_rows_witness :
  session_state (sample_state DataScience sample_frame) !! key DataScience
    = Some sample_frame
  ∧ empty sample_frame = false
  ∧ NoDup (columns sample_frame)
  ∧ int_ids sample_frame = Some [101; 102; 103]
  ∧ Forall small [101; 102; 103]
  ∧ ∃ s1 s2 new df2,
      handle_add DataScience sample_form 0 (sample_state DataScience sample_frame)
        = Ok (tt, s1)
      ∧ handle_delete DataScience (VInt new) s1 = Ok (tt, s2)
      ∧ session_state s2 !! key DataScience = Some df2
      ∧ len df2 = len sample_frame.
Proof.
  assert (Hcols : NoDup (columns sample_frame)) by compute_done.
  assert (Hsmall : Forall small [101; 102; 103])
    by (repeat constructor; unfold small; lia).
  split_and!; [reflexivity..|exact Hcols|reflexivity|exact Hsmall|].
  destruct (add_then_delete_restores_the_rows DataScience
              (sample_state DataScience sample_frame) sample_frame [101; 102; 103]
              sample_form 0 eq_refl eq_refl Hcols eq_refl Hsmall)
    as (s1 & s2 & new & df2 & Hadd & _ & Hdel & _ & Hdf2 & Hlen & _).
  exists s1, s2, new, df2.
  split_and!; [exact Hadd|exact Hdel|exact Hdf2|exact Hlen].
Defined.

(** ** What the handlers never do *)

(** X7. When update and delete complete.  With the page's frame in the
    session state, delete completes, showing exactly one alert, exactly when
    the label 'id' is not duplicated.  Update completes with exactly one
    alert on a frame without an 'id' column, and on a stored frame with one
    'id' column when no row has the id or when the update writes strings to
    new columns or to columns that hold text; whenever it completes, 'id' is
    not duplicated and one alert was shown.  Without the page's key in the
    session state all three handlers raise KeyError and show nothing. *)
Theorem when_update_and_delete_complete (p : page) (s : St) :
  (∀ df, session_state s !! key p = Some df →
     (∀ id, (∃ s' a, handle_delete p id s = Ok (tt, s') ∧ alerts s' = alerts s ++ [a])
            ↔ duplicated "id" df = false)
     ∧ (∀ id data,
          has_column "id" df = false
          ∨ (duplicated "id" df = false ∧ stored df
             ∧ (fits df data = true
                ∨ Forall (fun r => value_eqb (row_id df r) id = false) (rows df))) →
          ∃ s' a, handle_update p id data s = Ok (tt, s')
                  ∧ alerts s' = alerts s ++ [a])
     ∧ (∀ id data s', handle_update p id data s = Ok (tt, s') →
          duplicated "id" df = false ∧ ∃ a, alerts s' = alerts s ++ [a]))
  ∧ (session_state s !! key p = None →
     (∀ id data, handle_update p id data s = Raise (KeyError (key p)))
     ∧ (∀ id, handle_delete p id s = Raise (KeyError (key p)))
     ∧ (∀ nd now, handle_add p nd now s = Raise (KeyError (key p)))).
Proof.
  split.
  - intros df Hk. split_and!.
    + intros id. rewrite handle_delete_schema. split.
      * intros (s' & a & Hrun & _). by eapply schema_delete_returns.
      * intros Hdup. destruct (has_column "id" df) eqn:Hid.
        -- rewrite (schema_delete_run _ _ _ _ Hk Hid Hdup). by eexists _, _.
        -- rewrite (schema_delete_no_id _ _ _ _ Hk Hid). by eexists _, _.
    + intros id data Hcase. rewrite handle_update_schema.
      destruct (has_column "id" df) eqn:Hid.
      2:{ rewrite (schema_update_no_id _ _ _ _ _ Hk Hid). by eexists _, _. }
      destruct Hcase as [?|(Hdup & [Hal Hidx] & Hcase)]; [done|].
      assert (Hlen : length (index df) = length (rows df)).
      { rewrite Hidx. apply length_seq. }
      rewrite (schema_update_run _ _ _ _ _ Hk Hid Hdup). simpl.
      destruct (bool_decide_reflect
                  (mask_select (series_eq (map (row_id df) (rows df)) id) (index df)
                   = [])) as [He|Hne]; [by eexists _, _|].
      destruct Hcase as [Hfits|Hnone].
      * rewrite (try_updates_fits _ _ _ Hal Hlen Hfits). by eexists _, _.
      * exfalso. apply Hne. unfold series_eq. rewrite map_map.
        by apply (mask_select_nil (fun r => value_eqb (row_id df r) id)).
    + intros id data s' Hrun. rewrite handle_update_schema in Hrun.
      split; [by eapply schema_update_returns|].
      destruct (has_column "id" df) eqn:Hid.
      * rewrite (schema_update_result _ _ _ _ _ _ Hk Hid Hrun).
        destruct (bool_decide _); by eexists.
      * rewrite (schema_update_no_id _ _ _ _ _ Hk Hid) in Hrun.
        injection Hrun as <-. by eexists.
  - intros Hk. split_and!.
    + intros id data. rewrite handle_update_schema.
      unfold Schema.handle_update, mbind, App_bind, session_get. by rewrite Hk.
    + intros id. rewrite handle_delete_schema.
      unfold Schema.handle_delete, mbind, App_bind, session_get. by rewrite Hk.
    + intros nd now. rewrite handle_add_schema.
      unfold Schema.handle_add, mbind, App_bind, session_get. by rewrite Hk.
Qed.

Lemma when_update_and_delete_complete_witness :
  session_state (sample_state IT frame_without_id) !! key IT = Some frame_without_id
  ∧ session_state (sample_state IT frame_without_id) !! key DataScience = None
  ∧ duplicated "id" frame_without_id = false
  ∧ (∃ s' a, handle_delete IT (VStr "x") (sample_state IT frame_without_id)
             = Ok (tt, s') ∧ alerts s' = [] ++ [a])
  ∧ handle_delete DataScience (VStr "x") (sample_state IT frame_without_id)
    = Raise (KeyError "datasets_df").
Proof.
  split_and!; [reflexivity..| |].
  - destruct (when_update_and_delete_complete IT (sample_state IT frame_without_id))
      as (Hruns & _).
    destruct (Hruns frame_without_id eq_refl) as (Hdelete & _).
    apply Hdelete. reflexivity.
  - destruct (when_update_and_delete_complete DataScience
                (sample_state IT frame_without_id)) as (_ & Hraises).
    destruct (Hraises eq_refl) as (_ & Hdelete & _).
    apply Hdelete.
Defined.

Lemma handlers_keep_the_frame_stored_witness :
  session_state (sample_state IT sample_frame) !! key IT = Some sample_frame
  ∧ stored sample_frame
  ∧ ∃ s' df',
      handle_add IT sample_form 0 (sample_state IT sample_frame) = Ok (tt, s')
      ∧ session_state s' !! key IT = Some df'
      ∧ stored df'.
Proof.
  split_and!; [reflexivity|apply sample_frame_stored|].
  destruct (handle_add IT sample_form 0 (sample_state IT sample_frame))
    as [[[] s']|e] eqn:Hrun; [|by vm_compute in Hrun].
  destruct (handlers_keep_the_frame_stored IT (sample_state IT sample_frame) s'
              sample_frame eq_refl sample_frame_stored)
    as (df' & Hdf' & Hstored).
  { left. by exists sample_form, 0. }
  exists s', df'. split_and!; [reflexivity|exact Hdf'|exact Hstored].
Defined.

Lemma handlers_touch_their_key_witness :
  session_state (sample_state IT sample_frame) !! key IT = Some sample_frame
  ∧ key DataScience ≠ key IT
  ∧ ∃ s',
      handle_delete IT (VInt 102) (sample_state IT sample_frame) = Ok (tt, s')
      ∧ session_state s' !! key DataScience
        = session_state (sample_state IT sample_frame) !! key DataScience.
Proof.
  assert (Hne : key DataScience ≠ key IT) by done.
  split_and!; [reflexivity|exact Hne|].
  destruct (handle_delete IT (VInt 102) (sample_state IT sample_frame))
    as [[[] s']|e] eqn:Hrun; [|by vm_compute in Hrun].
  exists s'. split; [reflexivity|].
  apply (handlers_touch_their_key IT (sample_state IT sample_frame) s' sample_frame
           eq_refl); [|exact Hne].
  right. right. by exists (VInt 102).
Defined.

(** ** More on the chat-completion wrapper *)

Section ChatFurther.
Import Chat ChatSpec ChatPage.

Variable net : network.
Variable data : payload.

Local Abbreviation post := (Post OPENAI_API_URL ("Bearer " +:+ API_KEY) data).

Lemma messages_are_truthy :
  truthy fallback_message = true ∧ truthy authentication_message = true
  ∧ truthy failure_message = true ∧ truthy internal_error_message = true.
Proof. done. Qed.

(** How an attempt can end: with a reply that is not empty, with the unbound
    [response] when nothing was ever received, or with a wait before the next
    attempt, which then finds [response] bound. *)
Lemma try_once_cases attempt response :
  (∃ evs v, try_once net data attempt response = (post :: evs, Stop (Return v))
            ∧ truthy v = true ∧ ChatPage.total_wait evs = 0)
  ∨ (try_once net data attempt response
       = ([post], Stop (Raised (UnboundLocalError "response")))
     ∧ response = None ∧ net attempt data = NoResponse)
  ∨ (∃ status_code,
       try_once net data attempt response
       = ([post; StError; Sleep (2 ^ Z.of_nat attempt)], Next (Some status_code))
       ∧ (attempt < MAX_RETRIES - 1)%nat).
Proof.
  unfold try_once, on_request_exception.
  destruct (net attempt data) as [| |status body].
  - destruct response as [status|]; [|by right; left].
    destruct (status =? 401); [left; by eexists _, _|].
    destruct (Nat.ltb_spec attempt (MAX_RETRIES - 1)).
    + right. right. by eexists.
    + left. by eexists _, _.
  - left. by eexists _, _.
  - destruct (raise_for_status status).
    + destruct (status =? 401); [left; by eexists _, _|].
      destruct (Nat.ltb_spec attempt (MAX_RETRIES - 1)).
      * right. right. by eexists.
      * left. by eexists _, _.
    + destruct body as [result|].
      * destruct (generated_text result) as [text|]; [|left; by eexists _, _].
        left. destruct (truthy text) eqn:Ht; by eexists _, _.
      * destruct (status =? 401); [left; by eexists _, _|].
        destruct (Nat.ltb_spec attempt (MAX_RETRIES - 1)).
        -- right. right. by eexists.
        -- left. by eexists _, _.
Qed.

(** The loop from attempt [a] on, when it runs up to the last attempt. *)
Lemma retry_loop_ends n : ∀ a response,
  (a + n = MAX_RETRIES)%nat → (0 < n)%nat →
  let run := retry_loop net data (seq a n) response in
  ((∃ v, run.2 = Return v ∧ truthy v = true)
   ∨ (run = ([post], Raised (UnboundLocalError "response"))
      ∧ response = None ∧ net a data = NoResponse))
  ∧ (response ≠ None → ∃ v, run.2 = Return v)
  ∧ 0 ≤ ChatPage.total_wait run.1
  ∧ ChatPage.total_wait run.1 + 2 ^ Z.of_nat a ≤ 2 ^ Z.of_nat (MAX_RETRIES - 1).
Proof.
  induction n as [|n IH]; intros a response Ha Hn; [lia|].
  cbn [seq retry_loop].
  assert (Hpow : 2 ^ Z.of_nat a ≤ 2 ^ Z.of_nat (MAX_RETRIES - 1)).
  { apply Z.pow_le_mono_r; lia. }
  assert (Hsucc : 2 ^ Z.of_nat (S a) = 2 * 2 ^ Z.of_nat a).
  { rewrite Nat2Z.inj_succ, Z.pow_succ_r; lia. }
  assert (Hpos : 0 < 2 ^ Z.of_nat a) by (apply Z.pow_pos_nonneg; lia).
  set (top := 2 ^ Z.of_nat (MAX_RETRIES - 1)) in *.
  destruct (try_once_cases a response)
    as [(evs & v & -> & Hv & Hw)|[(-> & -> & Hnet)|(status & -> & Hlt)]].
  - cbn [fst snd ChatPage.total_wait]. rewrite Hw.
    split_and!; [left; by eexists|by eexists|lia|lia].
  - cbn [fst snd ChatPage.total_wait].
    split_and!; [by right|done|lia|lia].
  - destruct n as [|n]; [lia|].
    destruct (IH (S a) (Some status)) as (Hend & Hret & Hw0 & Hw); [lia..|].
    destruct (retry_loop net data (seq (S a) (S n)) (Some status)) as [evs' c].
    cbn [fst snd ChatPage.total_wait app] in *.
    rewrite Hsucc in Hw.
    split_and!.
    + left. destruct Hend as [?|(_ & ? & _)]; done.
    + intros _. by apply Hret.
    + lia.
    + lia.
Qed.

End ChatFurther.

Section ChatFurtherClaims.
Import Chat ChatSpec ChatPage.

(** X10. The wrapper raises in one case only: when the first request meets
    no response, the handler reads the local variable [response] before it
    was ever bound, and the call ends with UnboundLocalError after that one
    request, without a retry.  In every other case the call returns. *)
Theorem raises_only_when_the_first_request_gets_no_response
    (net : network) (prompt : string) (history : list message) :
  let data := payload_data prompt history in
  let run := get_ai_response net prompt history in
  (net 0%nat data = NoResponse →
     run = ([Post OPENAI_API_URL ("Bearer " +:+ API_KEY) data],
            Raised (UnboundLocalError "response")))
  ∧ (net 0%nat data ≠ NoResponse → ∃ v, run.2 = Return v)
  ∧ (∀ e, run.2 = Raised e →
       e = UnboundLocalError "response" ∧ net 0%nat data = NoResponse).
Proof.
  intros data run. unfold run, get_ai_response. fold data.
  destruct (retry_loop_ends net data MAX_RETRIES 0 None) as (Hend & _);
    [done|unfold MAX_RETRIES; lia|].
  cbv zeta in Hend. split_and!.
  - intros Hnet. cbn [seq MAX_RETRIES retry_loop]. unfold try_once.
    by rewrite Hnet.
  - intros Hnet. destruct Hend as [(v & Hv & _)|(_ & _ & ?)]; [by eexists|done].
  - intros e He. destruct Hend as [(v & Hv & _)|(Hrun & _ & Hnet)].
    + rewrite Hv in He. done.
    + rewrite Hrun in He. simpl in He. by injection He as <-.
Qed.

Lemma raises_only_when_the_first_request_gets_no_response_witness :
  unreachable 0%nat (payload_data "hello" []) = NoResponse
  ∧ unavailable 0%nat (payload_data "hello" []) ≠ NoResponse
  ∧ (get_ai_response unreachable "hello" []).2 = Raised (UnboundLocalError "response")
  ∧ ∃ v, (get_ai_response unavailable "hello" []).2 = Return v.
Proof.
  assert (Hu : unavailable 0%nat (payload_data "hello" []) ≠ NoResponse) by done.
  split_and!; [reflexivity|exact Hu| |].
  - destruct (raises_only_when_the_first_request_gets_no_response
                unreachable "hello" []) as (Hraise & _).
    rewrite (Hraise eq_refl). reflexivity.
  - destruct (raises_only_when_the_first_request_gets_no_response
                unavailable "hello" []) as (_ & Hreturn & _).
    exact (Hreturn Hu).
Defined.

(** X11. Whatever the network does, a reply the wrapper returns is never
    empty: it is never None, an empty string or another false value, so the
    loop never runs out without a return. *)
Theorem a_returned_reply_is_never_empty
    (net : network) (prompt : string) (history : list message) (v : json) :
  (get_ai_response net prompt history).2 = Return v →
  truthy v = true ∧ v ≠ JNull ∧ v ≠ JStr EmptyString.
Proof.
  intros Hv. unfold get_ai_response in Hv.
  destruct (retry_loop_ends net (payload_data prompt history) MAX_RETRIES 0 None)
    as (Hend & _); [done|unfold MAX_RETRIES; lia|].
  cbv zeta in Hend.
  assert (Ht : truthy v = true).
  { destruct Hend as [(v' & Hv' & Ht)|(Hrun & _)].
    - rewrite Hv' in Hv. by injection Hv as <-.
    - rewrite Hrun in Hv. done. }
  split_and!; [done|by intros ->|by intros ->].
Qed.

Lemma a_returned_reply_is_never_empty_witness :
  (get_ai_response answers_no_choices "hello" []).2 = Return internal_error_message
  ∧ truthy internal_error_message = true.
Proof.
  split; [reflexivity|].
  destruct (a_returned_reply_is_never_empty answers_no_choices "hello" []
              internal_error_message eq_refl) as (Ht & _).
  exact Ht.
Defined.

(** X12. A call spends at most 3 seconds in [time.sleep], whatever the
    network does: one second after the first attempt and two after the
    second, and nothing after the third. *)
Theorem waits_at_most_three_seconds
    (net : network) (prompt : string) (history : list message) :
  0 ≤ total_wait (get_ai_response net prompt history).1 ≤ 3.
Proof.
  unfold get_ai_response.
  destruct (retry_loop_ends net (payload_data prompt history) MAX_RETRIES 0 None)
    as (_ & _ & Hw0 & Hw); [done|unfold MAX_RETRIES; lia|].
  cbv zeta in Hw0, Hw.
  change (2 ^ Z.of_nat 0) with 1 in Hw.
  change (2 ^ Z.of_nat (MAX_RETRIES - 1)) with 4 in Hw. lia.
Qed.

End ChatFurtherClaims.

Section ChatLater.
Import Chat ChatSpec ChatPage.

Lemma try_once_after_a_response net data attempt status_code :
  (status_code =? 401) = false →
  http_error (net attempt data) = true ∨ net attempt data = NoResponse →
  ∃ status_code',
    (status_code' =? 401) = false
    ∧ try_once net data attempt (Some status_code)
      = if (attempt <? MAX_RETRIES - 1)%nat
        then ([Post OPENAI_API_URL ("Bearer " +:+ API_KEY) data; StError;
               Sleep (2 ^ Z.of_nat attempt)], Next (Some status_code'))
        else ([Post OPENAI_API_URL ("Bearer " +:+ API_KEY) data; StError],
              Stop (Return failure_message)).
Proof.
  intros Hs [Herr|Hnone]; unfold try_once, on_request_exception.
  - unfold http_error in Herr.
    destruct (net attempt data) as [| |status body]; try done.
    apply andb_true_iff in Herr as [Hr Hs'%negb_true_iff].
    exists status. rewrite Hr, Hs'. split; [done|].
    by destruct (attempt <? MAX_RETRIES - 1)%nat.
  - rewrite Hnone, Hs. exists status_code. split; [done|].
    by destruct (attempt <? MAX_RETRIES - 1)%nat.
Qed.

(** X13. Once a response has been received, a request that meets no response
    is handled like one answered with an error status, on the status of the
    earlier response: when the first attempt is answered with an error status
    other than 401 and each later attempt is answered so or meets no
    response, the call waits 1 and 2 seconds between its three attempts and
    returns the failure message; it does not raise. *)
Theorem later_connection_failures_are_retried
    (net : network) (prompt : string) (history : list message) :
  let data := payload_data prompt history in
  http_error (net 0%nat data) = true →
  (∀ i, (1 ≤ i < MAX_RETRIES)%nat →
        http_error (net i data) = true ∨ net i data = NoResponse) →
  get_ai_response net prompt history
  = (backoff data 0 2 ++ [Post OPENAI_API_URL ("Bearer " +:+ API_KEY) data; StError],
     Return failure_message).
Proof.
  intros data H0 Hlater. unfold get_ai_response. fold data.
  cbn [seq MAX_RETRIES retry_loop].
  destruct (try_once_http_error net data 0 None H0) as [s0 Ht0].
  assert (Hs0 : (s0 =? 401) = false).
  { unfold http_error, try_once in *.
    destruct (net 0%nat data) as [| |status body]; try done.
    apply andb_true_iff in H0 as [Hr Hs'%negb_true_iff].
    rewrite Hr in Ht0. unfold on_request_exception in Ht0. rewrite Hs' in Ht0.
    simpl in Ht0. by injection Ht0 as <-. }
  rewrite Ht0. cbn [Nat.ltb Nat.leb MAX_RETRIES Nat.sub].
  destruct (try_once_after_a_response net data 1 s0 Hs0) as (s1 & Hs1 & Ht1).
  { apply Hlater. unfold MAX_RETRIES. lia. }
  rewrite Ht1. cbn [Nat.ltb Nat.leb MAX_RETRIES Nat.sub].
  destruct (try_once_after_a_response net data 2 s1 Hs1) as (s2 & Hs2 & Ht2).
  { apply Hlater. unfold MAX_RETRIES. lia. }
  rewrite Ht2. cbn [Nat.ltb Nat.leb MAX_RETRIES Nat.sub]. reflexivity.
Qed.

Lemma later_connection_failures_are_retried_witness :
  http_error (goes_away 0%nat (payload_data "hello" [])) = true
  ∧ (get_ai_response goes_away "hello" []).2 = Return failure_message
  ∧ total_wait (get_ai_response goes_away "hello" []).1 = 3.
Proof.
  split; [reflexivity|].
  assert (Hlater : ∀ i, (1 ≤ i < MAX_RETRIES)%nat →
            http_error (goes_away i (payload_data "hello" [])) = true
            ∨ goes_away i (payload_data "hello" []) = NoResponse).
  { intros i Hi. right. destruct i as [|i]; [lia|reflexivity]. }
  rewrite (later_connection_failures_are_retried goes_away "hello" [] eq_refl Hlater).
  split; reflexivity.
Defined.

Lemma run_starts_with_a_request net prompt history :
  ∃ evs, (get_ai_response net prompt history).1
         = Post OPENAI_API_URL ("Bearer " +:+ API_KEY) (payload_data prompt history)
           :: evs.
Proof.
  unfold get_ai_response. cbn [seq MAX_RETRIES retry_loop].
  destruct (try_once_starts_with_post net (payload_data prompt history) 0 None)
    as [evs Hevs].
  destruct (try_once net (payload_data prompt history) 0 None)
    as [evs0 [c|response]]; simpl in Hevs; subst evs0.
  - by eexists.
  - destruct (let '(evs1, st) := try_once net _ 1 response in _) as [evs' c'].
    by eexists.
Qed.

(** X14. In a turn of the chat the user's message is appended to the stored
    conversation before the wrapper is called with that conversation as
    history, so every request of the turn carries the prompt twice: after the
    system instruction and the earlier messages come two user messages with
    the prompt.  The user's message stays appended also when the call raises,
    and no request is sent for an empty prompt. *)
Theorem chat_turn_sends_the_prompt_twice
    (net : network) (prompt : string) (messages : list message) :
  prompt ≠ EmptyString →
  ∃ evs fin,
    chat_input net (Some prompt) messages
      = (messages ++ [mkMsg "user" prompt], evs, fin)
    ∧ (∃ evs', evs
         = Post OPENAI_API_URL ("Bearer " +:+ API_KEY)
             (mkPayload OPENAI_MODEL
                (mkMsg "system" SYSTEM_INSTRUCTION
                 :: messages ++ [mkMsg "user" prompt; mkMsg "user" prompt]))
           :: evs')
    ∧ (∀ e, e ∈ evs → is_post e = true →
         e = Post OPENAI_API_URL ("Bearer " +:+ API_KEY)
               (mkPayload OPENAI_MODEL
                  (mkMsg "system" SYSTEM_INSTRUCTION
                   :: messages ++ [mkMsg "user" prompt; mkMsg "user" prompt])))
    ∧ fin ≠ Idle
    ∧ chat_input net (Some EmptyString) messages = (messages, [], Idle)
    ∧ chat_input net None messages = (messages, [], Idle).
Proof.
  intros Hprompt. unfold chat_input at 1.
  destruct (String.eqb_spec prompt EmptyString) as [?|_]; [done|].
  assert (Hdata : payload_data prompt (messages ++ [mkMsg "user" prompt])
    = mkPayload OPENAI_MODEL
        (mkMsg "system" SYSTEM_INSTRUCTION
         :: messages ++ [mkMsg "user" prompt; mkMsg "user" prompt])).
  { unfold payload_data. rewrite build_contents_history.
    by rewrite <- app_assoc. }
  destruct (run_starts_with_a_request net prompt (messages ++ [mkMsg "user" prompt]))
    as [evs' Hstart].
  pose proof (retry_loop_post_events net
                (payload_data prompt (messages ++ [mkMsg "user" prompt]))
                (seq 0 MAX_RETRIES) None) as Hposts.
  fold (get_ai_response net prompt (messages ++ [mkMsg "user" prompt])) in Hposts.
  rewrite Hdata in Hstart, Hposts.
  destruct (get_ai_response net prompt (messages ++ [mkMsg "user" prompt]))
    as [evs c].
  simpl in Hstart, Hposts.
  eexists evs, _. split; [reflexivity|].
  split; [by exists evs'|]. split; [exact Hposts|].
  split; [by destruct c|]. split; reflexivity.
Qed.

Lemma chat_turn_sends_the_prompt_twice_witness :
  "hello" ≠ EmptyString
  ∧ ∃ evs fin,
      chat_input unauthorized (Some "hello") [mkMsg "assistant" "Hi"]
      = ([mkMsg "assistant" "Hi"; mkMsg "user" "hello"], evs, fin)
      ∧ fin ≠ Idle.
Proof.
  assert (Hne : "hello" ≠ EmptyString) by done.
  split; [exact Hne|].
  destruct (chat_turn_sends_the_prompt_twice unauthorized "hello"
              [mkMsg "assistant" "Hi"] Hne) as (evs & fin & Hturn & _ & _ & Hfin & _).
  exists evs, fin. split; [exact Hturn|exact Hfin].
Defined.

End ChatLater.

(** ** More on the ticket generator *)

Section GeneratorFurther.
Import Generator.

Variable stream : nat → nat.

Lemma first_quarter_2024 d :
  0 ≤ d ≤ 90 →
  ∃ month day, Datetime.civil_from_days (19723 + d) = (2024, month, day)
               ∧ 1 ≤ month ≤ 3.
Proof.
  intros Hd.
  assert (Hall : forallb
            (fun d => let '(y, m, _) := Datetime.civil_from_days (19723 + d) in
                      (y =? 2024) && (1 <=? m) && (m <=? 3))
            (seqZ 0 91) = true) by (vm_compute; reflexivity).
  rewrite forallb_forall in Hall. specialize (Hall d).
  destruct (Datetime.civil_from_days (19723 + d)) as [[y m] day].
  assert (Hin : In d (seqZ 0 91)).
  { apply list_elem_of_In, elem_of_seqZ. lia. }
  apply Hall in Hin. apply andb_true_iff in Hin as [Hin H3].
  apply andb_true_iff in Hin as [Hy H1].
  exists m, day. split; [|lia]. f_equal. f_equal. lia.
Qed.

Lemma created_at_day d h m :
  0 ≤ d → 0 ≤ h ≤ 23 → 0 ≤ m ≤ 59 →
  (start_date + Datetime.timedelta d h m) / 86400 = 19723 + d
  ∧ (start_date + Datetime.timedelta d h m - start_date) mod 60 = 0.
Proof.
  intros Hd Hh Hm. unfold Datetime.timedelta.
  change start_date with (19723 * 86400). split.
  - symmetry. apply (Z.div_unique _ _ _ (h * 3600 + m * 60)); lia.
  - replace (19723 * 86400 + (d * 86400 + h * 3600 + m * 60) - 19723 * 86400)
      with ((d * 1440 + h * 60 + m) * 60) by lia.
    apply Z_mod_mult.
Qed.

Lemma ticket_row_detail_run ticket_id pos :
  ticket_row_detail (ticket_row ticket_id stream pos).1.
Proof.
  unfold ticket_row, mbind, Rand_bind, mret, Rand_ret.
  rewrite !choice_run, !randint_run. cbn [fst].
  set (ticket_type := nth (stream pos mod length ticket_types)%nat ticket_types
                        EmptyString).
  assert (Htype : ticket_type ∈ ticket_types).
  { apply (choice_elem stream ticket_types pos). done. }
  pose proof tables_have_entries as Htables. rewrite Forall_forall in Htables.
  destruct (Htables ticket_type Htype) as [Hdesc Hfields].
  pose proof (randint_bounds stream 0 90
                (S (S (S (S (S (S (S (S (S pos)))))))))) as Hd.
  pose proof (randint_bounds stream 0 23
                (S (S (S (S (S (S (S (S (S (S pos))))))))))) as Hh.
  pose proof (randint_bounds stream 0 59
                (S (S (S (S (S (S (S (S (S (S (S pos)))))))))))) as Hm.
  set (d := 0 + Z.of_nat (stream (S (S (S (S (S (S (S (S (S pos)))))))))
                          mod Z.to_nat (90 - 0 + 1))%nat) in *.
  set (h := 0 + Z.of_nat (stream (S (S (S (S (S (S (S (S (S (S pos))))))))))
                          mod Z.to_nat (23 - 0 + 1))%nat) in *.
  set (m := 0 + Z.of_nat (stream (S (S (S (S (S (S (S (S (S (S (S pos)))))))))))
                          mod Z.to_nat (59 - 0 + 1))%nat) in *.
  destruct (created_at_day d h m) as [Hday Hmin]; [lia..|].
  destruct (first_quarter_2024 d) as (month & day & Hcivil & Hmonth); [lia|].
  eexists _, _, ticket_type, _, _, _, _, _, _, _, _. split; [reflexivity|].
  split_and!.
  - exact Htype.
  - apply (choice_elem stream (descriptions ticket_type) (S (S (S pos)))). done.
  - apply (choice_elem stream (data_fields ticket_type)
             (S (S (S (S (S (S (S (S pos))))))))). done.
  - apply (choice_elem stream first_names (S (S (S (S pos))))). done.
  - apply (choice_elem stream last_names (S (S (S (S (S pos)))))). done.
  - apply (choice_elem stream departments (S (S (S (S (S (S pos))))))). done.
  - apply (choice_elem stream domains (S (S (S (S (S (S (S pos)))))))). done.
  - exact Hmin.
  - exists month, day. rewrite Hday. by split.
Qed.

Lemma write_rows_detail ids : ∀ pos,
  Forall ticket_row_detail (write_rows ids stream pos).1.
Proof.
  induction ids as [|ticket_id ids IH]; intros pos; [constructor|].
  simpl. unfold mbind, Rand_bind, mret, Rand_ret.
  pose proof (ticket_row_detail_run ticket_id pos) as Hrow.
  destruct (ticket_row ticket_id stream pos) as [row pos'].
  specialize (IH pos').
  destruct (write_rows ids stream pos') as [rest pos'']. simpl in *.
  by constructor.
Qed.

End GeneratorFurther.

(** X15. Whatever the random stream, every data row of the ticket file is
    consistent: its ticket type is one of the generator's eight, its
    description and its data field are drawn from the lists of that very
    ticket type, the reporter has the form
    first.last.department@domain over the generator's names, departments and
    domains, and the creation time is a whole minute of a day from January to
    March 2024. *)
Theorem generator_rows_are_consistent (stream : nat → nat) (n : nat)
    (row : list Generator.field) :
  (0 < n)%nat →
  Generator.generate_it_tickets_csv stream !! n = Some row →
  ticket_row_detail row.
Proof.
  intros Hn Hrow. unfold Generator.generate_it_tickets_csv in Hrow.
  pose proof (write_rows_detail stream (seqZ 1 1000) 0) as Hall.
  set (data_rows := (Generator.write_rows (seqZ 1 1000) stream 0%nat).1) in *.
  destruct n as [|n]; [lia|]. rewrite lookup_cons in Hrow.
  rewrite Forall_lookup in Hall. by eapply Hall.
Qed.

Lemma generator_rows_are_consistent_witness :
  (0 < 1)%nat
  ∧ ∃ row, Generator.generate_it_tickets_csv sample_stream !! 1%nat = Some row
           ∧ ticket_row_detail row.
Proof.
  split; [lia|].
  destruct (write_rows_run sample_stream (seqZ 1 1000) 0)
    as (data_rows & Hrun & Hok).
  pose proof (Forall2_length _ _ _ Hok) as Hlen. rewrite length_seqZ in Hlen.
  destruct (lookup_lt_is_Some_2 data_rows 0) as [row Hrow]; [lia|].
  assert (Hfile : Generator.generate_it_tickets_csv sample_stream !! 1%nat = Some row).
  { unfold Generator.generate_it_tickets_csv. rewrite Hrun. exact Hrow. }
  exists row. split; [exact Hfile|].
  apply (generator_rows_are_consistent sample_stream 1); [lia|exact Hfile].
Defined.

(** ** The loaders *)

Section Loaders.
Context {L : Library}.

Hypothesis to_datetime_length : ∀ s, length (to_datetime s) = length s.

Lemma convert_timestamp_column (d : DataFrame) :
  duplicated "timestamp" d = false →
  columns (converted d) = columns d
  ∧ index (converted d) = index d
  ∧ len (converted d) = len d
  ∧ (∀ n r, rows d !! n = Some r →
       ∃ r', rows (converted d) !! n = Some r' ∧ length r' = length r
         ∧ ∀ j, col_index "timestamp" (columns d) ≠ Some j →
                cell_at j r' = cell_at j r)
  ∧ (∀ j, col_index "timestamp" (columns d) = Some j →
       Forall (fun r => (j < length r)%nat) (rows d) →
       map (cell_at j) (rows (converted d)) = to_datetime (map (cell_at j) (rows d))).
Proof.
  intros Hdup. unfold converted. destruct (has_column "timestamp" d) eqn:Hts.
  2:{ apply has_column_false in Hts.
      split_and!; try done.
      - intros n r Hr. by exists r.
      - intros j Hj. congruence. }
  destruct (positions_one _ _ Hts Hdup) as (j0 & Hp & Hj0).
  unfold getitem, setitem, column_at. rewrite Hp, Hj0.
  set (s := to_datetime (map (cell_at j0) (rows d))).
  assert (Hlen : length s = length (rows d)).
  { unfold s. by rewrite to_datetime_length, length_map. }
  simpl. split_and!; try done.
  - unfold len. simpl. rewrite length_zip_with. lia.
  - intros n r Hr.
    destruct (lookup_lt_is_Some_2 s n) as [v Hv].
    { rewrite Hlen. by eapply lookup_lt_Some. }
    exists (<[j0 := v]> r). split_and!.
    + apply lookup_zip_with_Some. eauto.
    + apply length_insert.
    + intros j Hj. apply cell_at_insert_ne. congruence.
  - intros j Hj Hall. assert (j = j0) as -> by congruence. fold s.
    apply list_eq. intros n. rewrite list_lookup_fmap.
    destruct (s !! n) as [v|] eqn:Hv.
    + destruct (lookup_lt_is_Some_2 (rows d) n) as [r Hr].
      { rewrite <- Hlen. by eapply lookup_lt_Some. }
      rewrite (proj2 (lookup_zip_with_Some _ _ _ n (<[j0 := v]> r))) by eauto.
      simpl. f_equal. apply cell_at_insert_eq.
      rewrite Forall_lookup in Hall. by eapply Hall.
    + rewrite (proj2 (lookup_ge_None _ n)); [done|].
      rewrite length_zip_with. apply lookup_ge_None in Hv. lia.
Qed.

Lemma convert_duplicated (d : DataFrame) :
  duplicated "timestamp" d = true → converted d = empty_frame.
Proof.
  intros Hdup. unfold converted. rewrite (duplicated_has_column _ _ Hdup).
  by destruct (getitem_duplicated _ _ Hdup) as [cs ->].
Qed.

(** X16. Loading a file that was read.  The labels of the loaded frame are
    the file's, in lower case on the Cyber Security and Data Science pages.
    When at most one of them is 'timestamp', the loaded frame has the file's
    row labels and as many rows, each row with as many cells and with its
    cells as read outside the 'timestamp' column; that column, when every row
    reaches it, holds the conversion of the file's.  When more than one label
    is 'timestamp' the conversion fails and the loader returns the empty
    frame, as it does for a file that cannot be read for another reason than
    being absent. *)
Theorem loading_keeps_the_rows (p : page) (d : DataFrame) :
  let labels := if lowercases_columns p then map str_lower (columns d)
                else columns d in
  let df := load_csv p (CsvFrame d) in
  (duplicated "timestamp" (set_columns labels d) = true → df = empty_frame)
  ∧ (duplicated "timestamp" (set_columns labels d) = false →
     columns df = labels
     ∧ index df = index d
     ∧ len df = len d
     ∧ (∀ n r, rows d !! n = Some r →
          ∃ r', rows df !! n = Some r' ∧ length r' = length r
            ∧ ∀ j, col_index "timestamp" (columns df) ≠ Some j →
                   cell_at j r' = cell_at j r)
     ∧ (∀ j, col_index "timestamp" (columns df) = Some j →
          Forall (fun r => (j < length r)%nat) (rows d) →
          map (cell_at j) (rows df) = to_datetime (map (cell_at j) (rows d))))
  ∧ load_csv p CsvOtherError = empty_frame.
Proof.
  intros labels df.
  assert (Hdf : df = converted (set_columns labels d)).
  { unfold df, labels. destruct p; try done.
    simpl. unfold Tickets.get_tickets_from_csv, converted.
    by replace (set_columns (columns d) d) with d by by destruct d. }
  split_and!.
  - intros Hdup. rewrite Hdf. by apply convert_duplicated.
  - intros Hdup.
    destruct (convert_timestamp_column _ Hdup) as (Hc & Hi & Hl & Hrows & Hts).
    rewrite <- Hdf in Hc, Hi, Hl, Hrows, Hts. simpl in *.
    rewrite Hc. by split_and!.
  - by destruct p.
Qed.

End Loaders.

Lemma loading_keeps_the_rows_witness :
  (∀ s, length (@to_datetime sample_library s) = length s)
  ∧ duplicated "timestamp"
      (set_columns (map (@str_lower sample_library) (columns sample_file)) sample_file)
    = false
  ∧ duplicated "timestamp"
      (set_columns (map (@str_lower sample_library) (columns file_with_two_timestamps))
         file_with_two_timestamps)
    = true
  ∧ columns (@load_csv sample_library CyberSecurity (CsvFrame sample_file))
    = ["id"; "timestamp"]
  ∧ rows (@load_csv sample_library CyberSecurity (CsvFrame sample_file))
    = [[VInt 1; VTime (Datetime.datetime 2025 11 20)]; [VInt 2; VNaN]]
  ∧ @load_csv sample_library DataScience (CsvFrame file_with_two_timestamps)
    = empty_frame.
Proof.
  assert (Hlen : ∀ s, length (@to_datetime sample_library s) = length s).
  { intros s. apply length_map. }
  split; [exact Hlen|]. split; [reflexivity|]. split; [reflexivity|].
  destruct (@loading_keeps_the_rows sample_library Hlen CyberSecurity sample_file)
    as (_ & Hkeeps & _).
  destruct (Hkeeps eq_refl) as (Hcols & _).
  destruct (@loading_keeps_the_rows sample_library Hlen DataScience
              file_with_two_timestamps) as (Hempty & _).
  split; [rewrite Hcols; reflexivity|]. split; [reflexivity|].
  exact (Hempty eq_refl).
Defined.

(** ** The select boxes of the update form *)

Lemma position_lookup options o :
  o ∈ options → options !! position options (VStr o) = Some o.
Proof.
  induction options as [|o' options IH]; intros Hin.
  - by apply elem_of_nil in Hin.
  - simpl. destruct (String.eqb_spec o o') as [->|Hne]; [done|].
    apply elem_of_cons in Hin as [?|Hin]; [done|]. by apply IH.
Qed.

Lemma among_true options v :
  existsb (fun o => value_eqb v (VStr o)) options = true
  ↔ ∃ o, v = VStr o ∧ o ∈ options.
Proof.
  rewrite existsb_exists. split.
  - intros (o & Hin & Heq). exists o. apply list_elem_of_In in Hin.
    destruct v as [|s| |]; try done. simpl in Heq.
    apply String.eqb_eq in Heq. by subst.
  - intros (o & -> & Hin). exists o. split; [by apply list_elem_of_In|].
    simpl. apply String.eqb_refl.
Qed.

Lemma initial_index_lookup options v :
  ∃ i, initial_index options (Scalar v) = Ok i
    ∧ options !! i
      = match v with
        | VStr o => if bool_decide (o ∈ options) then Some o else head options
        | _ => head options
        end.
Proof.
  unfold initial_index, among.
  destruct (existsb (fun o => value_eqb v (VStr o)) options) eqn:Ha.
  - eexists. split; [done|].
    apply among_true in Ha as (o & -> & Hin).
    rewrite bool_decide_eq_true_2 by done. by apply position_lookup.
  - exists 0%nat. split; [done|].
    assert (Hnot : ¬ ∃ o, v = VStr o ∧ o ∈ options).
    { rewrite <- among_true. by rewrite Ha. }
    destruct v as [|o| |]; try by destruct options.
    rewrite bool_decide_eq_false_2; [by destruct options|].
    intros Hin. apply Hnot. by exists o.
Qed.

(** What [get] picks, by the number of cells under the label. *)
Lemma series_get_cases s key otherwise :
  ((length (positions key (labels s)) ≤ 1)%nat
   ∧ series_get s key otherwise
     = Scalar (default otherwise (cell (labels s) key (cells s))))
  ∨ ((1 < length (positions key (labels s)))%nat
     ∧ ∃ vs, series_get s key otherwise = SubSeries vs).
Proof.
  unfold series_get, cell. rewrite <- positions_head.
  destruct (positions key (labels s)) as [|j [|j' js]]; simpl.
  - left. split; [lia|done].
  - left. split; [lia|done].
  - right. split; [lia|]. by eexists.
Qed.

(** X17. The update form preselects the status of the row found when it is
    one of 'Open', 'In Progress' and 'Closed', and 'Open' otherwise: for any
    other status (such as the 'Resolved' of the generated tickets), for a
    cell that is no string and for a row without a 'status' column.  Likewise
    the severity is preselected when it is one of 'Low', 'Medium', 'High' and
    'Critical', 'Medium' stands in for a missing 'severity' column, and 'Low'
    for any other cell.  So a preselection exists, and the select boxes get
    no index out of range, whenever the row has at most one cell under the
    label; with more than one, the test [in] against the options raises. *)
Theorem update_form_preselection (current_data : Series) :
  ((length (positions "status" (labels current_data)) ≤ 1)%nat →
   preselected_status current_data
   = Ok (Some (match cell (labels current_data) "status" (cells current_data) with
               | Some (VStr o) => if bool_decide (o ∈ status_options) then o else "Open"
               | _ => "Open"
               end)))
  ∧ ((1 < length (positions "status" (labels current_data)))%nat →
     preselected_status current_data = Raise ValueError)
  ∧ ((length (positions "severity" (labels current_data)) ≤ 1)%nat →
     preselected_severity current_data
     = Ok (Some (match cell (labels current_data) "severity" (cells current_data) with
                 | Some (VStr o) =>
                     if bool_decide (o ∈ severity_options) then o else "Low"
                 | Some _ => "Low"
                 | None => "Medium"
                 end)))
  ∧ ((1 < length (positions "severity" (labels current_data)))%nat →
     preselected_severity current_data = Raise ValueError).
Proof.
  unfold preselected_status, preselected_severity. split_and!.
  - intros Hone.
    destruct (series_get_cases current_data "status" (VStr "Open"))
      as [[_ ->]|[? _]]; [|lia].
    destruct (initial_index_lookup status_options
                (default (VStr "Open")
                   (cell (labels current_data) "status" (cells current_data))))
      as (i & -> & Hi).
    simpl. rewrite Hi.
    destruct (cell _ "status" _) as [[|o| |]|]; simpl; try done.
    by destruct (bool_decide _).
  - intros Hmore.
    destruct (series_get_cases current_data "status" (VStr "Open"))
      as [[? _]|[_ [vs ->]]]; [lia|done].
  - intros Hone.
    destruct (series_get_cases current_data "severity" (VStr "Medium"))
      as [[_ ->]|[? _]]; [|lia].
    destruct (initial_index_lookup severity_options
                (default (VStr "Medium")
                   (cell (labels current_data) "severity" (cells current_data))))
      as (i & -> & Hi).
    simpl. rewrite Hi.
    destruct (cell _ "severity" _) as [[|o| |]|]; simpl; try done.
    by destruct (bool_decide _).
  - intros Hmore.
    destruct (series_get_cases current_data "severity" (VStr "Medium"))
      as [[? _]|[_ [vs ->]]]; [lia|done].
Qed.

Lemma update_form_preselection_witness :
  (length (positions "status" ["id"; "severity"; "status"]) ≤ 1)%nat
  ∧ preselected_status
      (mkSeries ["id"; "severity"; "status"] [VInt 7; VStr "High"; VStr "Closed"])
    = Ok (Some "Closed")
  ∧ (1 < length (positions "status" ["id"; "status"; "status"]))%nat
  ∧ preselected_status
      (mkSeries ["id"; "status"; "status"] [VInt 7; VStr "Open"; VStr "Closed"])
    = Raise ValueError.
Proof.
  assert (Hone : (length (positions "status" ["id"; "severity"; "status"]) ≤ 1)%nat)
    by (simpl; lia).
  assert (Hmore : (1 < length (positions "status" ["id"; "status"; "status"]))%nat)
    by (simpl; lia).
  split; [exact Hone|].
  destruct (update_form_preselection
              (mkSeries ["id"; "severity"; "status"]
                 [VInt 7; VStr "High"; VStr "Closed"])) as (Hstatus & _).
  destruct (update_form_preselection
              (mkSeries ["id"; "status"; "status"]
                 [VInt 7; VStr "Open"; VStr "Closed"])) as (_ & Hraises & _).
  split; [rewrite (Hstatus Hone); reflexivity|]. split; [exact Hmore|].
  exact (Hraises Hmore).
Defined.

(** A ticket of the generated file: its status 'Resolved' is none of the
    form's options. *)
Example resolved_is_preselected_as_open :
  preselected_status
    (mkSeries ["id"; "severity"; "status"] [VInt 7; VStr "High"; VStr "Resolved"])
  = Ok (Some "Open").
Proof. reflexivity. Qed.
